(** * Adaptive Coaching Priority Engine of coach-ai (src/vision/compare.py)

    A shallow embedding of the decision core of [vision/compare.py]:
    reliability assessment, priority scoring, issue classification, adaptive
    focus, drill recommendation, the append-only outcome store and the drill
    confidence scorer, together with the previous-session lookup.

    Conventions of the embedding.
    - A Python [float] is a real number ([R]); arithmetic is exact and the
      special values NaN and infinity are outside the model.  Comparisons of
      reals are taken through [decide] / [bool_decide], so every branch of the
      source is a branch here.
    - A Python [str] is a [string] (bytes); [str.lower] is ASCII lower-casing.
    - A Python [dict] keyed by strings is a [gmap string _]; a dict with a
      fixed set of keys is a record whose fields carry the key names.
    - [None] is [option]'s [None]; code under [try]/[except] runs in a small
      state-and-exception monad over an explicit file-system state. *)

From Stdlib Require Import Reals Lra String Ascii List Permutation Sorted.
From Stdlib Require OrderedTypeEx.
From stdpp Require Import gmap strings list fin_maps.

Open Scope R_scope.

(** ** Deciding comparisons of reals *)

#[global] Instance Rle_rel_dec : RelDecision Rle := Rle_dec.
#[global] Instance Rlt_rel_dec : RelDecision Rlt := Rlt_dec.
#[global] Instance Rge_rel_dec : RelDecision Rge := Rge_dec.
#[global] Instance Rgt_rel_dec : RelDecision Rgt := Rgt_dec.
#[global] Instance Req_rel_dec : RelDecision (@eq R) := Req_dec_T.

(** Settles every [decide] / [bool_decide] on reals in the goal by linear
    arithmetic on the branch conditions. *)
Ltac rdecide :=
  repeat (case_bool_decide || case_decide); simpl; try lra; try done.

(** Membership of a literal in a literal list, by evaluation. *)
Ltac in_list := apply (bool_decide_unpack _); vm_compute; exact I.

Ltac rabs := unfold Rabs in *; repeat destruct Rcase_abs; try lra.
Ltac rminmax := unfold Rmin, Rmax in *; repeat destruct Rle_dec; try lra.

(** ** Python string helpers *)

(** One character of [str.lower()] on ASCII text. *)
Definition lower_ascii (c : ascii) : ascii :=
  let n := nat_of_ascii c in
  if ((65 <=? n) && (n <=? 90))%nat then ascii_of_nat (n + 32) else c.

(** [s.lower()] *)
Fixpoint lower (s : string) : string :=
  match s with
  | EmptyString => EmptyString
  | String c s' => String (lower_ascii c) (lower s')
  end.

(** [sub in s] *)
Fixpoint contains (sub s : string) : bool :=
  String.prefix sub s ||
  match s with
  | EmptyString => false
  | String _ s' => contains sub s'
  end.

(** [d.get(k, dflt)] *)
Definition dict_get {V} (d : gmap string V) (k : string) (dflt : V) : V :=
  default dflt (d !! k).

(** [d[k]] guarded by [if d and k in d], for a dict argument that may be
    [None]. *)
Definition optional_get {V} (d : option (gmap string V)) (k : string) : option V :=
  match d with
  | Some m => m !! k
  | None => None
  end.

(** ** Priority Scorer: [compute_issue_priority_score] *)

(** The [components] dict of the scorer. *)
Record score_components := {
  c_severity : R;
  c_reliability : R;
  c_phase_importance : R;
  c_consistency : R;
  c_progress_modifier : R
}.

(** The dict returned by [compute_issue_priority_score]. *)
Record priority_data := {
  total_score : R;
  components : score_components;
  p_severity : R;
  p_reliability : R;
  p_phase_importance : R;
  p_consistency : R;
  p_progress_modifier : R
}.

Definition reliability_weights : gmap string R :=
  {[ "High" := 25; "Medium" := 15; "Low" := 5 ]}.

Definition phase_weights : gmap string R :=
  {[ "contact" := 20; "load" := 15; "follow_through" := 12; "preparation" := 8 ]}.

Definition compute_issue_priority_score
    (metric_name : string) (deviation : R) (phase : string)
    (reliability_level : string) (phase_stability_score : R)
    (progress_delta : R) : priority_data :=
  let priority_score := 0 in
  (* 1. severity *)
  let abs_deviation := Rabs deviation in
  let severity :=
    if contains "angle" (lower metric_name) || contains "rotation" (lower metric_name)
    then
      if decide (abs_deviation >= 80) then 40
      else if decide (abs_deviation >= 50) then 35
      else if decide (abs_deviation >= 30) then 30
      else if decide (abs_deviation >= 20) then 20
      else if decide (abs_deviation >= 10) then 10
      else 5
    else
      if decide (abs_deviation >= 4.0) then 40
      else if decide (abs_deviation >= 3.0) then 30
      else if decide (abs_deviation >= 2.0) then 20
      else if decide (abs_deviation >= 1.0) then 10
      else 5 in
  let priority_score := priority_score + severity in
  (* 2. reliability weight *)
  let reliability_points := dict_get reliability_weights reliability_level 15 in
  let priority_score := priority_score + reliability_points in
  (* 3. phase importance *)
  let phase_points := dict_get phase_weights (lower phase) 10 in
  let priority_score := priority_score + phase_points in
  (* 4. consistency *)
  let consistency_points := (phase_stability_score / 100) * 15 in
  let priority_score := priority_score + consistency_points in
  (* 5. progress modifier *)
  let progress_mod :=
    if decide (progress_delta > 5.0) then Rmin 10 progress_delta
    else if decide (progress_delta < -5.0) then Rmax (-10) progress_delta
    else 0 in
  let priority_score := priority_score + progress_mod in
  {| total_score := priority_score;
     components := {| c_severity := severity;
                      c_reliability := reliability_points;
                      c_phase_importance := phase_points;
                      c_consistency := consistency_points;
                      c_progress_modifier := progress_mod |};
     p_severity := severity;
     p_reliability := reliability_points;
     p_phase_importance := phase_points;
     p_consistency := consistency_points;
     p_progress_modifier := progress_mod |}.

(** ** Issue Classifier: [classify_coaching_issue] *)

(** The dict returned by [classify_coaching_issue]. *)
Record classification_data := {
  classification : string;
  recommendation : string;
  is_severe : bool;
  is_reliable : bool;
  is_improving : bool;
  is_worsening : bool;
  is_consistent : bool
}.

(** [progress_delta is not None and P progress_delta] *)
Definition not_none_and (progress_delta : option R) (P : R -> bool) : bool :=
  match progress_delta with
  | None => false
  | Some d => P d
  end.

Definition classify_coaching_issue
    (metric_name : string) (current_deviation : R) (reliability_level : string)
    (progress_delta : option R) (phase_stability : R) : classification_data :=
  let abs_dev := Rabs current_deviation in
  let is_severe :=
    if contains "angle" (lower metric_name)
    then bool_decide (abs_dev >= 50) else bool_decide (abs_dev >= 3.0) in
  let is_moderate :=
    if contains "angle" (lower metric_name)
    then bool_decide (abs_dev >= 20) else bool_decide (abs_dev >= 1.5) in
  let is_reliable := bool_decide (reliability_level ∈ ["High"; "Medium"]) in
  let is_improving := not_none_and progress_delta (fun d => bool_decide (d < -5.0)) in
  let is_worsening := not_none_and progress_delta (fun d => bool_decide (d > 5.0)) in
  let is_consistent := bool_decide (phase_stability >= 70.0) in
  let '(classification, recommendation) :=
    if is_severe && bool_decide (reliability_level = "High") && is_consistent then
      if is_worsening
      then ("CRITICAL", "Address immediately - severe issue getting worse")
      else ("CRITICAL", "Address immediately - severe and consistent issue")
    else if is_severe && is_reliable then
      ("PRIORITY", "Focus on this - significant deviation from pro technique")
    else if is_moderate && is_reliable && negb is_improving then
      ("PRIORITY", "Important area for improvement")
    else if is_improving && is_reliable then
      ("MONITOR", "Continue current approach - showing improvement")
    else if bool_decide (reliability_level = "Low") && negb is_severe then
      ("SUPPRESS", "Low measurement confidence - may not be actionable")
    else if is_moderate && bool_decide (reliability_level = "Low") then
      ("MONITOR", "Verify measurement quality before focusing on this")
    else
      ("MONITOR", "Track progress - minor issue or improving") in
  {| classification := classification;
     recommendation := recommendation;
     is_severe := is_severe;
     is_reliable := is_reliable;
     is_improving := is_improving;
     is_worsening := is_worsening;
     is_consistent := is_consistent |}.

(** The decision list of the specification (section 4.5), written from its
    wording: seven rules over the six flags, the first match wins. *)
Definition spec_decision_rules
    (severe moderate : bool) (reliability : string)
    (improving worsening consistent : bool) : string :=
  let reliable := bool_decide (reliability = "High" ∨ reliability = "Medium") in
  if severe && bool_decide (reliability = "High") && consistent then "CRITICAL"
  else if severe && reliable then "PRIORITY"
  else if moderate && reliable && negb improving then "PRIORITY"
  else if improving && reliable then "MONITOR"
  else if bool_decide (reliability = "Low") && negb severe then "SUPPRESS"
  else if moderate && bool_decide (reliability = "Low") then "MONITOR"
  else "MONITOR".

(** The six flags as the specification words them. *)
Definition spec_is_severe (angle_metric : bool) (deviation : R) : bool :=
  if angle_metric then bool_decide (Rabs deviation >= 50)
  else bool_decide (Rabs deviation >= 3.0).

Definition spec_is_moderate (angle_metric : bool) (deviation : R) : bool :=
  if angle_metric then bool_decide (Rabs deviation >= 20)
  else bool_decide (Rabs deviation >= 1.5).

Definition spec_is_improving (progress_delta : option R) : bool :=
  match progress_delta with Some d => bool_decide (d < -5.0) | None => false end.

Definition spec_is_worsening (progress_delta : option R) : bool :=
  match progress_delta with Some d => bool_decide (d > 5.0) | None => false end.

Definition spec_is_consistent (phase_stability : R) : bool :=
  bool_decide (phase_stability >= 70.0).

Definition classifications : list string :=
  ["CRITICAL"; "PRIORITY"; "MONITOR"; "SUPPRESS"].

(** ** Reliability Assessor: [compute_confidence_statistics] and
       [assess_measurement_reliability] *)

(** [series.dropna()]: the non-missing samples of a column, [None] being NaN. *)
Definition dropna (column : list (option R)) : list R :=
  omap (fun sample : option R => sample) column.

(** [np.mean] *)
Definition np_mean (values : list R) : R :=
  foldr Rplus 0 values / INR (length values).

(** [np.std] (population standard deviation, [ddof = 0]):
    [sqrt(mean(abs(x - x.mean())**2))]. *)
Definition np_std (values : list R) : R :=
  let m := np_mean values in
  sqrt (np_mean (map (fun x => Rabs (x - m) ^ 2) values)).

(** [np.min] and [np.max]; both are only applied to non-empty series. *)
Definition np_min (values : list R) : R :=
  match values with
  | [] => 0
  | x :: rest => foldl Rmin x rest
  end.

Definition np_max (values : list R) : R :=
  match values with
  | [] => 0
  | x :: rest => foldl Rmax x rest
  end.

(** One entry of [confidence_stats]. *)
Record metric_stats := {
  st_mean : R;
  st_std : R;
  st_min : R;
  st_max : R;
  st_range : R;
  st_cv : R
}.

Definition key_metrics : list string :=
  [ "left_shoulder_angle"; "right_shoulder_angle";
    "left_elbow_angle"; "right_elbow_angle";
    "left_knee_angle"; "right_knee_angle";
    "hip_rotation"; "spine_lean"; "stance_width_normalized" ].

(** The dict literal stored for a metric with samples [values]. *)
Definition describe (values : list R) : metric_stats :=
  {| st_mean := np_mean values;
     st_std := np_std values;
     st_min := np_min values;
     st_max := np_max values;
     st_range := np_max values - np_min values;
     st_cv := if decide (np_mean values <> 0)
              then np_std values / np_mean values else 0.0 |}.

(** [features_df] is given by its columns; [phase_data] is accepted and not
    used, as in the source. *)
Definition compute_confidence_statistics
    (features_df : gmap string (list (option R)))
    (phase_data : option (gmap string (Z * Z))) : gmap string metric_stats :=
  foldl (fun confidence_stats metric =>
           match features_df !! metric with
           | Some column =>
               let values := dropna column in
               if decide (0 < length values)%nat
               then <[metric := describe values]> confidence_stats
               else confidence_stats
           | None => confidence_stats
           end)
        ∅ key_metrics.

(** One entry of the reliability dict. *)
Record reliability_entry := {
  level : string;
  description : string;
  r_cv : R;
  r_std : R
}.

Definition assess_metric (metric : string) (stats : metric_stats) : reliability_entry :=
  let cv := st_cv stats in
  let std := st_std stats in
  if contains "angle" metric then
    if decide (std < 10.0) then
      {| level := "High"; description := "Very stable measurement";
         r_cv := cv; r_std := std |}
    else if decide (std < 20.0) then
      {| level := "Medium"; description := "Moderate variation";
         r_cv := cv; r_std := std |}
    else
      {| level := "Low";
         description := "High variation - measurement may be noisy";
         r_cv := cv; r_std := std |}
  else
    if decide (cv < 0.15) then
      {| level := "High"; description := "Very stable measurement";
         r_cv := cv; r_std := std |}
    else if decide (cv < 0.30) then
      {| level := "Medium"; description := "Moderate variation";
         r_cv := cv; r_std := std |}
    else
      {| level := "Low";
         description := "High variation - measurement may be noisy";
         r_cv := cv; r_std := std |}.

(** The loop [for metric, stats in confidence_stats.items()], whose body
    [assess_metric] assigns [reliability[metric]] in every branch. *)
Definition assess_measurement_reliability
    (confidence_stats : gmap string metric_stats) : gmap string reliability_entry :=
  map_imap (fun metric stats => Some (assess_metric metric stats)) confidence_stats.

(** The policy of the specification (section 4.1), from its wording:
    angle/rotation metrics by standard deviation, ratio metrics by CV. *)
Definition spec_level_by_std (std : R) : string :=
  if decide (std < 10) then "High"
  else if decide (std <= 20) then "Medium"
  else "Low".

Definition spec_level_by_cv (cv : R) : string :=
  if decide (cv < 0.15) then "High"
  else if decide (cv < 0.30) then "Medium"
  else "Low".

(** ** Sorting: [list.sort(reverse=True)] *)

(** Python's sort is stable, also under [reverse=True]: elements that compare
    equal keep their original order.  [lt x y] is the test "x sorts below y";
    an element is inserted in front of the first element that is not above it. *)
Fixpoint insert_desc {A} (lt : A -> A -> bool) (x : A) (l : list A) : list A :=
  match l with
  | [] => [x]
  | y :: l' => if lt x y then y :: insert_desc lt x l' else x :: y :: l'
  end.

Definition sort_desc {A} (lt : A -> A -> bool) (l : list A) : list A :=
  foldr (insert_desc lt) [] l.

(** [a] may stand in front of [b] in a descending list. *)
Definition not_below {A} (lt : A -> A -> bool) (a b : A) : Prop := lt a b = false.

(** ** Previous-session lookup: [find_previous_session] *)

(** An entry yielded by [base_path.iterdir()]. *)
Record dir_item := {
  name : string;
  is_dir : bool
}.

(** What the function finds at [base_dir]: nothing, a directory whose
    listing raises, or a directory with its entries. *)
Inductive base_dir_state :=
  | Missing
  | Unreadable
  | Listing (items : list dir_item).

(** The test applied to each entry: a directory, not the current session,
    whose name has the shape of a timestamp [YYYY-MM-DD_HH-MM-SS]. *)
Definition is_session_dir (current_session_id : option string) (item : dir_item) : bool :=
  is_dir item && bool_decide (Some (name item) <> current_session_id) &&
  ((String.length (name item) =? 19)%nat &&
   bool_decide (String.get 10 (name item) = Some "_"%char)).

Definition find_previous_session
    (base_dir : base_dir_state) (current_session_id : option string) : option string :=
  match base_dir with
  | Missing => None
  | Unreadable => None
  | Listing items =>
      let session_dirs :=
        map name (List.filter (is_session_dir current_session_id) items) in
      match session_dirs with
      | [] => None
      | _ :: _ => head (sort_desc String.ltb session_dirs)
      end
  end.

(** "Previous session" as the specification defines it (section 6): the
    largest identifier strictly below the current one, none if there is none. *)
Definition spec_previous_session
    (sessions : list string) (current : string) (result : option string) : Prop :=
  match result with
  | Some s =>
      In s sessions /\ String.ltb s current = true /\
      forall t, In t sessions -> String.ltb t current = true -> String.leb t s = true
  | None => forall t, In t sessions -> String.ltb t current = false
  end.

(** ** Adaptive focus: [generate_adaptive_coaching_focus] *)

(** One element of [ranked_cues]: a 5-tuple read by position.  The producer
    ([rank_cues_by_deviation]) puts a numeric score first and the cue text
    second; positions 2, 3 and 4 are the metric name, the signed deviation
    and the phase. *)
Definition cue_tuple : Type := R * string * string * R * string.

(** An entry of [user_phase_stability]. *)
Record phase_stability_entry := {
  ps_metrics : gmap string (R * R);
  ps_overall_score : R
}.

(** An entry of the progress dict: current, previous, delta and status. *)
Record progress_entry := {
  pe_current : R;
  pe_previous : R;
  pe_delta : R;
  pe_status : string * string
}.

(** The [progress_deltas] dict, by the keys that are written or read. *)
Record progress_dict := {
  pd_overall_score : option progress_entry;
  pd_phase_weighted_score : option progress_entry;
  pd_phase_deltas : option (gmap string progress_entry);
  pd_phase_scores : option (gmap string progress_entry)
}.

(** One element of [adaptive_cues]. *)
Record adaptive_cue := {
  ac_cue_text : R;
  ac_metric : string;
  ac_phase : string;
  ac_deviation : R;
  ac_priority_score : R;
  ac_priority_components : score_components;
  ac_classification : string;
  ac_recommendation : string;
  ac_reliability : string;
  ac_phase_stability : R;
  ac_progress_delta : R
}.

(** The dict returned by [generate_adaptive_coaching_focus]. *)
Record adaptive_focus := {
  all_adaptive_cues : list adaptive_cue;
  critical : list adaptive_cue;
  priority : list adaptive_cue;
  monitor : list adaptive_cue;
  suppressed : list adaptive_cue;
  top_3 : list adaptive_cue
}.

(** The body of the loop over [ranked_cues]. *)
Definition adapt_cue
    (user_reliability : option (gmap string reliability_entry))
    (user_phase_stability : option (gmap string phase_stability_entry))
    (progress_deltas : option progress_dict)
    (cue_data : cue_tuple) : adaptive_cue :=
  let '(cue_text, phase_name, metric_name, deviation, phase) := cue_data in
  let reliability_level :=
    match optional_get user_reliability metric_name with
    | Some entry => level entry
    | None => "Medium"
    end in
  let phase_stability :=
    match optional_get user_phase_stability phase with
    | Some entry => ps_overall_score entry
    | None => 75.0
    end in
  let progress_delta :=
    match optional_get (progress_deltas ≫= pd_phase_scores) phase with
    | Some entry => pe_delta entry
    | None => 0.0
    end in
  let priority_data :=
    compute_issue_priority_score metric_name deviation phase
      reliability_level phase_stability progress_delta in
  let classification_data :=
    classify_coaching_issue metric_name deviation reliability_level
      (Some progress_delta) phase_stability in
  {| ac_cue_text := cue_text;
     ac_metric := metric_name;
     ac_phase := phase;
     ac_deviation := deviation;
     ac_priority_score := total_score priority_data;
     ac_priority_components := components priority_data;
     ac_classification := classification classification_data;
     ac_recommendation := recommendation classification_data;
     ac_reliability := reliability_level;
     ac_phase_stability := phase_stability;
     ac_progress_delta := progress_delta |}.

(** The sort key comparison of [adaptive_cues.sort(key=priority_score)]. *)
Definition lower_priority (a b : adaptive_cue) : bool :=
  bool_decide (ac_priority_score a < ac_priority_score b).

(** [[c for c in adaptive_cues if c['classification'] == label]] *)
Definition with_classification (label : string) (cues : list adaptive_cue) :
    list adaptive_cue :=
  List.filter (fun c => bool_decide (ac_classification c = label)) cues.

Definition generate_adaptive_coaching_focus
    (ranked_cues : list cue_tuple)
    (user_reliability : option (gmap string reliability_entry))
    (user_phase_stability : option (gmap string phase_stability_entry))
    (progress_deltas : option progress_dict) : adaptive_focus :=
  let adaptive_cues :=
    map (adapt_cue user_reliability user_phase_stability progress_deltas)
        ranked_cues in
  let adaptive_cues := sort_desc lower_priority adaptive_cues in
  {| all_adaptive_cues := adaptive_cues;
     critical := with_classification "CRITICAL" adaptive_cues;
     priority := with_classification "PRIORITY" adaptive_cues;
     monitor := with_classification "MONITOR" adaptive_cues;
     suppressed := with_classification "SUPPRESS" adaptive_cues;
     top_3 := if decide (3 <= length adaptive_cues)%nat
              then take 3 adaptive_cues else adaptive_cues |}.

(** ** Drill Recommender: [get_drill_knowledge_base],
       [map_metric_to_drill_category], [generate_adaptive_drill_recommendations] *)

(** The [intensity] dict of a drill. *)
Record intensity_levels := {
  light : string;
  moderate : string;
  intensive : string
}.

(** A drill of the knowledge base. *)
Record drill := {
  d_name : string;
  d_description : string;
  d_target_metrics : list string;
  d_target_phases : list string;
  d_intensity : intensity_levels;
  d_rationale : string
}.

(** The value stored under a category key: [{'drills': [...]}]. *)
Record drill_category := { drills : list drill }.

Definition get_drill_knowledge_base : gmap string drill_category :=
  {[ "hip_rotation" := {| drills := [
       {| d_name := "Medicine Ball Rotational Throws";
          d_description := "Stand sideways to wall, rotate hips explosively to throw medicine ball";
          d_target_metrics := ["hip_rotation"];
          d_target_phases := ["load"; "contact"];
          d_intensity := {| light := "2 sets × 8 reps, 4-6 lbs ball";
                            moderate := "3 sets × 10 reps, 6-8 lbs ball";
                            intensive := "4 sets × 12 reps, 8-10 lbs ball, daily" |};
          d_rationale := "Builds rotational power and hip coiling mechanics" |};
       {| d_name := "Hip Rotation Shadow Swings";
          d_description := "Practice stroke focusing solely on hip rotation, exaggerate the movement";
          d_target_metrics := ["hip_rotation"];
          d_target_phases := ["load"; "contact"];
          d_intensity := {| light := "50 reps, slow tempo";
                            moderate := "100 reps, match tempo";
                            intensive := "200 reps daily, with resistance band" |};
          d_rationale := "Isolates hip rotation to build muscle memory" |} ] |};
     "elbow_angles" := {| drills := [
       {| d_name := "Wall Contact Drill";
          d_description := "Stand close to wall, practice stroke keeping elbows compact and close to body";
          d_target_metrics := ["left_elbow_angle"; "right_elbow_angle"];
          d_target_phases := ["contact"; "load"];
          d_intensity := {| light := "3 sets × 10 reps";
                            moderate := "5 sets × 15 reps";
                            intensive := "10 sets × 20 reps, add resistance bands" |};
          d_rationale := "Enforces proper elbow position and compact arm structure" |};
       {| d_name := "Elbow-to-Body Connection";
          d_description := "Hold small towel between elbow and torso during shadow strokes";
          d_target_metrics := ["left_elbow_angle"; "right_elbow_angle"];
          d_target_phases := ["preparation"; "load"; "contact"];
          d_intensity := {| light := "50 reps";
                            moderate := "100 reps";
                            intensive := "200 reps, progress to live balls" |};
          d_rationale := "Creates kinesthetic awareness of proper elbow position" |} ] |};
     "knee_stability" := {| drills := [
       {| d_name := "Split-Step to Stance Drill";
          d_description := "Practice split-step followed by balanced backhand stance, hold for 3 seconds";
          d_target_metrics := ["left_knee_angle"; "right_knee_angle"];
          d_target_phases := ["preparation"; "load"];
          d_intensity := {| light := "2 sets × 10 reps";
                            moderate := "3 sets × 15 reps";
                            intensive := "5 sets × 20 reps with weights" |};
          d_rationale := "Builds lower body stability and balance" |} ] |};
     "stance_width" := {| drills := [
       {| d_name := "Ladder Footwork Drill";
          d_description := "Use agility ladder, practice split-stepping into consistent stance width";
          d_target_metrics := ["stance_width_normalized"];
          d_target_phases := ["preparation"];
          d_intensity := {| light := "3 minutes";
                            moderate := "5 minutes";
                            intensive := "10 minutes with shadow strokes" |};
          d_rationale := "Develops consistent footwork and stance positioning" |};
       {| d_name := "Cone Placement Training";
          d_description := "Place cones at optimal foot positions, practice hitting from marked stance";
          d_target_metrics := ["stance_width_normalized"];
          d_target_phases := ["preparation"; "load"];
          d_intensity := {| light := "20 balls";
                            moderate := "50 balls";
                            intensive := "100 balls across multiple sessions" |};
          d_rationale := "Provides visual feedback for proper stance width" |} ] |};
     "spine_lean" := {| drills := [
       {| d_name := "Mirror Posture Check";
          d_description := "Practice stroke in front of mirror, focus on maintaining proper spine angle";
          d_target_metrics := ["spine_lean"];
          d_target_phases := ["preparation"; "load"; "contact"];
          d_intensity := {| light := "5 minutes daily";
                            moderate := "10 minutes daily";
                            intensive := "15 minutes 2x daily with video recording" |};
          d_rationale := "Visual feedback for posture correction" |} ] |};
     "shoulder_stability" := {| drills := [
       {| d_name := "Resistance Band Shoulder Rotations";
          d_description := "Use resistance bands to strengthen shoulder stability through stroke motion";
          d_target_metrics := ["left_shoulder_angle"; "right_shoulder_angle"];
          d_target_phases := ["preparation"; "load"];
          d_intensity := {| light := "2 sets × 10 reps, light band";
                            moderate := "3 sets × 15 reps, medium band";
                            intensive := "4 sets × 20 reps, heavy band" |};
          d_rationale := "Builds shoulder strength and stability" |} ] |};
     "general_technique" := {| drills := [
       {| d_name := "Slow-Motion Shadow Strokes";
          d_description := "Execute full stroke in slow motion, focus on feeling each phase";
          d_target_metrics := ["all"];
          d_target_phases := ["all"];
          d_intensity := {| light := "25 reps";
                            moderate := "50 reps";
                            intensive := "100 reps with video analysis" |};
          d_rationale := "Builds muscle memory and movement awareness" |};
       {| d_name := "Video Review Sessions";
          d_description := "Record yourself, compare side-by-side with pro reference";
          d_target_metrics := ["all"];
          d_target_phases := ["all"];
          d_intensity := {| light := "1x per week";
                            moderate := "2x per week";
                            intensive := "3x per week with detailed notes" |};
          d_rationale := "Provides objective feedback on progress" |} ] |} ]}.

Definition map_metric_to_drill_category (metric_name : string) : string :=
  let metric_lower := lower metric_name in
  if contains "hip" metric_lower && contains "rotation" metric_lower then "hip_rotation"
  else if contains "elbow" metric_lower then "elbow_angles"
  else if contains "knee" metric_lower then "knee_stability"
  else if contains "stance" metric_lower || contains "width" metric_lower then "stance_width"
  else if contains "spine" metric_lower || contains "lean" metric_lower then "spine_lean"
  else if contains "shoulder" metric_lower then "shoulder_stability"
  else "general_technique".

(** A drill prescription, element of the three drill lists. *)
Record prescription := {
  rx_issue_metric : string;
  rx_issue_phase : string;
  rx_drill_name : string;
  rx_drill_description : string;
  rx_intensity_level : string;
  rx_prescription : string;
  rx_rationale : string;
  rx_priority_score : R;
  rx_urgency : string;
  rx_reason : string
}.

(** The dict returned by [generate_adaptive_drill_recommendations]. *)
Record recommendations := {
  critical_drills : list prescription;
  priority_drills : list prescription;
  maintenance_drills : list prescription;
  suppressed_count : nat
}.

(** [drill_kb[category]['drills']] under the guard
    [category in drill_kb and drill_kb[category]['drills']]. *)
Definition available_drills (drill_kb : gmap string drill_category)
    (category : string) : option (list drill) :=
  match drill_kb !! category with
  | Some entry => match drills entry with [] => None | _ :: _ => Some (drills entry) end
  | None => None
  end.

Section DrillRecommender.
(** The float format [:.1f] of the reason texts; real numbers carry no
    decimal rendering of their own, so the formatter is a parameter. *)
Variable format_1f : R -> string.

(** [{abs(deviation):.1f}] followed by the degree sign unless the metric is
    a normalized one. *)
Definition deviation_text (issue : adaptive_cue) : string :=
  format_1f (Rabs (ac_deviation issue)) +:+
  (if negb (contains "normalized" (ac_metric issue)) then "°" else "").

(** Loop over [adaptive_focus['critical']]: first drill, intensive. *)
Definition critical_drills_for (drill_kb : gmap string drill_category)
    (issues : list adaptive_cue) : list prescription :=
  omap (fun issue =>
          let category := map_metric_to_drill_category (ac_metric issue) in
          available ← available_drills drill_kb category;
          drill ← available !! 0%nat;
          Some {| rx_issue_metric := ac_metric issue;
                  rx_issue_phase := ac_phase issue;
                  rx_drill_name := d_name drill;
                  rx_drill_description := d_description drill;
                  rx_intensity_level := "intensive";
                  rx_prescription := intensive (d_intensity drill);
                  rx_rationale := d_rationale drill;
                  rx_priority_score := ac_priority_score issue;
                  rx_urgency := "HIGH";
                  rx_reason := "Critical issue: " +:+ deviation_text issue +:+
                               " deviation, " +:+ ac_reliability issue +:+
                               " reliability" |})
       issues.

(** Loop over [adaptive_focus['priority'][:3]]: second drill if the category
    has one, moderate. *)
Definition priority_drills_for (drill_kb : gmap string drill_category)
    (issues : list adaptive_cue) : list prescription :=
  omap (fun issue =>
          let category := map_metric_to_drill_category (ac_metric issue) in
          available ← available_drills drill_kb category;
          drill ← (if decide (length available = 1%nat)
                   then available !! 0%nat
                   else available !! Nat.min 1 (length available - 1));
          Some {| rx_issue_metric := ac_metric issue;
                  rx_issue_phase := ac_phase issue;
                  rx_drill_name := d_name drill;
                  rx_drill_description := d_description drill;
                  rx_intensity_level := "moderate";
                  rx_prescription := moderate (d_intensity drill);
                  rx_rationale := d_rationale drill;
                  rx_priority_score := ac_priority_score issue;
                  rx_urgency := "MODERATE";
                  rx_reason := "Priority issue: " +:+ deviation_text issue +:+
                               " deviation, needs focused work" |})
       (take 3 issues).

(** Loop over [adaptive_focus['monitor'][:2]]: improving issues only, light. *)
Definition maintenance_drills_for (drill_kb : gmap string drill_category)
    (issues : list adaptive_cue) : list prescription :=
  omap (fun issue =>
          if decide (ac_progress_delta issue < -5) then
            let category := map_metric_to_drill_category (ac_metric issue) in
            available ← available_drills drill_kb category;
            drill ← available !! 0%nat;
            Some {| rx_issue_metric := ac_metric issue;
                    rx_issue_phase := ac_phase issue;
                    rx_drill_name := d_name drill;
                    rx_drill_description := d_description drill;
                    rx_intensity_level := "light";
                    rx_prescription := light (d_intensity drill);
                    rx_rationale := d_rationale drill;
                    rx_priority_score := ac_priority_score issue;
                    rx_urgency := "MAINTENANCE";
                    rx_reason := "Currently improving - maintain progress with light practice" |}
          else None)
       (take 2 issues).

(** The fallback prescription built from the first general-technique drill. *)
Definition general_prescription (general : drill) : prescription :=
  {| rx_issue_metric := "general";
     rx_issue_phase := "all";
     rx_drill_name := d_name general;
     rx_drill_description := d_description general;
     rx_intensity_level := "moderate";
     rx_prescription := moderate (d_intensity general);
     rx_rationale := d_rationale general;
     rx_priority_score := 50.0;
     rx_urgency := "MODERATE";
     rx_reason := "General technique refinement" |}.

(** [drill_kb = None] selects the built-in knowledge base.  The result is
    [None] when the fallback's [drill_kb['general_technique']['drills'][0]]
    raises (missing key or empty list in a caller-supplied knowledge base). *)
Definition generate_adaptive_drill_recommendations
    (focus : adaptive_focus) (drill_kb : option (gmap string drill_category)) :
    option recommendations :=
  let drill_kb := default get_drill_knowledge_base drill_kb in
  let critical_drills := critical_drills_for drill_kb (critical focus) in
  let priority_drills := priority_drills_for drill_kb (priority focus) in
  let maintenance_drills := maintenance_drills_for drill_kb (monitor focus) in
  let suppressed_count := length (suppressed focus) in
  match critical_drills, priority_drills with
  | [], [] =>
      entry ← drill_kb !! "general_technique";
      general ← drills entry !! 0%nat;
      Some {| critical_drills := critical_drills;
              priority_drills := priority_drills ++ [general_prescription general];
              maintenance_drills := maintenance_drills;
              suppressed_count := suppressed_count |}
  | _, _ =>
      Some {| critical_drills := critical_drills;
              priority_drills := priority_drills;
              maintenance_drills := maintenance_drills;
              suppressed_count := suppressed_count |}
  end.
End DrillRecommender.

(** ** The outcome store: [save_drill_outcomes] *)

(** An outcome record, one object of [drill_outcomes.json]. *)
Record outcome := {
  o_previous_session_id : string;
  o_current_session_id : string;
  o_metric_name : string;
  o_phase : string;
  o_drill_name : string;
  o_intensity : string;
  o_classification : string;
  o_pre_value : R;
  o_post_value : R;
  o_delta : R;
  o_reliability : string;
  o_timestamp : string
}.

(** What is found at the path of [drill_outcomes.json]: text that
    [json.load] rejects, a JSON value that is not an array, an array of
    outcome records, or a path the system refuses to examine (permission
    denied on a directory of the path), which can be neither looked up nor
    opened. *)
Inductive file_content :=
  | Unparseable
  | NotAnArray
  | Records (history : list outcome)
  | Inaccessible.

(** How an attempt to rewrite the file ends: written in full, refused when
    opening (file untouched), or interrupted after truncation. *)
Inductive write_behaviour :=
  | WriteOk
  | OpenDenied
  | Interrupted.

(** The part of the world the store functions touch: the file, if it
    exists, and the faults the operating system will answer with. *)
Record fs := {
  outcome_file : option file_content;
  mkdir_fails : bool;
  read_fails : bool;
  write : write_behaviour
}.

Definition set_outcome_file (content : option file_content) (st : fs) : fs :=
  {| outcome_file := content;
     mkdir_fails := mkdir_fails st;
     read_fails := read_fails st;
     write := write st |}.

(** Python exceptions raised by the operations below. *)
Inductive exn :=
  | OSError
  | JSONDecodeError
  | AttributeError
  | TypeError.

(** Computations that read and write the store and may raise. *)
Definition io (A : Type) : Type := fs -> (exn + A) * fs.

Definition ret {A} (a : A) : io A := fun st => (inr a, st).

Definition raise {A} (e : exn) : io A := fun st => (inl e, st).

Definition bind {A B} (m : io A) (k : A -> io B) : io B :=
  fun st =>
    match m st with
    | (inr a, st') => k a st'
    | (inl e, st') => (inl e, st')
    end.

(** [try: body  except: handler] *)
Definition try_except {A} (body : io A) (handler : exn -> io A) : io A :=
  fun st =>
    match body st with
    | (inr a, st') => (inr a, st')
    | (inl e, st') => handler e st'
    end.

#[global] Instance io_ret : MRet io := @ret.
#[global] Instance io_bind : MBind io := fun A B k m => bind m k.

(** [Path(output_dir).mkdir(parents=True, exist_ok=True)] *)
Definition mkdir : io unit :=
  fun st => if mkdir_fails st then (inl OSError, st) else (inr tt, st).

(** [outcome_file.exists()]: [Path.exists] answers [False] for an absent
    path and [True] for a present one, and lets every other error of the
    underlying [stat] through, a refused permission among them. *)
Definition exists_file : io bool :=
  fun st =>
    match outcome_file st with
    | None => (inr false, st)
    | Some Inaccessible => (inl OSError, st)
    | Some _ => (inr true, st)
    end.

(** [with open(outcome_file, 'r') as f: json.load(f)] *)
Definition json_load : io file_content :=
  fun st =>
    if read_fails st then (inl OSError, st)
    else match outcome_file st with
         | None => (inl OSError, st)
         | Some Inaccessible => (inl OSError, st)
         | Some Unparseable => (inl JSONDecodeError, st)
         | Some content => (inr content, st)
         end.

(** [with open(outcome_file, 'w') as f: json.dump(history, f, indent=2)] *)
Definition json_dump (history : list outcome) : io unit :=
  fun st =>
    match outcome_file st, write st with
    | Some Inaccessible, _ => (inl OSError, st)
    | _, WriteOk => (inr tt, set_outcome_file (Some (Records history)) st)
    | _, OpenDenied => (inl OSError, st)
    | _, Interrupted => (inl OSError, set_outcome_file (Some Unparseable) st)
    end.

(** [existing_outcomes.extend(outcomes)]: only a list has [extend]. *)
Definition extend (existing : file_content) (outcomes : list outcome) :
    io (list outcome) :=
  match existing with
  | Records history => ret (history ++ outcomes)
  | _ => raise AttributeError
  end.

Definition save_drill_outcomes (outcomes : list outcome) : io bool :=
  match outcomes with
  | [] => ret true
  | _ :: _ =>
      try_except
        (mkdir;;
         file_exists ← exists_file;
         existing_outcomes ←
           (if (file_exists : bool)
            then try_except json_load (fun _ => ret (Records []))
            else ret (Records []));
         existing_outcomes ← extend existing_outcomes outcomes;
         json_dump existing_outcomes;;
         ret true)
        (fun e => ret false)
  end.

(** The records a store holds, none when the file is absent or unusable. *)
Definition stored_history (st : fs) : list outcome :=
  match outcome_file st with
  | Some (Records history) => history
  | _ => []
  end.

(** A store on which neither directory creation, reading nor writing fails
    and whose file, if present, is an array of records. *)
Definition healthy (st : fs) : Prop :=
  mkdir_fails st = false /\ read_fails st = false /\ write st = WriteOk /\
  (outcome_file st = None \/ exists history, outcome_file st = Some (Records history)).

(** ** Confidence Scorer: [compute_drill_confidence_scores] *)

(** A value of [drill_groups]. *)
Record drill_group := {
  deltas : list R;
  reliabilities : list string
}.

(** The body of the grouping loop: open a group for a drill name seen for
    the first time, then append the outcome's delta and reliability. *)
Definition add_outcome (drill_groups : gmap string drill_group) (outcome : outcome) :
    gmap string drill_group :=
  let drill_name := o_drill_name outcome in
  let drill_groups :=
    match drill_groups !! drill_name with
    | None => <[drill_name := {| deltas := []; reliabilities := [] |}]> drill_groups
    | Some _ => drill_groups
    end in
  alter (fun group =>
           {| deltas := deltas group ++ [o_delta outcome];
              reliabilities := reliabilities group ++ [o_reliability outcome] |})
        drill_name drill_groups.

(** The grouping loop over the loaded outcomes. *)
Definition group_outcomes (outcomes : list outcome) : gmap string drill_group :=
  foldl add_outcome ∅ outcomes.

(** A value of [confidence_scores]. *)
Record drill_confidence := {
  usage_count : nat;
  avg_delta : R;
  std_delta : R;
  high_reliability_ratio : R;
  consistency : R;
  confidence_score : R;
  confidence_level : string
}.

(** Step 5 of the scorer. *)
Definition consistency_of (avg_delta std_delta : R) : R :=
  if decide (Rabs avg_delta > 0.1) then
    let cv := std_delta / Rabs avg_delta in
    Rmax 0.0 (1.0 - Rmin cv 1.0)
  else
    Rmax 0.0 (1.0 - Rmin (std_delta / 10.0) 1.0).

(** The improvement component of step 6. *)
Definition improvement_score_of (avg_delta : R) : R :=
  Rmax 0.0 (Rmin 1.0 (0.5 - avg_delta / 40.0)).

(** The sample-size component of step 6. *)
Definition sample_score_of (usage_count : nat) : R :=
  Rmin 1.0 (INR usage_count / 5.0).

(** The body of the loop over [drill_groups.items()]. *)
Definition score_group (data : drill_group) : drill_confidence :=
  let usage_count := length (deltas data) in
  let avg_delta := np_mean (deltas data) in
  let std_delta :=
    if decide (1 < length (deltas data))%nat then np_std (deltas data) else 0.0 in
  let high_reliability_count :=
    length (List.filter (fun r => bool_decide (r = "High")) (reliabilities data)) in
  let high_reliability_ratio :=
    if decide (0 < usage_count)%nat
    then INR high_reliability_count / INR usage_count else 0.0 in
  let consistency := consistency_of avg_delta std_delta in
  let improvement_score := improvement_score_of avg_delta in
  let reliability_score := high_reliability_ratio in
  let consistency_score := consistency in
  let sample_score := sample_score_of usage_count in
  let confidence_score :=
    0.40 * improvement_score + 0.25 * reliability_score +
    0.25 * consistency_score + 0.10 * sample_score in
  let confidence_level :=
    if decide (confidence_score >= 0.75) then "High"
    else if decide (confidence_score >= 0.50) then "Medium"
    else "Low" in
  {| usage_count := usage_count;
     avg_delta := avg_delta;
     std_delta := std_delta;
     high_reliability_ratio := high_reliability_ratio;
     consistency := consistency;
     confidence_score := confidence_score;
     confidence_level := confidence_level |}.

(** A loaded JSON value that is not an array of records is either falsy, and
    the scorer returns the empty dict at once, or fails in the grouping loop
    with a [TypeError], which the handler turns into the empty dict. *)
Definition compute_drill_confidence_scores : io (gmap string drill_confidence) :=
  file_exists ← exists_file;
  if negb file_exists then ret ∅
  else
    try_except
      (outcomes ← json_load;
       match outcomes with
       | Records [] => ret ∅
       | Records history => ret (score_group <$> group_outcomes history)
       | _ => raise TypeError
       end)
      (fun e => ret ∅).

(** ** Sample data *)

Definition sample_outcome : outcome :=
  {| o_previous_session_id := "2024-01-01_09-00-00";
     o_current_session_id := "2024-01-02_09-00-00";
     o_metric_name := "hip_rotation";
     o_phase := "load";
     o_drill_name := "Medicine Ball Rotational Throws";
     o_intensity := "intensive";
     o_classification := "HIGH";
     o_pre_value := 40;
     o_post_value := 30;
     o_delta := -10;
     o_reliability := "High";
     o_timestamp := "2024-01-02T09:05:00" |}.

Definition fresh_store : fs :=
  {| outcome_file := None; mkdir_fails := false; read_fails := false;
     write := WriteOk |}.

(** An outcome of drill "X" measured with High reliability. *)
Definition outcome_of_x (pre_value post_value : R) : outcome :=
  {| o_previous_session_id := "2024-01-01_09-00-00";
     o_current_session_id := "2024-01-02_09-00-00";
     o_metric_name := "left_elbow_angle";
     o_phase := "contact";
     o_drill_name := "X";
     o_intensity := "moderate";
     o_classification := "MODERATE";
     o_pre_value := pre_value;
     o_post_value := post_value;
     o_delta := post_value - pre_value;
     o_reliability := "High";
     o_timestamp := "2024-01-02T09:05:00" |}.

(** A store of five outcomes of drill "X" with deltas -10, -12, -8, -11, -9. *)
Definition five_record_store : fs :=
  {| outcome_file :=
       Some (Records [ outcome_of_x 0 (-10); outcome_of_x 0 (-12);
                       outcome_of_x 0 (-8); outcome_of_x 0 (-11);
                       outcome_of_x 0 (-9) ]);
     mkdir_fails := false; read_fails := false; write := WriteOk |}.

(** ** Progress Tracker: [classify_progress], [compute_progress_deltas] *)

Definition classify_progress (delta : R) (metric_type : string) : string * string :=
  if decide (metric_type = "score") then
    if decide (delta >= 3.0) then ("Improved", "↗")
    else if decide (delta <= -3.0) then ("Regressed", "↘")
    else ("Stable", "→")
  else
    if decide (delta <= -3.0) then ("Improved", "↗")
    else if decide (delta >= 3.0) then ("Regressed", "↘")
    else ("Stable", "→").

(** The metrics dict of a session, by its keys, each of which may be
    absent: the current session's scores or what [load_previous_metrics]
    parsed out of an earlier report. *)
Record session_metrics := {
  sm_overall_score : option R;
  sm_phase_weighted_score : option R;
  sm_phase_scores : option (gmap string R);
  sm_key_metrics : option (gmap string (R * R))
}.

(** The dict stored for one compared quantity. *)
Definition progress_of (current previous : R) : progress_entry :=
  let delta := current - previous in
  {| pe_current := current;
     pe_previous := previous;
     pe_delta := delta;
     pe_status := classify_progress delta "score" |}.

(** [if key in current_metrics and key in previous_metrics], for a key
    holding a number. *)
Definition compare_key (current previous : option R) : option progress_entry :=
  match current, previous with
  | Some c, Some p => Some (progress_of c p)
  | _, _ => None
  end.

(** The phase-specific deltas are stored under the key [phase_deltas]; the
    key [phase_scores] is never written. *)
Definition compute_progress_deltas (current_metrics previous_metrics : session_metrics) :
    progress_dict :=
  {| pd_overall_score :=
       compare_key (sm_overall_score current_metrics)
                   (sm_overall_score previous_metrics);
     pd_phase_weighted_score :=
       compare_key (sm_phase_weighted_score current_metrics)
                   (sm_phase_weighted_score previous_metrics);
     pd_phase_deltas :=
       match sm_phase_scores current_metrics, sm_phase_scores previous_metrics with
       | Some current_phases, Some previous_phases =>
           let phase_deltas :=
             map_zip_with progress_of current_phases previous_phases in
           if decide (phase_deltas = ∅) then None else Some phase_deltas
       | _, _ => None
       end;
     pd_phase_scores := None |}.

(** ** Phase Stability Analyzer: [compute_intra_phase_stability] *)

(** A bound of a Python slice over a sequence of length [len]: a negative
    index counts from the end, and the result is clamped to [0, len]. *)
Definition slice_bound (len i : Z) : nat :=
  Z.to_nat (if (i <? 0)%Z then Z.max 0 (len + i) else Z.min i len).

(** [rows[start:stop]] *)
Definition py_slice {A} (start stop : Z) (rows : list A) : list A :=
  let len := Z.of_nat (length rows) in
  let first := slice_bound len start in
  let last := slice_bound len stop in
  take (last - first) (drop first rows).

Definition stability_metrics : list string :=
  [ "left_shoulder_angle"; "right_shoulder_angle";
    "left_elbow_angle"; "right_elbow_angle";
    "hip_rotation"; "spine_lean" ].

(** The score given to a coefficient of variation. *)
Definition stability_score_of (cv : R) : R :=
  if decide (cv < 0.1) then 100.0
  else if decide (cv < 0.2) then 90.0
  else if decide (cv < 0.3) then 75.0
  else if decide (cv < 0.5) then 60.0
  else 50.0.

(** What the inner loop records for one metric of the phase: its standard
    deviation, its coefficient of variation and its stability score, when
    the column exists and has more than one sample. *)
Definition measure_stability (phase_df : gmap string (list (option R)))
    (metric : string) : option (string * (R * R) * R) :=
  column ← phase_df !! metric;
  let values := dropna column in
  if decide (1 < length values)%nat then
    let std := np_std values in
    let mean := np_mean values in
    let cv := if decide (mean <> 0) then std / Rabs mean else 0.0 in
    Some (metric, (std, cv), stability_score_of cv)
  else None.

(** The body of the loop over [phase_data.items()]. *)
Definition phase_stability_of (features_df : gmap string (list (option R)))
    (frames : Z * Z) : option phase_stability_entry :=
  let '(start_frame, end_frame) := frames in
  let phase_df := py_slice start_frame (end_frame + 1) <$> features_df in
  let measured := omap (measure_stability phase_df) stability_metrics in
  let phase_stability : gmap string (R * R) :=
    list_to_map (map (fun m => (m.1.1, m.1.2)) measured) in
  let variance_scores := map (fun m => m.2) measured in
  match variance_scores with
  | [] => None
  | _ :: _ => Some {| ps_metrics := phase_stability;
                      ps_overall_score := np_mean variance_scores |}
  end.

Definition compute_intra_phase_stability
    (features_df : gmap string (list (option R)))
    (phase_data : option (gmap string (Z * Z))) : gmap string phase_stability_entry :=
  match phase_data with
  | None => ∅
  | Some phases => omap (phase_stability_of features_df) phases
  end.

(** ** Outcome Tracker: [track_drill_outcomes] *)

(** [metrics[phase].get(metric)] under the guard
    [metrics and phase in metrics]. *)
Definition phase_metric (metrics : option (gmap string (gmap string R)))
    (phase metric : string) : option R :=
  by_phase ← optional_get metrics phase;
  by_phase !! metric.

(** The body of the loop over the collected drills; [timestamp] is the
    reading of [datetime.now().isoformat()] taken for this drill. *)
Definition track_drill
    (previous_session_id : string)
    (previous_session_metrics current_session_metrics :
       option (gmap string (gmap string R)))
    (current_session_id : string)
    (reliability_data : option (gmap string reliability_entry))
    (timestamp : string) (drill : prescription) : option outcome :=
  let target_metric := rx_issue_metric drill in
  let target_phase := rx_issue_phase drill in
  if bool_decide (target_metric = "general") || bool_decide (target_phase = "all")
  then None
  else
    match phase_metric previous_session_metrics target_phase target_metric,
          phase_metric current_session_metrics target_phase target_metric with
    | Some prev_value, Some curr_value =>
        let delta := curr_value - prev_value in
        let metric_reliability :=
          match optional_get reliability_data target_metric with
          | Some entry => level entry
          | None => "Unknown"
          end in
        Some {| o_previous_session_id := previous_session_id;
                o_current_session_id := current_session_id;
                o_metric_name := target_metric;
                o_phase := target_phase;
                o_drill_name := rx_drill_name drill;
                o_intensity := rx_intensity_level drill;
                o_classification := rx_urgency drill;
                o_pre_value := prev_value;
                o_post_value := curr_value;
                o_delta := delta;
                o_reliability := metric_reliability;
                o_timestamp := timestamp |}
    | _, _ => None
    end.

(** [clock i] is the timestamp read while the [i]-th collected drill is
    processed. *)
Definition track_drill_outcomes
    (clock : nat -> string)
    (previous_session_id : string)
    (previous_session_metrics current_session_metrics :
       option (gmap string (gmap string R)))
    (drill_recommendations : option recommendations)
    (current_session_id : string)
    (reliability_data : option (gmap string reliability_entry)) : list outcome :=
  match drill_recommendations with
  | None => []
  | Some recs =>
      let all_drills :=
        critical_drills recs ++ priority_drills recs ++ maintenance_drills recs in
      omap (fun tracked => tracked)
           (imap (fun i drill =>
                    track_drill previous_session_id previous_session_metrics
                      current_session_metrics current_session_id
                      reliability_data (clock i) drill)
                 all_drills)
  end.

(** ** Effectiveness summary: [get_drill_effectiveness_summary] *)

(** A value of [drill_stats]. *)
Record drill_stats := {
  ds_count : nat;
  ds_total_delta : R;
  ds_deltas : list R;
  ds_high_reliability_count : nat
}.

(** The body of the accumulation loop. *)
Definition count_outcome (stats : gmap string drill_stats) (outcome : outcome) :
    gmap string drill_stats :=
  let drill_name := o_drill_name outcome in
  let stats :=
    match stats !! drill_name with
    | None => <[drill_name := {| ds_count := 0; ds_total_delta := 0.0;
                                 ds_deltas := [];
                                 ds_high_reliability_count := 0 |}]> stats
    | Some _ => stats
    end in
  alter (fun s =>
           {| ds_count := ds_count s + 1;
              ds_total_delta := ds_total_delta s + o_delta outcome;
              ds_deltas := ds_deltas s ++ [o_delta outcome];
              ds_high_reliability_count :=
                if decide (o_reliability outcome = "High")
                then (ds_high_reliability_count s + 1)%nat
                else ds_high_reliability_count s |})
        drill_name stats.

(** A value of the summary. *)
Record drill_summary := {
  es_usage_count : nat;
  es_avg_delta : R;
  es_high_reliability_fraction : R
}.

(** The body of the averaging loop, which keeps drills used at least once. *)
Definition summarize (stats : drill_stats) : option drill_summary :=
  if decide (0 < ds_count stats)%nat then
    Some {| es_usage_count := ds_count stats;
            es_avg_delta := ds_total_delta stats / INR (ds_count stats);
            es_high_reliability_fraction :=
              INR (ds_high_reliability_count stats) / INR (ds_count stats) |}
  else None.

Definition get_drill_effectiveness_summary : io (gmap string drill_summary) :=
  file_exists ← exists_file;
  if negb file_exists then ret ∅
  else
    try_except
      (outcomes ← json_load;
       match outcomes with
       | Records history =>
           ret (omap summarize (foldl count_outcome ∅ history))
       | _ => raise TypeError
       end)
      (fun e => ret ∅).

(** The store with another write behaviour. *)
Definition set_write (behaviour : write_behaviour) (st : fs) : fs :=
  {| outcome_file := outcome_file st;
     mkdir_fails := mkdir_fails st;
     read_fails := read_fails st;
     write := behaviour |}.

(** ** The two accumulation loops over the store, side by side *)

(** The group and the counters of a drill after one more outcome. *)
Definition push (o : outcome) (group : drill_group) : drill_group :=
  {| deltas := deltas group ++ [o_delta o];
     reliabilities := reliabilities group ++ [o_reliability o] |}.

Definition tally (o : outcome) (s : drill_stats) : drill_stats :=
  {| ds_count := ds_count s + 1;
     ds_total_delta := ds_total_delta s + o_delta o;
     ds_deltas := ds_deltas s ++ [o_delta o];
     ds_high_reliability_count :=
       if decide (o_reliability o = "High")
       then (ds_high_reliability_count s + 1)%nat
       else ds_high_reliability_count s |}.

Definition no_group : drill_group := {| deltas := []; reliabilities := [] |}.

Definition no_stats : drill_stats :=
  {| ds_count := 0; ds_total_delta := 0.0; ds_deltas := [];
     ds_high_reliability_count := 0 |}.

(** The counters that correspond to a group. *)
Definition stats_of (group : drill_group) : drill_stats :=
  {| ds_count := length (deltas group);
     ds_total_delta := foldl Rplus 0.0 (deltas group);
     ds_deltas := deltas group;
     ds_high_reliability_count :=
       length (List.filter (fun r => bool_decide (r = "High"))
                 (reliabilities group)) |}.

(** A store holding the single sample outcome. *)
Definition one_record_store : fs :=
  {| outcome_file := Some (Records [sample_outcome]);
     mkdir_fails := false; read_fails := false; write := WriteOk |}.

(** ** Cue ranking: [get_phase_cues_with_priority], [rank_cues_by_deviation],
       [generate_coaching_cues] *)

(** An entry of [metrics_config]; the four cue texts are optional keys. *)
Record cue_config := {
  cfg_weight : R;
  cfg_threshold : R;
  cfg_high : option string;
  cfg_low : option string;
  cfg_low_abs : option string;
  cfg_high_abs : option string
}.

(** [metrics_config], in the order of the dict literal. *)
Definition metrics_config : list (string * cue_config) :=
  [ ("left_elbow_angle",
     {| cfg_weight := 2.0; cfg_threshold := 15;
        cfg_high := Some "**Bend your left elbow more** at contact. Your arm is too straight, reducing control and power transfer.";
        cfg_low := Some "**Extend your left elbow slightly more** through contact. A bit more extension will add reach and power.";
        cfg_low_abs := None; cfg_high_abs := None |});
    ("right_elbow_angle",
     {| cfg_weight := 2.0; cfg_threshold := 15;
        cfg_high := Some "**Keep your right elbow closer to your body** for better stability. Think 'compact arms' through the stroke.";
        cfg_low := Some "**Allow your right elbow to extend more** through the hitting zone for better racquet speed.";
        cfg_low_abs := None; cfg_high_abs := None |});
    ("hip_rotation",
     {| cfg_weight := 2.5; cfg_threshold := 5;
        cfg_high := None; cfg_low := None;
        cfg_low_abs := Some "**Rotate your hips more** into the shot. Your upper body is doing most of the work—engage those hips!";
        cfg_high_abs := Some "**Control your hip rotation**. Over-rotation can throw off your timing and balance." |});
    ("spine_lean",
     {| cfg_weight := 1.5; cfg_threshold := 8;
        cfg_high := Some "**Stay more upright** through contact. You're leaning too much, which affects balance.";
        cfg_low := Some "**Lean into the shot slightly more** for better weight transfer through the ball.";
        cfg_low_abs := None; cfg_high_abs := None |});
    ("stance_width_normalized",
     {| cfg_weight := 2.2; cfg_threshold := 0.3;
        cfg_high := Some "**Narrow your stance slightly**. Too wide limits your hip rotation and recovery speed.";
        cfg_low := Some "**Widen your stance** for a more stable base. You'll generate more power from your legs.";
        cfg_low_abs := None; cfg_high_abs := None |}) ].

(** [phases[phase]] for a phase present in both dicts. *)
Definition both_phases (user_phases ref_phases : gmap string (gmap string R))
    (phase : string) : option (gmap string R * gmap string R) :=
  match user_phases !! phase, ref_phases !! phase with
  | Some u, Some r => Some (u, r)
  | _, _ => None
  end.

Definition get_phase_cues_with_priority
    (user_phases ref_phases : gmap string (gmap string R)) : list cue_tuple :=
  let cues : list cue_tuple := [] in
  (* preparation *)
  let cues :=
    match both_phases user_phases ref_phases "preparation" with
    | Some (user_prep, ref_prep) =>
        let shoulder_diff :=
          Rabs (dict_get user_prep "left_shoulder_angle" 0
                - dict_get ref_prep "left_shoulder_angle" 0) in
        let cues :=
          if decide (shoulder_diff > 25) then
            cues ++ [(shoulder_diff * 1.5,
                      "**[Preparation]** Turn your shoulders earlier and more completely during the setup phase.",
                      "left_shoulder_angle", shoulder_diff, "preparation")]
          else cues in
        let stance_diff :=
          dict_get user_prep "stance_width_normalized" 0
          - dict_get ref_prep "stance_width_normalized" 0 in
        if decide (stance_diff < -0.5) then
          cues ++ [(Rabs stance_diff * 25,
                    "**[Preparation]** Set up with a wider base from the start. Narrow stance limits power generation.",
                    "stance_width_normalized", stance_diff, "preparation")]
        else cues
    | None => cues
    end in
  (* load *)
  let cues :=
    match both_phases user_phases ref_phases "load" with
    | Some (user_load, ref_load) =>
        let hip_diff :=
          Rabs (dict_get user_load "hip_rotation" 0)
          - Rabs (dict_get ref_load "hip_rotation" 0) in
        let cues :=
          if decide (hip_diff < -8) then
            cues ++ [(Rabs hip_diff * 3.0,
                      "**[Load]** Coil your hips more during the loading phase. This is where you store energy for the shot.",
                      "hip_rotation", hip_diff, "load")]
          else cues in
        let user_knee_avg :=
          (dict_get user_load "left_knee_angle" 180
           + dict_get user_load "right_knee_angle" 180) / 2 in
        let ref_knee_avg :=
          (dict_get ref_load "left_knee_angle" 180
           + dict_get ref_load "right_knee_angle" 180) / 2 in
        if decide (user_knee_avg - ref_knee_avg > 20) then
          cues ++ [(Rabs (user_knee_avg - ref_knee_avg) * 1.8,
                    "**[Load]** Drop your center of gravity more in the loading phase. Bend those knees!",
                    "knee_angle_avg", user_knee_avg - ref_knee_avg, "load")]
        else cues
    | None => cues
    end in
  (* follow-through *)
  let cues :=
    match both_phases user_phases ref_phases "follow_through" with
    | Some (user_follow, ref_follow) =>
        let user_elbow_ext := dict_get user_follow "left_elbow_angle" 0 in
        let ref_elbow_ext := dict_get ref_follow "left_elbow_angle" 0 in
        let cues :=
          if decide (user_elbow_ext < ref_elbow_ext - 20) then
            cues ++ [(Rabs (user_elbow_ext - ref_elbow_ext) * 1.2,
                      "**[Follow-through]** Extend your arms more through the finish. You're pulling back too early.",
                      "left_elbow_angle", user_elbow_ext - ref_elbow_ext,
                      "follow_through")]
          else cues in
        let spine_diff :=
          dict_get user_follow "spine_lean" 0 - dict_get ref_follow "spine_lean" 0 in
        if decide (Rabs spine_diff > 10) then
          cues ++ [(Rabs spine_diff * 1.3,
                    "**[Follow-through]** Maintain better balance through your finish position.",
                    "spine_lean", spine_diff, "follow_through")]
        else cues
    | None => cues
    end in
  cues.

(** The knee block of [rank_cues_by_deviation]; [None] when indexing
    [ref_metrics] raises [KeyError]. *)
Definition knee_cues (user_metrics ref_metrics : gmap string R) : option (list cue_tuple) :=
  match user_metrics !! "left_knee_angle", user_metrics !! "right_knee_angle" with
  | Some user_left, Some user_right =>
      ref_left ← ref_metrics !! "left_knee_angle";
      ref_right ← ref_metrics !! "right_knee_angle";
      let avg_user_knee := (user_left + user_right) / 2 in
      let avg_ref_knee := (ref_left + ref_right) / 2 in
      let knee_diff := avg_user_knee - avg_ref_knee in
      if decide (Rabs knee_diff > 15) then
        let deviation_score := Rabs knee_diff * 2.0 in
        if decide (knee_diff > 0) then
          Some [(deviation_score,
                 "**Bend your knees more** throughout the stroke. Lower stance = more power from the ground up.",
                 "knee_angle_avg", knee_diff, "contact")]
        else
          Some [(deviation_score,
                 "**Don't over-crouch**. Your knees are bending too much, which can slow your recovery.",
                 "knee_angle_avg", knee_diff, "contact")]
      else Some []
  | _, _ => Some []
  end.

(** The body of the loop over [metrics_config.items()]: the cues one
    configured metric adds.  [diff > 0 and 'high' in config] is the test
    that the key is present once the sign matches. *)
Definition metric_cues (user_metrics ref_metrics : gmap string R)
    (item : string * cue_config) : list cue_tuple :=
  let '(metric, config) := item in
  match user_metrics !! metric, ref_metrics !! metric with
  | Some user_val, Some ref_val =>
      let diff := user_val - ref_val in
      match cfg_low_abs config with
      | Some low_abs_text =>
          let abs_diff := Rabs user_val - Rabs ref_val in
          if decide (abs_diff < - cfg_threshold config) then
            [(Rabs abs_diff * cfg_weight config, low_abs_text, metric, abs_diff,
              "contact")]
          else if decide (abs_diff > cfg_threshold config * 2) then
            match cfg_high_abs config with
            | Some high_abs_text =>
                [(Rabs abs_diff * cfg_weight config, high_abs_text, metric,
                  abs_diff, "contact")]
            | None => []
            end
          else []
      | None =>
          if decide (Rabs diff > cfg_threshold config) then
            let deviation_score := Rabs diff * cfg_weight config in
            match (if decide (diff > 0) then cfg_high config else None) with
            | Some high_text =>
                [(deviation_score, high_text, metric, diff, "contact")]
            | None =>
                match (if decide (diff < 0) then cfg_low config else None) with
                | Some low_text =>
                    [(deviation_score, low_text, metric, diff, "contact")]
                | None => []
                end
            end
          else []
      end
  | _, _ => []
  end.

(** The sort key comparison of [cue_candidates.sort(key=lambda x: x[0])]. *)
Definition lower_score (a b : cue_tuple) : bool :=
  bool_decide (a.1.1.1.1 < b.1.1.1.1).

(** [if user_phase_metrics and ref_phase_metrics]: given and not empty. *)
Definition truthy_dict {V} (d : option (gmap string V)) : option (gmap string V) :=
  match d with
  | Some m => if decide (m = ∅) then None else Some m
  | None => None
  end.

Definition rank_cues_by_deviation
    (user_metrics ref_metrics : gmap string R)
    (user_phase_metrics ref_phase_metrics : option (gmap string (gmap string R))) :
    option (list cue_tuple) :=
  cue_candidates ← knee_cues user_metrics ref_metrics;
  let cue_candidates :=
    cue_candidates ++ concat (map (metric_cues user_metrics ref_metrics) metrics_config) in
  let cue_candidates :=
    match truthy_dict user_phase_metrics, truthy_dict ref_phase_metrics with
    | Some user_phases, Some ref_phases =>
        cue_candidates ++ get_phase_cues_with_priority user_phases ref_phases
    | _, _ => cue_candidates
    end in
  Some (sort_desc lower_score cue_candidates).

Definition fallback_cues : list string :=
  [ "**Keep your eye on the ball** through contact. Head still, watch the ball hit the strings.";
    "**Follow through completely** toward your target. Don't cut the swing short.";
    "**Relax your grip** slightly. A death-grip reduces racquet head speed." ].

(** The loop over [fallback_cues]; [stopped] records that [break] was taken. *)
Definition add_fallbacks (all_cues : list string) : list string :=
  (foldl (fun '(all_cues, stopped) fallback =>
            if (stopped : bool) then (all_cues, true)
            else if decide (5 <= length all_cues)%nat then (all_cues, true)
            else if decide (fallback ∈ all_cues) then (all_cues, false)
            else (all_cues ++ [fallback], false))
         (all_cues, false) fallback_cues).1.

(** [limit_primary] is a count, taken non-negative. *)
Definition generate_coaching_cues
    (user_metrics ref_metrics : gmap string R)
    (user_phase_metrics ref_phase_metrics : option (gmap string (gmap string R)))
    (limit_primary : nat) :
    option (list string * list string * list cue_tuple) :=
  ranked_cues ← rank_cues_by_deviation user_metrics ref_metrics
                  user_phase_metrics ref_phase_metrics;
  let all_cues := map (fun cue : cue_tuple => cue.1.1.1.2) ranked_cues in
  let primary_cues := take limit_primary all_cues in
  let all_cues :=
    if decide (length all_cues < 3)%nat then add_fallbacks all_cues else all_cues in
  Some (primary_cues, take 5 all_cues, ranked_cues).

(** ** Legacy drills: [generate_drills] *)

(** [None] when indexing either dict raises [KeyError]. *)
Definition generate_drills (user_metrics ref_metrics : gmap string R) : option (list string) :=
  let drills : list string := [] in
  user_left ← user_metrics !! "left_knee_angle";
  user_right ← user_metrics !! "right_knee_angle";
  let avg_user_knee := (user_left + user_right) / 2 in
  ref_left ← ref_metrics !! "left_knee_angle";
  ref_right ← ref_metrics !! "right_knee_angle";
  let avg_ref_knee := (ref_left + ref_right) / 2 in
  let drills :=
    if decide (avg_user_knee - avg_ref_knee > 10) then
      drills ++ ["**Wall Sits with Shadow Swings**: Stand against a wall in a squat position (knees at 90°). Hold for 30 seconds while performing slow-motion backhand swings. This builds leg strength and muscle memory for proper knee bend. Do 3 sets."]
    else drills in
  user_hip ← user_metrics !! "hip_rotation";
  ref_hip ← ref_metrics !! "hip_rotation";
  let hip_diff := Rabs user_hip - Rabs ref_hip in
  let drills :=
    if decide (hip_diff < -3) then
      drills ++ ["**Medicine Ball Rotational Throws**: Stand sideways to a wall, holding a medicine ball (4-8 lbs). Rotate your hips and core explosively to throw the ball against the wall. Catch and repeat. Do 2 sets of 10 each side to build rotational power."]
    else drills in
  user_stance ← user_metrics !! "stance_width_normalized";
  ref_stance ← ref_metrics !! "stance_width_normalized";
  let stance_diff := user_stance - ref_stance in
  let drills :=
    if decide (Rabs stance_diff > 0.2) then
      drills ++ ["**Ladder Footwork Drill**: Use an agility ladder (or tape lines). Practice split-stepping into your backhand stance, focusing on consistent foot spacing. Hit shadow strokes at each stop. 5 minutes daily improves footwork consistency."]
    else drills in
  let drills :=
    if decide (length drills < 2)%nat then
      drills ++ ["**One-Arm Backhand Feeds**: Have a partner feed soft balls while you hit backhands with only your non-dominant hand on the racquet. This strengthens your lead arm and improves control. Do 20 balls, then switch back to two hands—you'll feel the difference immediately."]
    else drills in
  let drills :=
    if decide (length drills < 2)%nat then
      drills ++ ["**Contact Point Drill**: Set up a ball on a cone or have a partner hold one at your ideal contact point. Practice bringing your racquet to that exact spot with proper form, pausing at contact. This builds muscle memory for consistent contact. 50 reps before each practice session."]
    else drills in
  Some (take 2 drills).

(** A cue worth raising: a positive score, a deviation that is not zero,
    and one of the four phases. *)
Definition raised (cue : cue_tuple) : Prop :=
  0 < cue.1.1.1.1 /\ cue.1.2 <> 0 /\
  In cue.2 ["contact"; "preparation"; "load"; "follow_through"]%string.

(** ** Similarity scores: [compute_similarity_score],
       [compute_phase_similarity_scores], [get_phase_weights] and
       [compute_phase_weighted_score]

    A metric value of these dicts may be NaN; as in a column of the features
    frame, [None] stands for it. *)

(** [np.rint]: the nearest integer, a tie going to the even one. *)
Definition rint (x : R) : Z :=
  let below := Int_part x in
  let rest := x - IZR below in
  if decide (rest < 1 / 2) then below
  else if decide (rest > 1 / 2) then (below + 1)%Z
  else if Z.even below then below else (below + 1)%Z.

(** [round(x, 1)] *)
Definition round1 (x : R) : R := IZR (rint (x * 10)) / 10.

(** [np.average(values, weights=weights)]; it raises ZeroDivisionError when
    the weights sum to zero. *)
Definition np_average (values weights : list R) : option R :=
  let scl := foldr Rplus 0 weights in
  if decide (scl = 0) then None
  else Some (foldr Rplus 0 (zip_with Rmult values weights) / scl).

Definition default_metric_weights : gmap string R :=
  {[ "left_elbow_angle" := 1;
     "right_elbow_angle" := 1;
     "left_knee_angle" := 1;
     "right_knee_angle" := 1;
     "hip_rotation" := 1.5;
     "spine_lean" := 1;
     "stance_width_normalized" := 1.2;
     "left_shoulder_angle" := 0.8;
     "right_shoulder_angle" := 0.8 ]}%string.

(** The dict literal [tolerance_ranges], in its order of iteration. *)
Definition tolerance_ranges : list (string * R) :=
  [ ("left_elbow_angle", 30);
    ("right_elbow_angle", 30);
    ("left_knee_angle", 25);
    ("right_knee_angle", 25);
    ("hip_rotation", 20);
    ("spine_lean", 15);
    ("stance_width_normalized", 2);
    ("left_shoulder_angle", 35);
    ("right_shoulder_angle", 35) ]%string.

(** One round of the loop: the similarity and the weight appended for a
    metric, or [None] when the round appends nothing. *)
Definition similarity_of (user_metrics ref_metrics : gmap string (option R))
    (metric_weights : gmap string R) (entry : string * R) : option (R * R) :=
  let '(metric, tolerance) := entry in
  match user_metrics !! metric, ref_metrics !! metric with
  | Some (Some user_val), Some (Some ref_val) =>
      let deviation := Rabs (user_val - ref_val) in
      let similarity := Rmax 0 (100 * (1 - deviation / (2 * tolerance))) in
      Some (similarity, dict_get metric_weights metric 1)
  | _, _ => None
  end.

(** [compute_similarity_score(user_metrics, ref_metrics, metric_weights)];
    [None] is the exception of [np.average]. *)
Definition compute_similarity_score
    (user_metrics ref_metrics : gmap string (option R))
    (metric_weights : option (gmap string R)) : option R :=
  let metric_weights := default default_metric_weights metric_weights in
  let scored :=
    omap (similarity_of user_metrics ref_metrics metric_weights)
      tolerance_ranges in
  let similarities := scored.*1 in
  let weights := scored.*2 in
  match similarities with
  | [] => Some 50
  | _ =>
      weighted_score ← np_average similarities weights;
      Some (round1 weighted_score)
  end.

Definition phase_names : list string :=
  [ "preparation"; "load"; "contact"; "follow_through" ]%string.

(** One round of the loop of [compute_phase_similarity_scores]. *)
Definition score_phase
    (user_phase_metrics ref_phase_metrics : gmap string (gmap string (option R)))
    (scores : option (gmap string R)) (phase_name : string) :
    option (gmap string R) :=
  phase_scores ← scores;
  match user_phase_metrics !! phase_name, ref_phase_metrics !! phase_name with
  | Some user_metrics, Some ref_metrics =>
      score ← compute_similarity_score user_metrics ref_metrics None;
      Some (<[ phase_name := score ]> phase_scores)
  | _, _ => Some phase_scores
  end.

(** [compute_phase_similarity_scores(user_phase_metrics, ref_phase_metrics)] *)
Definition compute_phase_similarity_scores
    (user_phase_metrics ref_phase_metrics : gmap string (gmap string (option R))) :
    option (gmap string R) :=
  foldl (score_phase user_phase_metrics ref_phase_metrics) (Some ∅) phase_names.

(** The part of the configuration read here: the entry [phase_weights], a
    dict given in its order of iteration, when the key is present. *)
Record config := {
  cfg_phase_weights : option (list (string * R))
}.

Definition default_weights : list (string * R) :=
  [ ("preparation", 0.15); ("load", 0.25); ("contact", 0.35);
    ("follow_through", 0.25) ]%string.

(** [get_phase_weights(config)] *)
Definition get_phase_weights (cfg : option config) : list (string * R) :=
  match cfg with
  | Some c => default default_weights (cfg_phase_weights c)
  | None => default_weights
  end.

(** One round of the loop of [compute_phase_weighted_score] on the pair
    [(weighted_sum, total_weight)]. *)
Definition add_phase (phase_scores : gmap string (option R))
    (sums : R * R) (entry : string * R) : R * R :=
  let '(weighted_sum, total_weight) := sums in
  let '(phase_name, weight) := entry in
  match phase_scores !! phase_name with
  | Some (Some score) => (weighted_sum + score * weight, total_weight + weight)
  | _ => sums
  end.

(** [compute_phase_weighted_score(phase_scores, config)] *)
Definition compute_phase_weighted_score (phase_scores : gmap string (option R))
    (cfg : option config) : R :=
  let weights := get_phase_weights cfg in
  let '(weighted_sum, total_weight) :=
    foldl (add_phase phase_scores) (0, 0) weights in
  if decide (total_weight > 0) then round1 (weighted_sum / total_weight)
  else 50.

(* ===================================================================== *)
(** * Theorems *)
(* ===================================================================== *)

(** ** String helpers and category mapping on sample names *)

Example lower_mixed_case : lower "Hip_Rotation" = "hip_rotation"%string.
Proof. reflexivity. Qed.

Example contains_angle : contains "angle" "left_elbow_angle" = true.
Proof. reflexivity. Qed.

Example hip_rotation_has_no_angle : contains "angle" "hip_rotation" = false.
Proof. reflexivity. Qed.

Example category_of_hip_rotation :
  map_metric_to_drill_category "hip_rotation" = "hip_rotation"%string.
Proof. reflexivity. Qed.

Example category_of_knee_angle_avg :
  map_metric_to_drill_category "knee_angle_avg" = "knee_stability"%string.
Proof. reflexivity. Qed.

Example category_of_unknown :
  map_metric_to_drill_category "wrist_speed" = "general_technique"%string.
Proof. reflexivity. Qed.

Example sort_desc_strings :
  sort_desc String.ltb ["b"; "c"; "a"]%string = ["c"; "b"; "a"]%string.
Proof. reflexivity. Qed.

(** ** Priority Scorer *)

Lemma reliability_points_bounds (level : string) :
  5 <= dict_get reliability_weights level 15 <= 25.
Proof.
  unfold dict_get, reliability_weights.
  destruct (decide (level = "High")) as [->|H1]; [ vm_compute; lra |].
  destruct (decide (level = "Medium")) as [->|H2]; [ vm_compute; lra |].
  destruct (decide (level = "Low")) as [->|H3]; [ vm_compute; lra |].
  rewrite !lookup_insert_ne, lookup_singleton_ne by done. simpl. lra.
Qed.

Lemma phase_points_bounds (phase : string) :
  8 <= dict_get phase_weights phase 10 <= 20.
Proof.
  unfold dict_get, phase_weights.
  destruct (decide (phase = "contact")) as [->|H1]; [ vm_compute; lra |].
  destruct (decide (phase = "load")) as [->|H2]; [ vm_compute; lra |].
  destruct (decide (phase = "follow_through")) as [->|H3]; [ vm_compute; lra |].
  destruct (decide (phase = "preparation")) as [->|H4]; [ vm_compute; lra |].
  rewrite !lookup_insert_ne, lookup_singleton_ne by done. simpl. lra.
Qed.

(** C6. Whenever the phase stability score lies in [0,100], the five
    components returned by the Priority Scorer are within their ranges
    (severity 0..40, reliability 5..25, phase importance 8..20, consistency
    0..15, progress modifier -10..10), for any metric name, phase, reliability
    level and progress delta, and the total score is their sum. *)
Theorem priority_score_component_bounds
    (metric_name phase reliability_level : string)
    (deviation phase_stability_score progress_delta : R) :
  0 <= phase_stability_score <= 100 ->
  let s := compute_issue_priority_score metric_name deviation phase
             reliability_level phase_stability_score progress_delta in
  0 <= p_severity s <= 40 /\
  5 <= p_reliability s <= 25 /\
  8 <= p_phase_importance s <= 20 /\
  0 <= p_consistency s <= 15 /\
  -10 <= p_progress_modifier s <= 10 /\
  total_score s =
    p_severity s + p_reliability s + p_phase_importance s +
    p_consistency s + p_progress_modifier s /\
  components s =
    {| c_severity := p_severity s; c_reliability := p_reliability s;
       c_phase_importance := p_phase_importance s;
       c_consistency := p_consistency s;
       c_progress_modifier := p_progress_modifier s |}.
Proof.
  intros Hstab s. subst s. unfold compute_issue_priority_score. simpl.
  pose proof (reliability_points_bounds reliability_level) as Hrel.
  pose proof (phase_points_bounds (lower phase)) as Hph.
  repeat split; try lra.
  - destruct (_ || _); rdecide.
  - destruct (_ || _); rdecide.
  - rdecide; rminmax.
  - rdecide; rminmax.
Qed.

Lemma priority_score_component_bounds_witness :
  0 <= 90 <= 100 /\
  let s := compute_issue_priority_score "hip_rotation" 60 "contact" "High" 90 8 in
  0 <= p_severity s <= 40 /\ 5 <= p_reliability s <= 25 /\
  8 <= p_phase_importance s <= 20 /\ 0 <= p_consistency s <= 15 /\
  -10 <= p_progress_modifier s <= 10.
Proof.
  split; [lra |].
  intros s.
  destruct (priority_score_component_bounds
              "hip_rotation" "contact" "High" 60 90 8 ltac:(lra))
    as (H1 & H2 & H3 & H4 & H5 & _).
  repeat split; first [apply H1 | apply H2 | apply H3 | apply H4 | apply H5].
Defined.

(** C2. The worked scenario: hip_rotation deviating by 60 degrees in the
    contact phase, High reliability, phase stability 90 and progress delta +8
    scores severity 35, reliability 25, phase importance 20, consistency 13.5
    and progress modifier 8, in total 101.5, and is classified CRITICAL. *)
Theorem hip_rotation_scenario :
  let s := compute_issue_priority_score "hip_rotation" 60 "contact" "High" 90 8 in
  p_severity s = 35 /\ p_reliability s = 25 /\ p_phase_importance s = 20 /\
  p_consistency s = 13.5 /\ p_progress_modifier s = 8 /\
  total_score s = 101.5 /\
  classification (classify_coaching_issue "hip_rotation" 60 "High" (Some 8) 90)
    = "CRITICAL".
Proof.
  assert (Habs : Rabs 60 = 60) by (apply Rabs_right; lra).
  assert (Hsev : p_severity (compute_issue_priority_score
                   "hip_rotation" 60 "contact" "High" 90 8) = 35).
  { unfold compute_issue_priority_score, p_severity.
    change (contains "angle" (lower "hip_rotation")
            || contains "rotation" (lower "hip_rotation")) with true.
    cbv iota. rewrite Habs. rdecide. }
  assert (Hprog : p_progress_modifier (compute_issue_priority_score
                    "hip_rotation" 60 "contact" "High" 90 8) = 8).
  { unfold compute_issue_priority_score, p_progress_modifier. rdecide; rminmax. }
  assert (Hrel : dict_get reliability_weights "High" 15 = 25) by reflexivity.
  assert (Hph : dict_get phase_weights (lower "contact") 10 = 20) by reflexivity.
  intros s. subst s.
  repeat apply conj.
  - exact Hsev.
  - exact Hrel.
  - exact Hph.
  - unfold compute_issue_priority_score, p_consistency. lra.
  - exact Hprog.
  - change (total_score (compute_issue_priority_score
              "hip_rotation" 60 "contact" "High" 90 8))
      with (0 + p_severity (compute_issue_priority_score
                   "hip_rotation" 60 "contact" "High" 90 8)
            + dict_get reliability_weights "High" 15
            + dict_get phase_weights (lower "contact") 10
            + 90 / 100 * 15
            + p_progress_modifier (compute_issue_priority_score
                   "hip_rotation" 60 "contact" "High" 90 8)).
    rewrite Hsev, Hprog, Hrel, Hph. lra.
  - unfold classify_coaching_issue.
    change (contains "angle" (lower "hip_rotation")) with false.
    cbv iota. rewrite Habs. unfold not_none_and.
    rewrite (bool_decide_eq_true_2 (60 >= 3.0)) by lra.
    rewrite (bool_decide_eq_true_2 (90 >= 70.0)) by lra.
    rewrite (bool_decide_eq_true_2 (8 > 5.0)) by lra.
    reflexivity.
Qed.

(** ** Issue Classifier *)

Lemma reliable_by_membership (level : string) :
  bool_decide (level ∈ ["High"; "Medium"]) =
  bool_decide (level = "High" ∨ level = "Medium").
Proof.
  apply bool_decide_ext. rewrite !elem_of_cons. split; [intros [?|[?|H]] | intros [?|?]]; auto.
  inversion H.
Qed.

Lemma classification_unfold metric dev level pd stab :
  classification (classify_coaching_issue metric dev level pd stab) =
  spec_decision_rules
    (spec_is_severe (contains "angle" (lower metric)) dev)
    (spec_is_moderate (contains "angle" (lower metric)) dev)
    level (spec_is_improving pd) (spec_is_worsening pd)
    (spec_is_consistent stab).
Proof.
  unfold classify_coaching_issue, spec_decision_rules, spec_is_severe,
    spec_is_moderate, spec_is_consistent.
  rewrite reliable_by_membership.
  replace (not_none_and pd (fun d => bool_decide (d < -5.0)))
    with (spec_is_improving pd) by (destruct pd; reflexivity).
  replace (not_none_and pd (fun d => bool_decide (d > 5.0)))
    with (spec_is_worsening pd) by (destruct pd; reflexivity).
  generalize (spec_is_improving pd) (spec_is_worsening pd)
    (bool_decide (stab >= 70.0))
    (bool_decide (level = "High" ∨ level = "Medium"))
    (bool_decide (level = "High")) (bool_decide (level = "Low")).
  intros imp wors cons reli high low.
  destruct (contains "angle" (lower metric));
    [ generalize (bool_decide (Rabs dev >= 50)) (bool_decide (Rabs dev >= 20))
    | generalize (bool_decide (Rabs dev >= 3.0)) (bool_decide (Rabs dev >= 1.5)) ];
    intros sev mdr;
    destruct sev, mdr, imp, wors, cons, reli, high, low; reflexivity.
Qed.

Lemma spec_decision_rules_total sev mdr level imp wors cons :
  spec_decision_rules sev mdr level imp wors cons ∈ classifications.
Proof.
  unfold spec_decision_rules, classifications.
  repeat match goal with
         | |- context [if ?b then _ else _] => destruct b
         end; set_solver.
Qed.

(** C1. The classifier's answer is the one the seven ordered rules of the
    specification give on the six flags, it is always one of CRITICAL,
    PRIORITY, MONITOR, SUPPRESS, and a severe issue measured with High
    reliability in a phase of stability at least 70 is CRITICAL whether or
    not it is worsening. *)
Theorem classify_coaching_issue_decision
    (metric_name reliability_level : string) (current_deviation : R)
    (progress_delta : option R) (phase_stability : R) :
  let r := classify_coaching_issue metric_name current_deviation
             reliability_level progress_delta phase_stability in
  let angle := contains "angle" (lower metric_name) in
  classification r =
    spec_decision_rules
      (spec_is_severe angle current_deviation)
      (spec_is_moderate angle current_deviation)
      reliability_level
      (spec_is_improving progress_delta) (spec_is_worsening progress_delta)
      (spec_is_consistent phase_stability) /\
  classification r ∈ classifications /\
  (spec_is_severe angle current_deviation = true ->
   reliability_level = "High" -> phase_stability >= 70 ->
   classification r = "CRITICAL").
Proof.
  intros r angle. subst r angle.
  rewrite classification_unfold.
  split; [reflexivity | split].
  - apply spec_decision_rules_total.
  - intros Hsev -> Hstab.
    unfold spec_decision_rules, spec_is_consistent. rewrite Hsev.
    rewrite (bool_decide_eq_true_2 (phase_stability >= 70.0)) by lra.
    reflexivity.
Qed.

Lemma classify_coaching_issue_decision_witness :
  spec_is_severe (contains "angle" (lower "left_elbow_angle")) (-60) = true /\
  90 >= 70 /\
  classification (classify_coaching_issue "left_elbow_angle" (-60) "High" None 90)
    = "CRITICAL".
Proof.
  assert (Hsev : spec_is_severe
                   (contains "angle" (lower "left_elbow_angle")) (-60) = true).
  { change (contains "angle" (lower "left_elbow_angle")) with true.
    unfold spec_is_severe. apply bool_decide_eq_true_2. rabs. }
  assert (Hstab : 90 >= 70) by lra.
  split; [exact Hsev | split; [exact Hstab |]].
  exact (proj2 (proj2 (classify_coaching_issue_decision
           "left_elbow_angle" "High" (-60) None 90)) Hsev eq_refl Hstab).
Defined.

(** ** Reliability Assessor *)

Lemma assess_metric_std metric stats :
  r_std (assess_metric metric stats) = st_std stats.
Proof.
  unfold assess_metric.
  destruct (contains "angle" metric); repeat case_decide; reflexivity.
Qed.

Lemma assess_metric_cv metric stats :
  r_cv (assess_metric metric stats) = st_cv stats.
Proof.
  unfold assess_metric.
  destruct (contains "angle" metric); repeat case_decide; reflexivity.
Qed.

Lemma assess_metric_level metric stats :
  level (assess_metric metric stats) =
  if contains "angle" metric then
    if decide (st_std stats < 10) then "High"
    else if decide (st_std stats < 20) then "Medium" else "Low"
  else spec_level_by_cv (st_cv stats).
Proof.
  unfold assess_metric, spec_level_by_cv.
  generalize (st_std stats) (st_cv stats). intros std cv.
  destruct (contains "angle" metric); rdecide.
Qed.

Section ConfidenceStatistics.
Variable features_df : gmap string (list (option R)).

(** What the loop body stores for one metric, if anything. *)
Let stored (metric : string) : option metric_stats :=
  match features_df !! metric with
  | Some column =>
      if decide (0 < length (dropna column))%nat
      then Some (describe (dropna column)) else None
  | None => None
  end.

(** The body of the loop over [key_metrics]. *)
Let step (confidence_stats : gmap string metric_stats) (metric : string) :=
  match features_df !! metric with
  | Some column =>
      let values := dropna column in
      if decide (0 < length values)%nat
      then <[metric := describe values]> confidence_stats
      else confidence_stats
  | None => confidence_stats
  end.

Lemma step_lookup (acc : gmap string metric_stats) (a m : string) :
  step acc a !! m =
  if decide (a = m)
  then match stored m with Some s => Some s | None => acc !! m end
  else acc !! m.
Proof.
  unfold step, stored.
  destruct (decide (a = m)) as [->|Hne].
  - destruct (features_df !! m) as [column|]; [|reflexivity]. cbv zeta.
    destruct (decide (0 < length (dropna column))%nat); [|reflexivity].
    apply lookup_insert_eq.
  - destruct (features_df !! a) as [column|]; [|reflexivity]. cbv zeta.
    destruct (decide (0 < length (dropna column))%nat); [|reflexivity].
    apply lookup_insert_ne, Hne.
Qed.

Lemma statistics_loop_lookup (metrics : list string) (acc : gmap string metric_stats)
    (m : string) :
  foldl step acc metrics !! m =
  match (if decide (m ∈ metrics) then stored m else None) with
  | Some s => Some s
  | None => acc !! m
  end.
Proof.
  revert acc. induction metrics as [|a rest IH]; intros acc.
  - cbn [foldl]. destruct (decide (m ∈ [])) as [H|_]; [|reflexivity].
    by apply not_elem_of_nil in H.
  - cbn [foldl]. rewrite IH, step_lookup. clear IH.
    destruct (decide (a = m)) as [->|Hne].
    + rewrite (decide_True (P := m ∈ m :: rest)) by (apply elem_of_cons; auto).
      destruct (decide (m ∈ rest)); destruct (stored m); reflexivity.
    + destruct (decide (m ∈ rest)) as [Hin|Hnin].
      * rewrite (decide_True (P := m ∈ a :: rest)) by (apply elem_of_cons; auto).
        reflexivity.
      * rewrite (decide_False (P := m ∈ a :: rest)); [reflexivity|].
        rewrite elem_of_cons. intros [->|?]; contradiction.
Qed.

Lemma compute_confidence_statistics_lookup phase_data (m : string) :
  compute_confidence_statistics features_df phase_data !! m =
  if decide (m ∈ key_metrics) then stored m else None.
Proof.
  change (compute_confidence_statistics features_df phase_data)
    with (foldl step ∅ key_metrics).
  rewrite statistics_loop_lookup.
  rewrite lookup_empty. destruct (decide (m ∈ key_metrics)); [|reflexivity].
  destruct (stored m); reflexivity.
Qed.

Lemma reliability_lookup phase_data (m : string) :
  assess_measurement_reliability
    (compute_confidence_statistics features_df phase_data) !! m =
  if decide (m ∈ key_metrics) then assess_metric m <$> stored m else None.
Proof.
  unfold assess_measurement_reliability.
  rewrite map_lookup_imap, compute_confidence_statistics_lookup.
  destruct (decide (m ∈ key_metrics)); [|reflexivity].
  destruct (stored m); reflexivity.
Qed.

(** C4 (as amended). A metric whose column has no non-missing sample gets
    no assessment at all, and neither does a metric outside the nine tracked
    ones.  Each tracked metric with at least one sample is assessed: when
    its name contains [angle] the level follows the standard deviation (High
    below 10, Medium from 10 to below 20, Low from 20 on);
    every other metric, hip_rotation and spine_lean included, follows the
    coefficient of variation (High below 0.15, Medium below 0.30, Low from
    0.30 on). *)
Theorem reliability_assessment_policy phase_data (metric : string)
    (column : list (option R)) :
  features_df !! metric = Some column ->
  let reliability :=
    assess_measurement_reliability
      (compute_confidence_statistics features_df phase_data) in
  (dropna column = [] -> reliability !! metric = None) /\
  (metric ∈ key_metrics -> dropna column <> [] ->
   exists e, reliability !! metric = Some e /\
     r_std e = np_std (dropna column) /\
     r_cv e = st_cv (describe (dropna column)) /\
     level e =
       if contains "angle" metric then
         if decide (r_std e < 10) then "High"
         else if decide (r_std e < 20) then "Medium" else "Low"
       else spec_level_by_cv (r_cv e)) /\
  (metric ∉ key_metrics -> reliability !! metric = None).
Proof.
  intros Hcol reliability. subst reliability.
  rewrite reliability_lookup. unfold stored. rewrite Hcol.
  split; [|split].
  - intros ->. simpl. destruct (decide (metric ∈ key_metrics)); reflexivity.
  - intros Hkey Hne. rewrite decide_True by exact Hkey.
    rewrite decide_True by (destruct (dropna column); [done | simpl; lia]).
    eexists. split; [reflexivity|].
    rewrite assess_metric_std, assess_metric_cv, assess_metric_level.
    repeat apply conj; reflexivity.
  - intros Hkey. by rewrite decide_False.
Qed.
End ConfidenceStatistics.

Lemma reliability_assessment_policy_witness :
  exists e,
    assess_measurement_reliability
      (compute_confidence_statistics
         {[ "left_knee_angle" := [Some 150; None; Some 150] ]} None)
      !! "left_knee_angle" = Some e /\
    level e = if decide (r_std e < 10) then "High"
              else if decide (r_std e < 20) then "Medium" else "Low".
Proof.
  destruct (reliability_assessment_policy
              {[ "left_knee_angle" := [Some 150; None; Some 150] ]} None
              "left_knee_angle" [Some 150; None; Some 150]
              (lookup_singleton_eq _ _)) as (_ & H & _).
  destruct H as (e & He & _ & _ & Hlevel).
  - in_list.
  - discriminate.
  - exists e. split; [exact He | exact Hlevel].
Defined.

Lemma np_std_1_3 : np_std [1; 3] = 1.
Proof.
  assert (Hmean : np_mean [1; 3] = 2) by (unfold np_mean; simpl; lra).
  unfold np_std. rewrite Hmean. unfold np_mean. simpl.
  replace (Rabs (1 - 2)) with 1 by rabs.
  replace (Rabs (3 - 2)) with 1 by rabs.
  replace ((1 * (1 * 1) + (1 * (1 * 1) + 0)) / (1 + 1)) with 1 by lra.
  apply sqrt_1.
Qed.

(** C4, the claim as worded fails: hip_rotation is a rotation metric, yet a
    column with samples 1 and 3 (standard deviation 1, coefficient of
    variation 0.5) is assessed Low, where the standard-deviation policy
    would give High. *)
Lemma hip_rotation_not_assessed_by_std :
  exists e,
    assess_measurement_reliability
      (compute_confidence_statistics
         {[ "hip_rotation" := [Some 1; None; Some 3] ]} None)
      !! "hip_rotation" = Some e /\
    r_std e = 1 /\ level e = "Low" /\
    level e <> spec_level_by_std (r_std e).
Proof.
  assert (Hmean : np_mean [1; 3] = 2) by (unfold np_mean; simpl; lra).
  eexists. split.
  - rewrite reliability_lookup. rewrite lookup_singleton_eq.
    rewrite decide_True by in_list.
    reflexivity.
  - change (dropna [Some 1; None; Some 3]) with [1; 3].
    rewrite assess_metric_std, assess_metric_level.
    change (contains "angle" "hip_rotation") with false. cbv iota.
    unfold describe, st_cv, st_std. rewrite np_std_1_3, Hmean.
    rewrite (decide_True (P := 2 <> 0)) by (intro; lra).
    unfold spec_level_by_cv, spec_level_by_std.
    rewrite (decide_False (P := 1 / 2 < 0.15)) by lra.
    rewrite (decide_False (P := 1 / 2 < 0.30)) by lra.
    rewrite (decide_True (P := 1 < 10)) by lra.
    repeat apply conj; try reflexivity. discriminate.
Qed.

(** ** Descending stable sort *)

Section SortDesc.
Context {A : Type} (lt : A -> A -> bool).

Lemma insert_desc_perm (x : A) (l : list A) :
  Permutation (insert_desc lt x l) (x :: l).
Proof.
  induction l as [|y l IH]; simpl; [reflexivity|].
  destruct (lt x y); [|reflexivity].
  rewrite IH. apply perm_swap.
Qed.

Lemma sort_desc_perm (l : list A) : Permutation (sort_desc lt l) l.
Proof.
  induction l as [|x l IH]; simpl; [reflexivity|].
  rewrite insert_desc_perm. by apply perm_skip.
Qed.

Lemma sort_desc_length (l : list A) : length (sort_desc lt l) = length l.
Proof. apply Permutation_length, sort_desc_perm. Qed.

Hypothesis lt_asym : forall a b, lt a b = true -> lt b a = false.
Hypothesis lt_negtrans :
  forall a b c, lt a b = false -> lt b c = false -> lt a c = false.

Lemma insert_desc_sorted (x : A) (l : list A) :
  StronglySorted (not_below lt) l -> StronglySorted (not_below lt) (insert_desc lt x l).
Proof.
  induction 1 as [|y l Hl IH Hy]; simpl.
  - repeat constructor.
  - destruct (lt x y) eqn:Hxy.
    + constructor; [exact IH|].
      rewrite (insert_desc_perm x l).
      constructor; [by apply lt_asym | exact Hy].
    + constructor; [by constructor|].
      constructor; [exact Hxy|].
      eapply Forall_impl; [exact Hy|].
      intros b Hb. by apply (lt_negtrans x y b).
Qed.

Lemma sort_desc_sorted (l : list A) : StronglySorted (not_below lt) (sort_desc lt l).
Proof.
  induction l as [|x l IH]; simpl; [constructor|].
  by apply insert_desc_sorted.
Qed.

(** The first element of the sorted list is a maximum of the input. *)
Lemma sort_desc_head (l : list A) (top : A) :
  head (sort_desc lt l) = Some top ->
  In top l /\ forall a, In a l -> a = top \/ lt top a = false.
Proof.
  intros Hhead.
  pose proof (sort_desc_sorted l) as Hsorted.
  pose proof (sort_desc_perm l) as Hperm.
  destruct (sort_desc lt l) as [|t rest]; [discriminate|].
  injection Hhead as ->.
  split.
  - apply (Permutation_in _ Hperm). by left.
  - intros a Ha.
    apply (Permutation_in _ (Permutation_sym Hperm)) in Ha.
    destruct Ha as [->|Ha]; [by left | right].
    apply StronglySorted_inv in Hsorted as [_ Hall].
    rewrite List.Forall_forall in Hall. by apply Hall.
Qed.
End SortDesc.

(** ** Order of strings *)

Lemma string_ltb_lt (a b : string) :
  String.ltb a b = true <-> OrderedTypeEx.String_as_OT.lt a b.
Proof.
  rewrite <- OrderedTypeEx.String_as_OT.cmp_lt.
  unfold String.ltb, OrderedTypeEx.String_as_OT.cmp.
  destruct (String.compare a b); split; congruence.
Qed.

Lemma string_ltb_asym (a b : string) :
  String.ltb a b = true -> String.ltb b a = false.
Proof.
  unfold String.ltb. rewrite (String.compare_antisym b a).
  destruct (String.compare a b); simpl; congruence.
Qed.

Lemma string_ltb_false_leb (a b : string) :
  String.ltb a b = false <-> String.leb b a = true.
Proof.
  unfold String.ltb, String.leb. rewrite (String.compare_antisym b a).
  destruct (String.compare a b); simpl; split; congruence.
Qed.

Lemma string_ltb_trans (a b c : string) :
  String.ltb a b = true -> String.ltb b c = true -> String.ltb a c = true.
Proof.
  rewrite !string_ltb_lt. apply OrderedTypeEx.String_as_OT.lt_trans.
Qed.

Lemma string_ltb_false_cases (a b : string) :
  String.ltb a b = false -> a = b \/ String.ltb b a = true.
Proof.
  unfold String.ltb. rewrite (String.compare_antisym b a).
  destruct (String.compare a b) eqn:Hc; simpl; try congruence.
  - intros _. left. by apply String.compare_eq_iff.
  - intros _. by right.
Qed.

Lemma string_ltb_negtrans (a b c : string) :
  String.ltb a b = false -> String.ltb b c = false -> String.ltb a c = false.
Proof.
  intros Hab Hbc.
  destruct (string_ltb_false_cases _ _ Hab) as [->|Hba]; [exact Hbc|].
  destruct (string_ltb_false_cases _ _ Hbc) as [->|Hcb]; [exact Hab|].
  apply string_ltb_asym. by apply (string_ltb_trans c b a).
Qed.

(** ** Previous-session lookup *)

(** C5 (as amended). Over a readable base directory the lookup returns the
    lexicographically largest name among the directories that are not the
    current session and have the shape of a session name, and none when there
    is no such directory; a missing or unreadable base directory gives none.
    When none of these sessions is later than the current one, the answer is
    the previous session in the sense of the specification. *)
Theorem find_previous_session_latest (items : list dir_item) (current : string) :
  let sessions := map name (List.filter (is_session_dir (Some current)) items) in
  let result := find_previous_session (Listing items) (Some current) in
  match result with
  | Some s => In s sessions /\ forall t, In t sessions -> String.leb t s = true
  | None => sessions = []
  end /\
  ((forall t, In t sessions -> String.ltb t current = true) ->
   spec_previous_session sessions current result) /\
  find_previous_session Missing (Some current) = None /\
  find_previous_session Unreadable (Some current) = None.
Proof.
  intros sessions result.
  assert (Hmain : match result with
                  | Some s => In s sessions /\
                              forall t, In t sessions -> String.leb t s = true
                  | None => sessions = []
                  end).
  { subst result. unfold find_previous_session. fold sessions.
    destruct sessions as [|s0 rest] eqn:Hs; [reflexivity|].
    destruct (head (sort_desc String.ltb (s0 :: rest))) as [top|] eqn:Hhead.
    - destruct (sort_desc_head String.ltb string_ltb_asym string_ltb_negtrans
                  _ _ Hhead) as [Hin Hmax].
      split; [exact Hin|].
      intros t Ht. destruct (Hmax t Ht) as [->|Hlt].
      + apply string_ltb_false_leb.
        destruct (String.ltb top top) eqn:E; [|reflexivity].
        by rewrite (string_ltb_asym _ _ E) in E.
      + by apply string_ltb_false_leb.
    - pose proof (sort_desc_length String.ltb (s0 :: rest)) as Hlen.
      destruct (sort_desc String.ltb (s0 :: rest)); discriminate. }
  split; [exact Hmain|]. split; [|split; reflexivity].
  intros Hbefore. unfold spec_previous_session.
  destruct result as [s|].
  - destruct Hmain as [Hin Hmax]. repeat apply conj; auto.
  - rewrite Hmain. intros t [].
Qed.

Lemma find_previous_session_latest_witness :
  spec_previous_session
    ["2024-01-01_09-00-00"; "2024-01-02_09-00-00"]%string
    "2024-01-03_09-00-00"
    (find_previous_session
       (Listing [ {| name := "2024-01-01_09-00-00"; is_dir := true |};
                  {| name := "2024-01-03_09-00-00"; is_dir := true |};
                  {| name := "report.md"; is_dir := false |};
                  {| name := "2024-01-02_09-00-00"; is_dir := true |} ])
       (Some "2024-01-03_09-00-00"%string)).
Proof.
  apply (find_previous_session_latest
           [ {| name := "2024-01-01_09-00-00"; is_dir := true |};
             {| name := "2024-01-03_09-00-00"; is_dir := true |};
             {| name := "report.md"; is_dir := false |};
             {| name := "2024-01-02_09-00-00"; is_dir := true |} ]
           "2024-01-03_09-00-00").
  intros t [<-|[<-|[]]]; reflexivity.
Defined.

(** C5, the claim as worded fails: with sessions of 1 and 3 January on disk
    and 2 January as the current session, the lookup answers 3 January, which
    is not below the current identifier; the specification's previous session
    is 1 January. *)
Lemma find_previous_session_not_strictly_before :
  let items := [ {| name := "2024-01-01_09-00-00"; is_dir := true |};
                 {| name := "2024-01-03_09-00-00"; is_dir := true |} ] in
  let current := "2024-01-02_09-00-00"%string in
  find_previous_session (Listing items) (Some current)
    = Some "2024-01-03_09-00-00"%string /\
  String.ltb "2024-01-03_09-00-00" current = false /\
  ~ spec_previous_session (map name items) current
      (find_previous_session (Listing items) (Some current)).
Proof.
  repeat apply conj; [reflexivity | reflexivity |].
  intros (_ & Hlt & _). discriminate Hlt.
Qed.

(** ** Adaptive focus *)

Lemma lower_priority_asym (a b : adaptive_cue) :
  lower_priority a b = true -> lower_priority b a = false.
Proof. unfold lower_priority. rdecide. Qed.

Lemma lower_priority_negtrans (a b c : adaptive_cue) :
  lower_priority a b = false -> lower_priority b c = false ->
  lower_priority a c = false.
Proof. unfold lower_priority. rdecide. Qed.

Lemma descending_by_score (cues : list adaptive_cue) :
  StronglySorted (not_below lower_priority) cues ->
  StronglySorted (fun a b => ac_priority_score a >= ac_priority_score b) cues.
Proof.
  induction 1 as [|a l _ IH Ha]; constructor; [exact IH|].
  eapply Forall_impl; [exact Ha|].
  intros b. unfold not_below, lower_priority. rdecide.
Qed.

Lemma adapt_cue_classified rel stab prog (cue_data : cue_tuple) :
  In (ac_classification (adapt_cue rel stab prog cue_data)) classifications.
Proof.
  destruct cue_data as [[[[cue_text phase_name] metric_name] deviation] phase].
  unfold adapt_cue. cbv zeta. cbn [ac_classification].
  rewrite classification_unfold.
  apply list_elem_of_In, spec_decision_rules_total.
Qed.

Lemma with_classification_In (label : string) (cues : list adaptive_cue) c :
  In c (with_classification label cues) <->
  In c cues /\ ac_classification c = label.
Proof.
  unfold with_classification. rewrite List.filter_In.
  by rewrite bool_decide_eq_true.
Qed.

(** Four filters on pairwise different labels split a list of cues whose
    labels are all among the four. *)
Lemma classification_partition (cues : list adaptive_cue) :
  Forall (fun c => In (ac_classification c) classifications) cues ->
  Permutation cues
    (with_classification "CRITICAL" cues ++ with_classification "PRIORITY" cues ++
     with_classification "MONITOR" cues ++ with_classification "SUPPRESS" cues).
Proof.
  induction 1 as [|c cues Hc _ IH]; [reflexivity|].
  unfold with_classification in *. cbn [List.filter].
  destruct Hc as [Hc|[Hc|[Hc|[Hc|[]]]]]; rewrite <- Hc; simpl.
  - by apply perm_skip.
  - rewrite <- Permutation_middle. by apply perm_skip.
  - rewrite app_assoc, <- Permutation_middle, <- app_assoc. by apply perm_skip.
  - rewrite !app_assoc, <- Permutation_middle, <- !app_assoc. by apply perm_skip.
Qed.

(** C10. The cues of the adaptive focus are in descending order of priority
    score; the critical, priority, monitor and suppressed lists together are
    a rearrangement of them, every cue lies in exactly one of the four, and
    the four lengths add up to the number of ranked cues given. *)
Theorem adaptive_focus_sorted_partition
    (ranked_cues : list cue_tuple)
    (user_reliability : option (gmap string reliability_entry))
    (user_phase_stability : option (gmap string phase_stability_entry))
    (progress_deltas : option progress_dict) :
  let f := generate_adaptive_coaching_focus ranked_cues user_reliability
             user_phase_stability progress_deltas in
  StronglySorted (fun a b => ac_priority_score a >= ac_priority_score b)
    (all_adaptive_cues f) /\
  Permutation (all_adaptive_cues f)
    (critical f ++ priority f ++ monitor f ++ suppressed f) /\
  (length (critical f) + length (priority f) + length (monitor f)
   + length (suppressed f) = length ranked_cues)%nat /\
  forall c, In c (all_adaptive_cues f) ->
    (In c (critical f) /\ ~ In c (priority f) /\ ~ In c (monitor f)
       /\ ~ In c (suppressed f)) \/
    (~ In c (critical f) /\ In c (priority f) /\ ~ In c (monitor f)
       /\ ~ In c (suppressed f)) \/
    (~ In c (critical f) /\ ~ In c (priority f) /\ In c (monitor f)
       /\ ~ In c (suppressed f)) \/
    (~ In c (critical f) /\ ~ In c (priority f) /\ ~ In c (monitor f)
       /\ In c (suppressed f)).
Proof.
  intros f. subst f. unfold generate_adaptive_coaching_focus. cbv zeta.
  cbn [all_adaptive_cues critical priority monitor suppressed].
  set (cues := map (adapt_cue user_reliability user_phase_stability
                      progress_deltas) ranked_cues).
  set (sorted := sort_desc lower_priority cues).
  assert (Hperm : Permutation sorted cues) by apply sort_desc_perm.
  assert (Hclass : Forall (fun c => In (ac_classification c) classifications) sorted).
  { rewrite Hperm. subst cues. apply List.Forall_forall. intros c Hc.
    apply in_map_iff in Hc as (cue_data & <- & _). apply adapt_cue_classified. }
  pose proof (classification_partition sorted Hclass) as Hpart.
  repeat apply conj.
  - pose proof (sort_desc_sorted lower_priority lower_priority_asym
                  lower_priority_negtrans cues) as Hs.
    by apply descending_by_score.
  - exact Hpart.
  - apply Permutation_length in Hpart. rewrite !length_app in Hpart.
    apply Permutation_length in Hperm. subst cues. rewrite length_map in Hperm.
    lia.
  - intros c Hc. rewrite !with_classification_In.
    rewrite List.Forall_forall in Hclass.
    destruct (Hclass c Hc) as [E|[E|[E|[E|[]]]]]; rewrite <- E;
      [left | right; left | right; right; left | right; right; right];
      repeat apply conj;
      first [exact Hc | reflexivity | intros [_ ?]; discriminate].
Qed.

Lemma adaptive_focus_sorted_partition_witness :
  let cue : cue_tuple :=
    (120, "Bend your left elbow more", "left_elbow_angle", 60, "contact")%string in
  let f := generate_adaptive_coaching_focus [cue] None None None in
  let c := adapt_cue None None None cue in
  In c (all_adaptive_cues f) /\
  ((In c (critical f) /\ ~ In c (priority f) /\ ~ In c (monitor f)
      /\ ~ In c (suppressed f)) \/
   (~ In c (critical f) /\ In c (priority f) /\ ~ In c (monitor f)
      /\ ~ In c (suppressed f)) \/
   (~ In c (critical f) /\ ~ In c (priority f) /\ In c (monitor f)
      /\ ~ In c (suppressed f)) \/
   (~ In c (critical f) /\ ~ In c (priority f) /\ ~ In c (monitor f)
      /\ In c (suppressed f))).
Proof.
  intros cue f c.
  assert (Hin : In c (all_adaptive_cues f)) by (left; reflexivity).
  split; [exact Hin|].
  exact (proj2 (proj2 (proj2
           (adaptive_focus_sorted_partition [cue] None None None))) c Hin).
Defined.

(** ** Drill Recommender *)

Lemma general_technique_first_drill :
  exists entry general rest,
    get_drill_knowledge_base !! "general_technique" = Some entry /\
    drills entry = general :: rest /\
    d_name general = "Slow-Motion Shadow Strokes" /\
    moderate (d_intensity general) = "50 reps".
Proof.
  destruct (get_drill_knowledge_base !! "general_technique") as [entry|] eqn:E;
    vm_compute in E; [|discriminate].
  injection E as <-.
  eexists _, _, _. repeat apply conj; reflexivity.
Qed.

(** C7. With the built-in knowledge base the recommender always returns; if
    the issues yield no critical and no priority drill, its priority list is
    exactly one prescription, made from the first general_technique drill at
    moderate intensity, and otherwise the lists are the ones the issues
    yielded; in both cases critical and priority drills together are not
    empty. *)
Theorem recommendations_never_empty (format_1f : R -> string) (focus : adaptive_focus) :
  let kb := get_drill_knowledge_base in
  let from_critical := critical_drills_for format_1f kb (critical focus) in
  let from_priority := priority_drills_for format_1f kb (priority focus) in
  exists r,
    generate_adaptive_drill_recommendations format_1f focus None = Some r /\
    critical_drills r ++ priority_drills r <> [] /\
    (from_critical = [] -> from_priority = [] ->
     critical_drills r = [] /\
     exists entry general fallback,
       kb !! "general_technique" = Some entry /\
       head (drills entry) = Some general /\
       fallback = general_prescription general /\
       priority_drills r = [fallback] /\
       rx_intensity_level fallback = "moderate" /\
       rx_prescription fallback = moderate (d_intensity general) /\
       rx_drill_name fallback = "Slow-Motion Shadow Strokes") /\
    (from_critical ++ from_priority <> [] ->
     critical_drills r = from_critical /\ priority_drills r = from_priority).
Proof.
  intros kb from_critical from_priority.
  destruct general_technique_first_drill
    as (entry & general & rest & Hkb & Hdrills & Hname & Hmod).
  unfold generate_adaptive_drill_recommendations.
  change (default get_drill_knowledge_base None) with kb. cbv zeta.
  fold from_critical from_priority.
  destruct from_critical as [|c cs].
  - destruct from_priority as [|p ps].
    + fold kb in Hkb. rewrite Hkb. simpl. rewrite Hdrills. simpl.
      eexists. split; [reflexivity|]. simpl.
      repeat apply conj; [discriminate | | intros H; by destruct H].
      intros _ _. split; [reflexivity|].
      exists entry, general, (general_prescription general).
      rewrite Hdrills. repeat apply conj; try reflexivity. exact Hname.
    + eexists. split; [reflexivity|]. simpl.
      repeat apply conj; [discriminate | discriminate | auto].
  - eexists. split; [reflexivity|]. simpl.
    repeat apply conj; [discriminate | discriminate | auto].
Qed.

Lemma recommendations_never_empty_witness :
  let focus := {| all_adaptive_cues := []; critical := []; priority := [];
                  monitor := []; suppressed := []; top_3 := [] |} in
  exists r fallback,
    generate_adaptive_drill_recommendations (fun _ => "0.0"%string) focus None
      = Some r /\
    critical_drills r = [] /\ priority_drills r = [fallback] /\
    rx_intensity_level fallback = "moderate" /\
    rx_drill_name fallback = "Slow-Motion Shadow Strokes".
Proof.
  intros focus.
  destruct (recommendations_never_empty (fun _ => "0.0"%string) focus)
    as (r & Hr & _ & Hfallback & _).
  destruct (Hfallback eq_refl eq_refl)
    as (Hcrit & _ & _ & fallback & _ & _ & _ & Hprio & Hlevel & _ & Hname).
  exists r, fallback. repeat apply conj; assumption.
Defined.

(** ** The outcome store *)

(** Runs both sides of a store equation on a store given by its fields. *)
Ltac run_store :=
  unfold save_drill_outcomes, compute_drill_confidence_scores, try_except,
    mbind, io_bind, bind, mkdir, exists_file, json_load, json_dump, extend,
    ret, raise, set_outcome_file;
  cbn.

Lemma save_nothing (st : fs) : save_drill_outcomes [] st = (inr true, st).
Proof. reflexivity. Qed.

Lemma save_on_healthy (outcomes : list outcome) (st : fs) :
  healthy st ->
  exists st',
    save_drill_outcomes outcomes st = (inr true, st') /\
    healthy st' /\
    stored_history st' = stored_history st ++ outcomes /\
    (outcomes = [] -> st' = st).
Proof.
  destruct st as [file mk rd wr].
  intros (Hmk & Hrd & Hwr & Hfile). cbn in Hmk, Hrd, Hwr, Hfile. subst mk rd wr.
  destruct outcomes as [|o rest].
  - eexists. split; [reflexivity|]. unfold healthy, stored_history. cbn.
    rewrite app_nil_r. repeat apply conj; auto.
  - destruct Hfile as [->|[history ->]]; run_store;
      (eexists; split; [reflexivity|]); unfold healthy, stored_history; cbn;
      repeat apply conj; eauto; discriminate.
Qed.

(** C8. Saving a first and then a second list of outcome records to a store
    whose operations succeed leaves the earlier history followed by the first
    list and then the second, nothing merged or dropped; from a fresh store
    the same list of n records saved twice gives 2 * n records; saving an
    empty list changes nothing, on any store. *)
Theorem save_drill_outcomes_appends (first second : list outcome) (st : fs) :
  save_drill_outcomes [] st = (inr true, st) /\
  (healthy st ->
   exists st1 st2,
     save_drill_outcomes first st = (inr true, st1) /\
     save_drill_outcomes second st1 = (inr true, st2) /\
     stored_history st2 = stored_history st ++ first ++ second /\
     (outcome_file st = None -> second = first ->
      stored_history st2 = first ++ first /\
      length (stored_history st2) = (2 * length first)%nat)).
Proof.
  split; [apply save_nothing|].
  intros Hst.
  destruct (save_on_healthy first st Hst) as (st1 & Hsave1 & Hst1 & Hhist1 & _).
  destruct (save_on_healthy second st1 Hst1) as (st2 & Hsave2 & _ & Hhist2 & _).
  exists st1, st2. repeat apply conj; try assumption.
  - by rewrite Hhist2, Hhist1, app_assoc.
  - intros Hfresh ->. rewrite Hhist2, Hhist1.
    unfold stored_history. rewrite Hfresh. cbn.
    split; [reflexivity | rewrite length_app; lia].
Qed.

(** C9. The writer returns a value on every store, never an exception: on a
    file that does not parse it starts from an empty history and stores the
    new records, and when the write fails it returns False.  The scorer
    returns the empty dict on a file that does not parse, and returns a
    value whenever its existence check answers.  That check stands before
    the scorer's [try]: on a path that cannot be examined the scorer hands
    the error to its caller, where the writer, whose check is inside its
    [try], returns False. *)
Theorem scorer_raises_from_existence_check (outcomes : list outcome) (st : fs) :
  (exists saved st', save_drill_outcomes outcomes st = (inr saved, st')) /\
  (outcome_file st = Some Inaccessible ->
   compute_drill_confidence_scores st = (inl OSError, st) /\
   (outcomes <> [] -> save_drill_outcomes outcomes st = (inr false, st))) /\
  (outcome_file st <> Some Inaccessible ->
   exists scores, compute_drill_confidence_scores st = (inr scores, st)) /\
  (outcome_file st = Some Unparseable ->
   compute_drill_confidence_scores st = (inr ∅, st)) /\
  (outcome_file st = Some Unparseable -> outcomes <> [] ->
   mkdir_fails st = false -> write st = WriteOk ->
   save_drill_outcomes outcomes st
     = (inr true, set_outcome_file (Some (Records outcomes)) st)) /\
  (write st <> WriteOk -> outcomes <> [] ->
   exists st', save_drill_outcomes outcomes st = (inr false, st')).
Proof.
  destruct st as [file mk rd wr].
  repeat apply conj.
  - destruct outcomes as [|o rest]; [by eexists _, _|].
    destruct file as [[| |history|]|], mk, rd, wr; run_store; by eexists _, _.
  - cbn. intros ->. split; [reflexivity|].
    intros Hne. destruct outcomes as [|o rest]; [done|].
    destruct mk; reflexivity.
  - cbn. intros Hfile.
    destruct file as [[| |[|o history]|]|], rd; try done; run_store;
      by eexists.
  - cbn. intros ->. destruct rd; reflexivity.
  - cbn. intros -> Hne -> ->.
    destruct outcomes as [|o rest]; [done|]. destruct rd; reflexivity.
  - cbn. intros Hwr Hne.
    destruct outcomes as [|o rest]; [done|].
    destruct file as [[| |history|]|], mk, rd, wr; try done; run_store;
      by eexists.
Qed.

Lemma save_drill_outcomes_appends_witness :
  healthy fresh_store /\
  exists st1 st2,
    save_drill_outcomes [sample_outcome] fresh_store = (inr true, st1) /\
    save_drill_outcomes [sample_outcome] st1 = (inr true, st2) /\
    stored_history st2 = [sample_outcome; sample_outcome].
Proof.
  assert (Hfresh : healthy fresh_store).
  { unfold healthy. cbn. repeat apply conj; auto. }
  split; [exact Hfresh|].
  destruct (proj2 (save_drill_outcomes_appends
                     [sample_outcome] [sample_outcome] fresh_store) Hfresh)
    as (st1 & st2 & H1 & H2 & _ & Htwice).
  exists st1, st2. repeat apply conj; [exact H1 | exact H2 |].
  exact (proj1 (Htwice eq_refl eq_refl)).
Defined.

Lemma scorer_raises_from_existence_check_witness :
  let locked := {| outcome_file := Some Inaccessible; mkdir_fails := false;
                   read_fails := false; write := WriteOk |} in
  compute_drill_confidence_scores locked = (inl OSError, locked) /\
  save_drill_outcomes [sample_outcome] locked = (inr false, locked).
Proof.
  intros locked.
  destruct (scorer_raises_from_existence_check [sample_outcome] locked)
    as (_ & Hlocked & _).
  destruct (Hlocked eq_refl) as [Hscorer Hwriter].
  split; [exact Hscorer | apply Hwriter; discriminate].
Defined.

(** ** Confidence Scorer *)

Lemma scorer_on_records (st : fs) (history : list outcome) :
  outcome_file st = Some (Records history) -> read_fails st = false ->
  history <> [] ->
  compute_drill_confidence_scores st
    = (inr (score_group <$> group_outcomes history), st).
Proof.
  destruct st as [file mk rd wr]. cbn. intros -> -> Hne.
  destruct history as [|o rest]; [done|]. reflexivity.
Qed.

(** The grouping loop on outcomes of one drill [d], from a state that
    already holds a group for [d]. *)
Lemma group_loop_single_drill (d : string) (outcomes : list outcome)
    (group : drill_group) :
  Forall (fun o => o_drill_name o = d) outcomes ->
  foldl add_outcome {[ d := group ]} outcomes
  = {[ d := {| deltas := deltas group ++ map o_delta outcomes;
               reliabilities := reliabilities group ++ map o_reliability outcomes |} ]}.
Proof.
  intros Hall. revert group.
  induction Hall as [|o rest Ho _ IH]; intros group.
  - cbn. rewrite !app_nil_r. by destruct group.
  - cbn [foldl]. unfold add_outcome at 2.
    rewrite Ho, lookup_singleton_eq, alter_singleton_eq.
    rewrite IH. cbn. by rewrite <- !app_assoc.
Qed.

Lemma group_single_drill (d : string) (history : list outcome) :
  history <> [] ->
  Forall (fun o => o_drill_name o = d) history ->
  group_outcomes history
  = {[ d := {| deltas := map o_delta history;
               reliabilities := map o_reliability history |} ]}.
Proof.
  intros Hne Hall. destruct Hall as [|o rest Ho Hrest]; [done|].
  unfold group_outcomes. cbn [foldl]. unfold add_outcome at 2.
  rewrite Ho, lookup_empty, insert_empty, alter_singleton_eq.
  by rewrite (group_loop_single_drill d rest _ Hrest).
Qed.

Lemma sqrt_2_bounds : 1.4142 < sqrt 2 < 1.4143.
Proof.
  pose proof (sqrt_pos 2) as Hpos.
  pose proof (sqrt_sqrt 2 ltac:(lra)) as Hsq.
  split; nra.
Qed.

Lemma mean_of_five : np_mean [-10; -12; -8; -11; -9] = -10.
Proof. unfold np_mean. simpl. lra. Qed.

Lemma std_of_five : np_std [-10; -12; -8; -11; -9] = sqrt 2.
Proof.
  unfold np_std. rewrite mean_of_five. unfold np_mean. cbn [map foldr length].
  rewrite !pow2_abs. f_equal. simpl. lra.
Qed.

(** The score of a group of five High-reliability outcomes with the deltas
    -10, -12, -8, -11, -9. *)
Lemma score_of_five :
  let c := score_group {| deltas := [-10; -12; -8; -11; -9];
                          reliabilities := ["High"; "High"; "High"; "High"; "High"] |} in
  usage_count c = 5%nat /\ avg_delta c = -10 /\ std_delta c = sqrt 2 /\
  high_reliability_ratio c = 1 /\ consistency c = 1 - sqrt 2 / 10 /\
  improvement_score_of (avg_delta c) = 0.75 /\
  sample_score_of (usage_count c) = 1 /\
  confidence_score c = 0.9 - sqrt 2 / 40 /\
  confidence_level c = "High".
Proof.
  pose proof sqrt_2_bounds as Hsqrt.
  assert (Hcons : consistency_of (-10) (sqrt 2) = 1 - sqrt 2 / 10).
  { unfold consistency_of.
    replace (Rabs (-10)) with 10 by rabs.
    rewrite decide_True by lra. cbv zeta. rminmax. }
  assert (Himp : improvement_score_of (-10) = 0.75).
  { unfold improvement_score_of. rminmax. }
  assert (Hsample : sample_score_of 5 = 1).
  { unfold sample_score_of. simpl. rminmax. }
  assert (Hratio : INR 5 / INR 5 = 1) by (simpl; lra).
  assert (Hcount : length (List.filter (fun r => bool_decide (r = "High"))
                     ["High"; "High"; "High"; "High"; "High"]%string) = 5%nat)
    by reflexivity.
  intros c. subst c. unfold score_group. cbv zeta.
  cbn [deltas reliabilities usage_count avg_delta std_delta
       high_reliability_ratio consistency confidence_score confidence_level].
  rewrite Hcount.
  change (length [-10; -12; -8; -11; -9]) with 5%nat.
  rewrite !(decide_True (P := (1 < 5)%nat)) by lia.
  rewrite !(decide_True (P := (0 < 5)%nat)) by lia.
  rewrite mean_of_five, std_of_five, Hcons, Himp, Hsample, Hratio.
  repeat apply conj; try reflexivity; try lra.
  rewrite decide_True by lra. reflexivity.
Qed.

Lemma five_high_records (d : string) (history : list outcome) :
  map o_delta history = [-10; -12; -8; -11; -9] ->
  Forall (fun o => o_drill_name o = d /\ o_reliability o = "High") history ->
  history <> [] /\
  Forall (fun o => o_drill_name o = d) history /\
  map o_reliability history = ["High"; "High"; "High"; "High"; "High"]%string.
Proof.
  intros Hdeltas Hall.
  destruct history as [|o1 [|o2 [|o3 [|o4 [|o5 [|o6 rest]]]]]]; try discriminate.
  repeat apply conj; [discriminate | |].
  - eapply Forall_impl; [exact Hall|]. by intros o [? _].
  - repeat match goal with
           | H : Forall _ (_ :: _) |- _ => apply Forall_cons in H as [[_ ?] H]
           end.
    cbn. congruence.
Qed.

(** What the scorer returns on a store of five High-reliability outcomes of
    one drill with deltas -10, -12, -8, -11, -9. *)
Lemma scorer_on_five (st : fs) (history : list outcome) (d : string) :
  outcome_file st = Some (Records history) -> read_fails st = false ->
  map o_delta history = [-10; -12; -8; -11; -9] ->
  Forall (fun o => o_drill_name o = d /\ o_reliability o = "High") history ->
  compute_drill_confidence_scores st
  = (inr {[ d := score_group
                   {| deltas := [-10; -12; -8; -11; -9];
                      reliabilities := ["High"; "High"; "High"; "High"; "High"] |} ]},
     st).
Proof.
  intros Hfile Hread Hdeltas Hall.
  destruct (five_high_records d history Hdeltas Hall) as (Hne & Hnames & Hrel).
  rewrite (scorer_on_records st history Hfile Hread Hne).
  rewrite (group_single_drill d history Hne Hnames).
  by rewrite map_fmap_singleton, Hdeltas, Hrel.
Qed.

(** C3 (as amended). On a store of exactly five outcome records of one drill
    with deltas -10, -12, -8, -11, -9, all of High reliability, the scorer
    reports for that drill, and for no other, usage count 5, average delta
    -10, standard deviation sqrt 2 (about 1.41), High-reliability ratio 1,
    consistency 1 - sqrt 2 / 10 (about 0.859), improvement score 0.75, sample
    score 1, and the weighted confidence score
    0.4 * 0.75 + 0.25 * 1 + 0.25 * consistency + 0.1 * 1, which is about
    0.8646, at level High. *)
Theorem five_record_confidence (st : fs) (history : list outcome) (d : string) :
  outcome_file st = Some (Records history) -> read_fails st = false ->
  map o_delta history = [-10; -12; -8; -11; -9] ->
  Forall (fun o => o_drill_name o = d /\ o_reliability o = "High") history ->
  exists c,
    compute_drill_confidence_scores st = (inr {[ d := c ]}, st) /\
    usage_count c = 5%nat /\
    avg_delta c = -10 /\
    std_delta c = sqrt 2 /\ Rabs (std_delta c - 1.41) < 0.01 /\
    high_reliability_ratio c = 1.0 /\
    consistency c = 1 - sqrt 2 / 10 /\ Rabs (consistency c - 0.859) < 0.001 /\
    improvement_score_of (avg_delta c) = 0.75 /\
    sample_score_of (usage_count c) = 1.0 /\
    confidence_score c = 0.4 * 0.75 + 0.25 * 1 + 0.25 * consistency c + 0.1 * 1 /\
    Rabs (confidence_score c - 0.8646) < 0.0001 /\
    confidence_level c = "High".
Proof.
  intros Hfile Hread Hdeltas Hall.
  eexists. split; [by apply (scorer_on_five st history d)|].
  pose proof sqrt_2_bounds as Hsqrt.
  destruct score_of_five
    as (Hn & Havg & Hstd & Hratio & Hcons & Himp & Hsample & Hscore & Hlevel).
  rewrite Hn, Havg, Hstd, Hratio, Hcons, Hscore in *.
  repeat apply conj; try assumption; try reflexivity; try lra; rabs.
Qed.

Lemma five_record_confidence_witness :
  exists c,
    compute_drill_confidence_scores five_record_store
      = (inr {[ "X"%string := c ]}, five_record_store) /\
    avg_delta c = -10 /\ std_delta c = sqrt 2 /\
    Rabs (confidence_score c - 0.8646) < 0.0001 /\
    confidence_level c = "High".
Proof.
  assert (Hdeltas :
            map o_delta [ outcome_of_x 0 (-10); outcome_of_x 0 (-12);
                          outcome_of_x 0 (-8); outcome_of_x 0 (-11);
                          outcome_of_x 0 (-9) ]
            = [-10; -12; -8; -11; -9]).
  { cbn. repeat f_equal; lra. }
  destruct (five_record_confidence five_record_store _ "X" eq_refl eq_refl Hdeltas)
    as (c & Hc & _ & Havg & Hstd & _ & _ & _ & _ & _ & _ & _ & Hscore & Hlevel).
  - repeat constructor.
  - exists c. repeat apply conj; assumption.
Defined.

(** C3, the claim as worded fails on its confidence score: on the store of
    five records the scorer's value is 0.9 - sqrt 2 / 40, below 0.865, and so
    is not 0.9148 nor within 0.05 of it. *)
Lemma five_record_confidence_is_not_0_9148 :
  exists c,
    compute_drill_confidence_scores five_record_store
      = (inr {[ "X"%string := c ]}, five_record_store) /\
    confidence_score c < 0.865 /\
    confidence_score c <> 0.9148 /\
    Rabs (confidence_score c - 0.9148) > 0.05.
Proof.
  assert (Hdeltas :
            map o_delta [ outcome_of_x 0 (-10); outcome_of_x 0 (-12);
                          outcome_of_x 0 (-8); outcome_of_x 0 (-11);
                          outcome_of_x 0 (-9) ]
            = [-10; -12; -8; -11; -9]).
  { cbn. repeat f_equal; lra. }
  eexists. split.
  - apply (scorer_on_five five_record_store _ "X" eq_refl eq_refl Hdeltas).
    repeat constructor.
  - pose proof sqrt_2_bounds as Hsqrt.
    destruct score_of_five as (_ & _ & _ & _ & _ & _ & _ & Hscore & _).
    rewrite Hscore. repeat apply conj; try lra. rabs.
Qed.

(* ===================================================================== *)
(** * Further properties of the engine *)
(* ===================================================================== *)

(** ** Issue Classifier: when each label is given *)

(** The severity threshold of the classifier for a metric name. *)
Lemma is_severe_threshold metric dev level pd stab :
  is_severe (classify_coaching_issue metric dev level pd stab) = true <->
  Rabs dev >= (if contains "angle" (lower metric) then 50 else 3).
Proof.
  unfold classify_coaching_issue.
  match goal with |- context [let '(_, _) := ?p in _] => destruct p end.
  cbn [is_severe].
  destruct (contains "angle" (lower metric)); rewrite bool_decide_eq_true; lra.
Qed.

Lemma critical_iff_lemma metric_name current_deviation reliability_level
    progress_delta phase_stability :
  classification (classify_coaching_issue metric_name current_deviation
                    reliability_level progress_delta phase_stability)
    = "CRITICAL" <->
  Rabs current_deviation
    >= (if contains "angle" (lower metric_name) then 50 else 3) /\
  reliability_level = "High" /\ phase_stability >= 70.
Proof.
  rewrite classification_unfold.
  unfold spec_decision_rules, spec_is_severe, spec_is_moderate, spec_is_consistent.
  generalize (spec_is_improving progress_delta). intros imp.
  destruct (contains "angle" (lower metric_name));
    repeat case_bool_decide; destruct imp; cbn;
    split; try discriminate; try (intros _; repeat apply conj; (lra || tauto));
    intros (? & ? & ?); try lra; try tauto; try congruence.
Qed.

(** X1. The classifier answers CRITICAL exactly when the deviation reaches
    the severity threshold of the metric (50 for names containing "angle",
    3 otherwise), the reliability level is High and the phase stability is
    at least 70. *)
Theorem critical_iff
    (metric_name reliability_level : string) (current_deviation : R)
    (progress_delta : option R) (phase_stability : R) :
  classification (classify_coaching_issue metric_name current_deviation
                    reliability_level progress_delta phase_stability)
    = "CRITICAL" <->
  Rabs current_deviation
    >= (if contains "angle" (lower metric_name) then 50 else 3) /\
  reliability_level = "High" /\ phase_stability >= 70.
Proof. apply critical_iff_lemma. Qed.

(** Case analysis on every test of the decision list. *)
Ltac decision_cases :=
  rewrite classification_unfold;
  unfold spec_decision_rules, spec_is_severe, spec_is_moderate,
    spec_is_consistent;
  match goal with
  | |- context [spec_is_improving ?pd] => generalize (spec_is_improving pd); intros []
  end;
  match goal with
  | |- context [contains "angle" ?m] => destruct (contains "angle" m)
  end;
  repeat case_bool_decide; cbn.

(** Closes a case whose tests contradict each other. *)
Ltac absurd_case :=
  exfalso;
  repeat match goal with
         | H : _ \/ _ |- _ => destruct H
         | H : ~ (_ \/ _) |- _ => apply Decidable.not_or in H; destruct H
         end;
  first [congruence | lra].

(** X2. The classifier answers SUPPRESS exactly when the reliability level
    is Low and the deviation is below the severity threshold of the metric;
    a Low-reliability issue at or above the threshold is put on MONITOR, so
    Low reliability never leads to CRITICAL or PRIORITY. *)
Theorem suppress_iff
    (metric_name reliability_level : string) (current_deviation : R)
    (progress_delta : option R) (phase_stability : R) :
  let label := classification (classify_coaching_issue metric_name
                 current_deviation reliability_level progress_delta
                 phase_stability) in
  let threshold := if contains "angle" (lower metric_name) then 50 else 3 in
  (label = "SUPPRESS" <->
   reliability_level = "Low" /\ Rabs current_deviation < threshold) /\
  (reliability_level = "Low" -> Rabs current_deviation >= threshold ->
   label = "MONITOR").
Proof.
  intros label threshold. subst label threshold.
  split.
  - decision_cases;
      (split;
       [ intros Hlabel; try discriminate Hlabel;
         split; first [assumption | lra | absurd_case]
       | intros [Hlow Hdev]; try reflexivity; absurd_case ]).
  - intros -> Hsev. revert Hsev.
    decision_cases; intros; try reflexivity; absurd_case.
Qed.

Lemma suppress_iff_witness :
  classification (classify_coaching_issue "left_knee_angle" 80 "Low" (Some 0) 90)
    = "MONITOR".
Proof.
  apply (proj2 (suppress_iff "left_knee_angle" "Low" 80 (Some 0) 90));
    [reflexivity|].
  change (contains "angle" (lower "left_knee_angle")) with true. cbv iota. rabs.
Defined.

(** X3. A reliability level that is none of High, Medium and Low (a missing
    or misspelt level) is scored with the default 15 reliability points and
    always classified MONITOR, whatever the deviation, progress and
    stability. *)
Theorem unknown_reliability_level
    (metric_name phase reliability_level : string)
    (deviation phase_stability score_delta : R) (progress_delta : option R) :
  reliability_level <> "High" -> reliability_level <> "Medium" ->
  reliability_level <> "Low" ->
  p_reliability (compute_issue_priority_score metric_name deviation phase
                   reliability_level phase_stability score_delta) = 15 /\
  classification (classify_coaching_issue metric_name deviation
                    reliability_level progress_delta phase_stability)
    = "MONITOR".
Proof.
  intros Hhigh Hmedium Hlow. split.
  - unfold compute_issue_priority_score. cbn [p_reliability].
    unfold dict_get, reliability_weights.
    by rewrite !lookup_insert_ne, lookup_singleton_ne.
  - decision_cases; try reflexivity; absurd_case.
Qed.

Lemma unknown_reliability_level_witness :
  p_reliability (compute_issue_priority_score "left_elbow_angle" 90 "contact"
                   "Unknown" 100 0) = 15 /\
  classification (classify_coaching_issue "left_elbow_angle" 90 "Unknown"
                    None 100) = "MONITOR".
Proof.
  apply unknown_reliability_level; discriminate.
Defined.

(** X4. The progress modifier of the scorer and the progress flags of the
    classifier agree on every progress delta: the issue is flagged worsening
    exactly when the modifier is positive and improving exactly when it is
    negative; the modifier is the delta itself clamped to [-10, 10] beyond
    the dead band of 5, and zero inside it. *)
Theorem progress_modifier_matches_flags
    (metric_name phase reliability_level : string)
    (deviation phase_stability progress_delta : R) :
  let s := compute_issue_priority_score metric_name deviation phase
             reliability_level phase_stability progress_delta in
  let c := classify_coaching_issue metric_name deviation reliability_level
             (Some progress_delta) phase_stability in
  (is_worsening c = true <-> p_progress_modifier s > 0) /\
  (is_improving c = true <-> p_progress_modifier s < 0) /\
  (Rabs progress_delta <= 5 <-> p_progress_modifier s = 0) /\
  (5 < Rabs progress_delta <= 10 -> p_progress_modifier s = progress_delta) /\
  (progress_delta > 10 -> p_progress_modifier s = 10) /\
  (progress_delta < -10 -> p_progress_modifier s = -10).
Proof.
  intros s c. subst s c.
  unfold compute_issue_priority_score, classify_coaching_issue.
  match goal with |- context [let '(_, _) := ?p in _] => destruct p end.
  cbn [is_worsening is_improving p_progress_modifier not_none_and].
  rewrite !bool_decide_eq_true.
  unfold Rabs, Rmin, Rmax.
  destruct (Rcase_abs progress_delta);
    repeat case_decide; repeat destruct Rle_dec;
    repeat apply conj; intros; try split; intros; lra.
Qed.

Lemma progress_modifier_matches_flags_witness :
  p_progress_modifier (compute_issue_priority_score "hip_rotation" 30 "load"
                         "High" 80 (-7)) = -7.
Proof.
  apply (progress_modifier_matches_flags "hip_rotation" "load" "High" 30 80 (-7)).
  rabs.
Defined.

(** ** Priority Scorer: range, symmetry and monotonicity *)

Lemma severity_points_bounds metric_name deviation phase level stability delta :
  5 <= p_severity (compute_issue_priority_score metric_name deviation phase
                     level stability delta) <= 40.
Proof.
  unfold compute_issue_priority_score. cbn [p_severity].
  destruct (_ || _); rdecide.
Qed.

Lemma priority_score_bounds_lemma
    (metric_name phase reliability_level : string)
    (deviation phase_stability_score progress_delta : R) :
  0 <= phase_stability_score <= 100 ->
  let s := compute_issue_priority_score metric_name deviation phase
             reliability_level phase_stability_score progress_delta in
  5 <= p_severity s <= 40 /\
  5 <= p_reliability s <= 25 /\
  8 <= p_phase_importance s <= 20 /\
  0 <= p_consistency s <= 15 /\
  -10 <= p_progress_modifier s <= 10 /\
  total_score s =
    p_severity s + p_reliability s + p_phase_importance s +
    p_consistency s + p_progress_modifier s.
Proof.
  intros Hstab s. subst s.
  pose proof (severity_points_bounds metric_name deviation phase
                reliability_level phase_stability_score progress_delta) as Hsev.
  pose proof (reliability_points_bounds reliability_level) as Hrel.
  pose proof (phase_points_bounds (lower phase)) as Hph.
  repeat apply conj; try exact (proj1 Hsev); try exact (proj2 Hsev);
    unfold compute_issue_priority_score; cbn [p_reliability p_phase_importance
      p_consistency p_progress_modifier total_score p_severity];
    try lra.
  - rdecide; rminmax.
  - rdecide; rminmax.
Qed.

(** X5. For a phase stability in [0,100] the total score lies between 8 and
    110, and both ends are reached: the components do not cap the total at
    100. *)
Theorem total_score_range :
  (forall (metric_name phase reliability_level : string)
          (deviation phase_stability_score progress_delta : R),
     0 <= phase_stability_score <= 100 ->
     8 <= total_score (compute_issue_priority_score metric_name deviation phase
                         reliability_level phase_stability_score progress_delta)
       <= 110) /\
  total_score (compute_issue_priority_score "left_elbow_angle" 80 "contact"
                 "High" 100 10) = 110 /\
  total_score (compute_issue_priority_score "spine_lean" 0 "preparation"
                 "Low" 0 (-10)) = 8.
Proof.
  repeat apply conj.
  - intros metric_name phase level deviation stability delta Hstab.
    destruct (priority_score_bounds_lemma metric_name phase level deviation
                stability delta Hstab) as (Hsev & Hrel & Hph & Hcons & Hprog & Htotal).
    rewrite Htotal. lra.
  - unfold compute_issue_priority_score. cbn [total_score].
    change (contains "angle" (lower "left_elbow_angle")
            || contains "rotation" (lower "left_elbow_angle")) with true.
    change (dict_get reliability_weights "High" 15) with 25.
    change (dict_get phase_weights (lower "contact") 10) with 20.
    cbv iota. replace (Rabs 80) with 80 by rabs.
    rewrite (decide_True (P := 80 >= 80)) by lra.
    rewrite (decide_True (P := 10 > 5.0)) by lra.
    rminmax.
  - unfold compute_issue_priority_score. cbn [total_score].
    change (contains "angle" (lower "spine_lean")
            || contains "rotation" (lower "spine_lean")) with false.
    change (dict_get reliability_weights "Low" 15) with 5.
    change (dict_get phase_weights (lower "preparation") 10) with 8.
    cbv iota. replace (Rabs 0) with 0 by rabs.
    rdecide; rminmax.
Qed.

Lemma total_score_range_witness :
  8 <= total_score (compute_issue_priority_score "hip_rotation" 60 "contact"
                      "High" 90 8) <= 110.
Proof.
  apply (proj1 total_score_range). lra.
Defined.

(** X6. Scoring and classification depend on the deviation only through its
    magnitude: negating the deviation changes neither result, and for one
    metric a larger magnitude never gets fewer severity points. *)
Theorem severity_depends_on_magnitude
    (metric_name phase reliability_level : string)
    (deviation other phase_stability progress_delta : R) :
  compute_issue_priority_score metric_name (- deviation) phase
      reliability_level phase_stability progress_delta
    = compute_issue_priority_score metric_name deviation phase
        reliability_level phase_stability progress_delta /\
  classify_coaching_issue metric_name (- deviation) reliability_level
      (Some progress_delta) phase_stability
    = classify_coaching_issue metric_name deviation reliability_level
        (Some progress_delta) phase_stability /\
  (Rabs deviation <= Rabs other ->
   p_severity (compute_issue_priority_score metric_name deviation phase
                 reliability_level phase_stability progress_delta)
   <= p_severity (compute_issue_priority_score metric_name other phase
                    reliability_level phase_stability progress_delta)).
Proof.
  repeat apply conj.
  - unfold compute_issue_priority_score. by rewrite Rabs_Ropp.
  - unfold classify_coaching_issue. by rewrite Rabs_Ropp.
  - unfold compute_issue_priority_score. cbn [p_severity].
    generalize (Rabs deviation) (Rabs other). intros a b Hab.
    destruct (_ || _); rdecide.
Qed.

Lemma severity_depends_on_magnitude_witness :
  p_severity (compute_issue_priority_score "left_knee_angle" (-25) "load"
                "Medium" 75 0)
  <= p_severity (compute_issue_priority_score "left_knee_angle" 55 "load"
                   "Medium" 75 0).
Proof.
  apply (severity_depends_on_magnitude "left_knee_angle" "load" "Medium"
           (-25) 55 75 0).
  rabs.
Defined.

(** X7. The scorer counts a name containing "rotation" as an angle, the
    classifier does not: for such a metric without "angle" in its name, a
    deviation of magnitude from 3 to below 10 gets the lowest severity, 5
    points, and is nevertheless severe for the classifier, hence CRITICAL
    under High reliability and stability of at least 70. *)
Theorem rotation_low_severity_yet_critical
    (metric_name phase : string)
    (deviation phase_stability score_delta : R) (progress_delta : option R) :
  contains "rotation" (lower metric_name) = true ->
  contains "angle" (lower metric_name) = false ->
  3 <= Rabs deviation < 10 ->
  phase_stability >= 70 ->
  p_severity (compute_issue_priority_score metric_name deviation phase
                "High" phase_stability score_delta) = 5 /\
  classification (classify_coaching_issue metric_name deviation "High"
                    progress_delta phase_stability) = "CRITICAL".
Proof.
  intros Hrot Hangle Hdev Hstab. split.
  - unfold compute_issue_priority_score. cbn [p_severity].
    rewrite Hrot, orb_true_r. rdecide.
  - apply critical_iff_lemma. rewrite Hangle. repeat apply conj; [lra | reflexivity | lra].
Qed.

Lemma rotation_low_severity_yet_critical_witness :
  p_severity (compute_issue_priority_score "hip_rotation" 4 "load" "High" 90 0)
    = 5 /\
  classification (classify_coaching_issue "hip_rotation" 4 "High" (Some 0) 90)
    = "CRITICAL".
Proof.
  apply rotation_low_severity_yet_critical;
    [reflexivity | reflexivity | rabs | lra].
Defined.

Lemma critical_iff_witness :
  classification (classify_coaching_issue "right_elbow_angle" (-52) "High"
                    (Some (-8)) 70) = "CRITICAL".
Proof.
  apply (proj2 (critical_iff "right_elbow_angle" "High" (-52) (Some (-8)) 70)).
  change (contains "angle" (lower "right_elbow_angle")) with true. cbv iota.
  repeat apply conj; [rabs | reflexivity | lra].
Defined.

(** ** Previous-session lookup: what a result can be *)

(** X8. Whatever the directory holds and whether or not a current session is
    given, a session returned by the lookup is never the current one, is the
    name of a directory of the listing, has 19 characters with an underscore
    at index 10, and no qualifying directory has a larger name. *)
Theorem previous_session_is_a_listed_session
    (base_dir : base_dir_state) (current_session_id : option string)
    (session : string) :
  find_previous_session base_dir current_session_id = Some session ->
  Some session <> current_session_id /\
  String.length session = 19%nat /\
  String.get 10 session = Some "_"%char /\
  exists items,
    base_dir = Listing items /\
    In {| name := session; is_dir := true |} items /\
    forall item, In item items -> is_session_dir current_session_id item = true ->
                 String.leb (name item) session = true.
Proof.
  destruct base_dir as [| |items]; try discriminate.
  unfold find_previous_session.
  set (dirs := List.filter (is_session_dir current_session_id) items).
  destruct (map name dirs) as [|s0 rest] eqn:Hs; [discriminate|].
  rewrite <- Hs. intros Hhead.
  destruct (sort_desc_head String.ltb string_ltb_asym string_ltb_negtrans
              _ _ Hhead) as [Hin Hmax].
  apply in_map_iff in Hin as (item & Hname & Hitem).
  apply List.filter_In in Hitem as [Hitem Hok].
  unfold is_session_dir in Hok.
  apply andb_true_iff in Hok as [Hok Hshape].
  apply andb_true_iff in Hok as [Hdir Hnot].
  apply andb_true_iff in Hshape as [Hlen Hus].
  apply bool_decide_eq_true in Hnot, Hus.
  apply Nat.eqb_eq in Hlen.
  subst session.
  repeat apply conj; try assumption.
  exists items. repeat apply conj; [reflexivity | |].
  - destruct item as [n d]. cbn in *. by subst d.
  - intros other Hother Hqual.
    assert (Hin' : In (name other) (map name dirs)).
    { apply in_map. apply List.filter_In. by split. }
    destruct (Hmax _ Hin') as [->|Hlt].
    + apply string_ltb_false_leb.
      destruct (String.ltb (name item) (name item)) eqn:E; [|reflexivity].
      by rewrite (string_ltb_asym _ _ E) in E.
    + by apply string_ltb_false_leb.
Qed.

Lemma previous_session_is_a_listed_session_witness :
  Some "2024-01-02_09-00-00"%string <> Some "2024-01-03_09-00-00"%string /\
  String.length "2024-01-02_09-00-00" = 19%nat.
Proof.
  destruct (previous_session_is_a_listed_session
              (Listing [ {| name := "2024-01-01_09-00-00"; is_dir := true |};
                         {| name := "2024-01-03_09-00-00"; is_dir := true |};
                         {| name := "notes"; is_dir := true |};
                         {| name := "2024-01-02_09-00-00"; is_dir := true |} ])
              (Some "2024-01-03_09-00-00"%string)
              "2024-01-02_09-00-00" eq_refl) as (Hne & Hlen & _).
  split; [exact Hne | exact Hlen].
Defined.

(** ** Drill Recommender: coverage of the built-in knowledge base *)

Lemma omap_total {A B} (f : A -> option B) (g : A -> B) (l : list A) :
  (forall a, f a = Some (g a)) -> omap f l = map g l.
Proof.
  intros Hf. induction l as [|a l IH]; [reflexivity|].
  cbn. rewrite Hf, IH. reflexivity.
Qed.

Lemma omap_length_le {A B} (f : A -> option B) (l : list A) :
  (length (omap f l) <= length l)%nat.
Proof.
  induction l as [|a l IH]; [reflexivity|].
  cbn. destruct (f a); cbn; lia.
Qed.

Lemma omap_Forall {A B} (f : A -> option B) (P : B -> Prop) (l : list A) :
  (forall a b, f a = Some b -> P b) -> Forall P (omap f l).
Proof.
  intros Hf. induction l as [|a l IH]; [constructor|].
  cbn. destruct (f a) eqn:E; [constructor; eauto | exact IH].
Qed.

Lemma omap_fields {A B C} (f : A -> option B) (h : B -> C) (k : A -> C)
    (l : list A) :
  (forall a, exists b, f a = Some b /\ h b = k a) ->
  map h (omap f l) = map k l.
Proof.
  intros Hf. induction l as [|a l IH]; [reflexivity|].
  cbn. destruct (Hf a) as (b & -> & Hb). cbn. by rewrite Hb, IH.
Qed.

(** Every metric name maps to a category of the built-in knowledge base
    that holds at least one drill. *)
Lemma category_has_drill (metric_name : string) :
  exists first rest,
    available_drills get_drill_knowledge_base
      (map_metric_to_drill_category metric_name) = Some (first :: rest).
Proof.
  unfold map_metric_to_drill_category. cbv zeta.
  repeat match goal with
         | |- context [if ?b then _ else _] => destruct b
         end;
    vm_compute; by eexists _, _.
Qed.

(** The drill taken for a priority issue: the second of the category when
    there is one, else the only one. *)
Lemma priority_choice (first : drill) (rest : list drill) :
  (if decide (length (first :: rest) = 1%nat)
   then (first :: rest) !! 0%nat
   else (first :: rest) !! Nat.min 1 (length (first :: rest) - 1))
  = Some (match rest with [] => first | second :: _ => second end).
Proof.
  destruct rest as [|second rest]; [reflexivity|].
  rewrite decide_False by (cbn; lia). reflexivity.
Qed.

(** X9. With the built-in knowledge base every critical issue gets exactly
    one intensive prescription, in order, and each of the first three
    priority issues one moderate prescription; at most two maintenance
    prescriptions are given, all light; the suppressed issues are only
    counted. *)
Theorem builtin_knowledge_base_covers_every_issue
    (format_1f : R -> string) (focus : adaptive_focus) :
  exists r,
    generate_adaptive_drill_recommendations format_1f focus None = Some r /\
    map rx_issue_metric (critical_drills r) = map ac_metric (critical focus) /\
    Forall (fun rx => rx_intensity_level rx = "intensive" /\ rx_urgency rx = "HIGH")
      (critical_drills r) /\
    (critical focus ++ priority focus <> [] ->
     map rx_issue_metric (priority_drills r)
       = map ac_metric (take 3 (priority focus))) /\
    Forall (fun rx => rx_intensity_level rx = "moderate" /\ rx_urgency rx = "MODERATE")
      (priority_drills r) /\
    (length (maintenance_drills r) <= 2)%nat /\
    Forall (fun rx => rx_intensity_level rx = "light") (maintenance_drills r) /\
    suppressed_count r = length (suppressed focus).
Proof.
  set (kb := get_drill_knowledge_base).
  assert (Hcrit : map rx_issue_metric (critical_drills_for format_1f kb (critical focus))
                  = map ac_metric (critical focus)).
  { unfold critical_drills_for. apply omap_fields. intros issue. cbv zeta.
    destruct (category_has_drill (ac_metric issue)) as (d & rest & Hav).
    fold kb in Hav. rewrite Hav. cbn. by eexists. }
  assert (Hprio : map rx_issue_metric (priority_drills_for format_1f kb (priority focus))
                  = map ac_metric (take 3 (priority focus))).
  { unfold priority_drills_for. apply omap_fields. intros issue. cbv zeta.
    destruct (category_has_drill (ac_metric issue)) as (d & rest & Hav).
    fold kb in Hav. rewrite Hav. cbn [mbind option_bind].
    rewrite priority_choice. cbn. by eexists. }
  assert (Hcrit_all : Forall (fun rx => rx_intensity_level rx = "intensive" /\
                                        rx_urgency rx = "HIGH")
                        (critical_drills_for format_1f kb (critical focus))).
  { unfold critical_drills_for. apply omap_Forall. intros issue rx. cbv zeta.
    destruct (available_drills _ _) as [available|]; [|discriminate]. cbn.
    destruct (available !! 0%nat); [|discriminate]. cbn.
    by intros [= <-]. }
  assert (Hprio_all : Forall (fun rx => rx_intensity_level rx = "moderate" /\
                                        rx_urgency rx = "MODERATE")
                        (priority_drills_for format_1f kb (priority focus))).
  { unfold priority_drills_for. apply omap_Forall. intros issue rx. cbv zeta.
    destruct (available_drills _ _) as [available|]; [|discriminate].
    cbn [mbind option_bind].
    destruct (if decide _ then _ else _); [|discriminate]. cbn.
    by intros [= <-]. }
  assert (Hmaint_all : Forall (fun rx => rx_intensity_level rx = "light")
                         (maintenance_drills_for kb (monitor focus))).
  { unfold maintenance_drills_for. apply omap_Forall. intros issue rx. cbv zeta.
    case_decide; [|discriminate].
    destruct (available_drills _ _) as [available|]; [|discriminate]. cbn.
    destruct (available !! 0%nat); [|discriminate]. cbn.
    by intros [= <-]. }
  assert (Hmaint_len : (length (maintenance_drills_for kb (monitor focus))
                        <= 2)%nat).
  { unfold maintenance_drills_for.
    etransitivity; [apply omap_length_le|]. rewrite length_take. lia. }
  destruct general_technique_first_drill
    as (entry & general & more & Hkb & Hdrills & _ & _).
  unfold generate_adaptive_drill_recommendations.
  change (default get_drill_knowledge_base None) with kb. cbv zeta.
  destruct (critical_drills_for format_1f kb (critical focus)) as [|c cs] eqn:Ec.
  - destruct (priority_drills_for format_1f kb (priority focus)) as [|p ps] eqn:Ep.
    + fold kb in Hkb. rewrite Hkb. cbn. rewrite Hdrills. cbn.
      eexists. split; [reflexivity|]. cbn.
      repeat apply conj; try assumption; try done.
      * intros Hne. exfalso. apply Hne.
        destruct (critical focus); [|discriminate Hcrit].
        destruct (priority focus); [reflexivity|].
        cbn in Hprio. discriminate Hprio.
      * repeat constructor.
    + eexists. split; [reflexivity|]. cbn.
      repeat apply conj; try assumption; try done.
  - eexists. split; [reflexivity|]. cbn.
    repeat apply conj; try assumption; try done.
Qed.

(** X10. For any knowledge base, a priority issue is prescribed the second
    drill of its category when the category lists at least two, and the only
    drill when it lists one, while a critical issue always gets the first;
    so with two or more drills the critical and the priority prescription
    for one metric come from different drills of the list. *)
Theorem priority_takes_second_drill
    (format_1f : R -> string) (drill_kb : gmap string drill_category)
    (issue : adaptive_cue) (entry : drill_category) (first : drill)
    (rest : list drill) :
  drill_kb !! map_metric_to_drill_category (ac_metric issue) = Some entry ->
  drills entry = first :: rest ->
  map rx_drill_name (critical_drills_for format_1f drill_kb [issue])
    = [d_name first] /\
  map rx_drill_name (priority_drills_for format_1f drill_kb [issue])
    = [d_name (match rest with [] => first | second :: _ => second end)].
Proof.
  intros Hentry Hdrills.
  assert (Hav : available_drills drill_kb
                  (map_metric_to_drill_category (ac_metric issue))
                = Some (first :: rest)).
  { unfold available_drills. by rewrite Hentry, Hdrills. }
  split.
  - unfold critical_drills_for. cbn. rewrite Hav. reflexivity.
  - unfold priority_drills_for. cbn [take omap list_omap]. cbv zeta.
    rewrite Hav. cbn [mbind option_bind]. rewrite priority_choice. reflexivity.
Qed.

Lemma priority_takes_second_drill_witness :
  let issue := adapt_cue None None None
                 (150, "Coil your hips more", "hip_rotation", 60, "load")%string in
  map rx_drill_name
      (critical_drills_for (fun _ => "60.0"%string) get_drill_knowledge_base [issue])
    = ["Medicine Ball Rotational Throws"%string] /\
  map rx_drill_name
      (priority_drills_for (fun _ => "60.0"%string) get_drill_knowledge_base [issue])
    = ["Hip Rotation Shadow Swings"%string].
Proof.
  intros issue.
  assert (H : exists entry first second rest,
            get_drill_knowledge_base !! "hip_rotation" = Some entry /\
            drills entry = first :: second :: rest /\
            d_name first = "Medicine Ball Rotational Throws"%string /\
            d_name second = "Hip Rotation Shadow Swings"%string).
  { vm_compute. eexists _, _, _, _. repeat apply conj; reflexivity. }
  destruct H as (entry & first & second & rest & Hkb & Hdrills & Hfirst & Hsecond).
  destruct (priority_takes_second_drill (fun _ => "60.0"%string)
              get_drill_knowledge_base issue entry first (second :: rest)
              Hkb Hdrills) as [Hcrit Hprio].
  rewrite Hcrit, Hprio, Hfirst, Hsecond. split; reflexivity.
Defined.

(** ** Adaptive focus: the lists handed to the recommender *)

Lemma filter_strongly_sorted {A} (rel : A -> A -> Prop) (keep : A -> bool)
    (l : list A) :
  StronglySorted rel l -> StronglySorted rel (List.filter keep l).
Proof.
  induction 1 as [|a l _ IH Ha]; cbn; [constructor|].
  destruct (keep a); [|exact IH].
  constructor; [exact IH|].
  rewrite List.Forall_forall in *. intros b Hb.
  apply List.filter_In in Hb as [Hb _]. by apply Ha.
Qed.

Lemma strongly_sorted_app {A} (rel : A -> A -> Prop) (front back : list A) :
  StronglySorted rel (front ++ back) ->
  forall a b, In a front -> In b back -> rel a b.
Proof.
  induction front as [|x front IH]; cbn; [by intros _ a b []|].
  intros Hs a b [->|Ha] Hb.
  - apply StronglySorted_inv in Hs as [_ Hall].
    rewrite List.Forall_forall in Hall. apply Hall, in_or_app. by right.
  - apply StronglySorted_inv in Hs as [Hs _]. by apply IH.
Qed.

(** X11. Each of the critical, priority, monitor and suppressed lists is
    itself in descending order of priority score; the three priority issues
    and the two monitor issues the recommender looks at therefore score at
    least as high as every issue of the same list it passes over, and top_3
    is the first three cues overall. *)
Theorem focus_lists_are_ranked
    (ranked_cues : list cue_tuple)
    (user_reliability : option (gmap string reliability_entry))
    (user_phase_stability : option (gmap string phase_stability_entry))
    (progress_deltas : option progress_dict) :
  let f := generate_adaptive_coaching_focus ranked_cues user_reliability
             user_phase_stability progress_deltas in
  let by_score := fun a b => ac_priority_score a >= ac_priority_score b in
  StronglySorted by_score (critical f) /\
  StronglySorted by_score (priority f) /\
  StronglySorted by_score (monitor f) /\
  StronglySorted by_score (suppressed f) /\
  top_3 f = take 3 (all_adaptive_cues f) /\
  (forall a b, In a (take 3 (priority f)) -> In b (drop 3 (priority f)) ->
               by_score a b) /\
  (forall a b, In a (take 2 (monitor f)) -> In b (drop 2 (monitor f)) ->
               by_score a b).
Proof.
  intros f by_score.
  assert (Hall : StronglySorted by_score (all_adaptive_cues f)).
  { apply descending_by_score.
    apply (sort_desc_sorted lower_priority lower_priority_asym
             lower_priority_negtrans). }
  assert (Hsub : forall label,
            StronglySorted by_score
              (with_classification label (all_adaptive_cues f))).
  { intros label. by apply filter_strongly_sorted. }
  repeat apply conj; try apply Hsub.
  - subst f. unfold generate_adaptive_coaching_focus. cbv zeta. cbn [top_3 all_adaptive_cues].
    case_decide; [reflexivity|]. symmetry. apply take_ge. lia.
  - apply strongly_sorted_app. rewrite take_drop. apply Hsub.
  - apply strongly_sorted_app. rewrite take_drop. apply Hsub.
Qed.

Lemma focus_lists_are_ranked_witness :
  let f := generate_adaptive_coaching_focus
             [ (120, "Bend your left elbow more", "left_elbow_angle", 60,
                "contact")%string ] None None None in
  StronglySorted (fun a b => ac_priority_score a >= ac_priority_score b)
    (critical f) /\
  top_3 f = take 3 (all_adaptive_cues f).
Proof.
  intros f.
  pose proof (focus_lists_are_ranked
                [ (120, "Bend your left elbow more", "left_elbow_angle", 60,
                   "contact")%string ] None None None) as H.
  cbv zeta in H. fold f in H.
  exact (conj (proj1 H) (proj1 (proj2 (proj2 (proj2 (proj2 H)))))).
Defined.

(** ** Reliability Assessor: shape of the output *)

(** X12. The assessor returns an entry for exactly the metrics of its input,
    each with level High, Medium or Low and with the standard deviation and
    coefficient of variation copied from the statistics. *)
Theorem assessment_keeps_metrics (confidence_stats : gmap string metric_stats) :
  dom (assess_measurement_reliability confidence_stats) = dom confidence_stats /\
  forall metric entry,
    assess_measurement_reliability confidence_stats !! metric = Some entry ->
    In (level entry) ["High"; "Medium"; "Low"]%string /\
    exists stats, confidence_stats !! metric = Some stats /\
                  r_std entry = st_std stats /\ r_cv entry = st_cv stats.
Proof.
  unfold assess_measurement_reliability. split.
  - apply set_eq. intros metric. rewrite !elem_of_dom, map_lookup_imap.
    destruct (confidence_stats !! metric); cbn; split; intros [? ?];
      (done || by eexists).
  - intros metric entry. rewrite map_lookup_imap.
    destruct (confidence_stats !! metric) as [stats|]; [|discriminate].
    cbn. intros [= <-]. split.
    + rewrite assess_metric_level. unfold spec_level_by_cv.
      destruct (contains "angle" metric); repeat case_decide; cbn; tauto.
    + exists stats. by rewrite assess_metric_std, assess_metric_cv.
Qed.

Lemma assessment_keeps_metrics_witness :
  In (level (assess_metric "spine_lean"
               {| st_mean := 10; st_std := 1; st_min := 9; st_max := 11;
                  st_range := 2; st_cv := 0.1 |}))
     ["High"; "Medium"; "Low"]%string.
Proof.
  refine (proj1 (proj2 (assessment_keeps_metrics
            {[ "spine_lean"%string :=
                 {| st_mean := 10; st_std := 1; st_min := 9; st_max := 11;
                    st_range := 2; st_cv := 0.1 |} ]}) "spine_lean" _ _)).
  unfold assess_measurement_reliability.
  rewrite map_lookup_imap, lookup_singleton_eq. reflexivity.
Defined.

(** ** Progress Tracker *)

(** X13. The score policy and the error policy of the trend classifier are
    mirror images: a delta under the score policy is labelled as its negation
    is under the error policy (any type other than "score"); under either a
    delta is Stable exactly when its magnitude is below 3. *)
Theorem classify_progress_mirror (delta : R) (metric_type : string) :
  metric_type <> "score" ->
  classify_progress delta "score" = classify_progress (- delta) metric_type /\
  ((classify_progress delta "score").1 = "Stable" <-> Rabs delta < 3) /\
  ((classify_progress delta metric_type).1 = "Stable" <-> Rabs delta < 3) /\
  ((classify_progress delta "score").1 = "Improved" <-> delta >= 3) /\
  ((classify_progress delta metric_type).1 = "Improved" <-> delta <= -3).
Proof.
  intros Htype. unfold classify_progress.
  rewrite (decide_True (P := "score"%string = "score"%string)) by reflexivity.
  rewrite !(decide_False (P := metric_type = "score")) by exact Htype.
  unfold Rabs. destruct (Rcase_abs delta);
    repeat case_decide; cbn;
    repeat apply conj;
    first [ reflexivity | exfalso; lra
          | intros Hlabel;
            first [discriminate Hlabel | reflexivity | lra | exfalso; lra] ].
Qed.

Lemma classify_progress_mirror_witness :
  classify_progress 4 "score" = classify_progress (- 4) "error".
Proof.
  apply (classify_progress_mirror 4 "error"). discriminate.
Defined.

(** X14. A phase gets a progress entry exactly when both sessions scored
    it; every entry holds the two scores, their difference current minus
    previous, and the trend of that difference under the score policy; the
    two overall scores are compared likewise when both sessions have them. *)
Theorem progress_deltas_compare_common_phases
    (current_metrics previous_metrics : session_metrics)
    (current_phases previous_phases : gmap string R) (phase : string) :
  sm_phase_scores current_metrics = Some current_phases ->
  sm_phase_scores previous_metrics = Some previous_phases ->
  let deltas := compute_progress_deltas current_metrics previous_metrics in
  optional_get (pd_phase_deltas deltas) phase
    = match current_phases !! phase, previous_phases !! phase with
      | Some c, Some p =>
          Some {| pe_current := c; pe_previous := p; pe_delta := c - p;
                  pe_status := classify_progress (c - p) "score" |}
      | _, _ => None
      end /\
  pd_overall_score deltas
    = match sm_overall_score current_metrics, sm_overall_score previous_metrics with
      | Some c, Some p =>
          Some {| pe_current := c; pe_previous := p; pe_delta := c - p;
                  pe_status := classify_progress (c - p) "score" |}
      | _, _ => None
      end.
Proof.
  intros Hcur Hprev deltas. subst deltas.
  unfold compute_progress_deltas. cbn [pd_phase_deltas pd_overall_score].
  rewrite Hcur, Hprev. cbv zeta. split; [|reflexivity].
  case_decide as Hempty.
  - cbn. pose proof (map_lookup_zip_with progress_of current_phases
                       previous_phases phase) as Hlookup.
    rewrite Hempty, lookup_empty in Hlookup.
    destruct (current_phases !! phase), (previous_phases !! phase);
      cbn in Hlookup; done.
  - cbn. rewrite map_lookup_zip_with.
    destruct (current_phases !! phase), (previous_phases !! phase); reflexivity.
Qed.

Lemma progress_deltas_compare_common_phases_witness :
  let current := {| sm_overall_score := Some 70; sm_phase_weighted_score := None;
                    sm_phase_scores := Some {[ "load"%string := 80 ]};
                    sm_key_metrics := None |} in
  let previous := {| sm_overall_score := Some 65; sm_phase_weighted_score := None;
                     sm_phase_scores := Some {[ "load"%string := 72 ]};
                     sm_key_metrics := None |} in
  optional_get (pd_phase_deltas (compute_progress_deltas current previous)) "load"
    = Some {| pe_current := 80; pe_previous := 72; pe_delta := 80 - 72;
              pe_status := classify_progress (80 - 72) "score" |}.
Proof.
  intros current previous.
  pose proof (proj1 (progress_deltas_compare_common_phases current previous
                       {[ "load"%string := 80 ]} {[ "load"%string := 72 ]} "load"
                       eq_refl eq_refl)) as H.
  rewrite !lookup_singleton_eq in H. exact H.
Defined.

(** X15. The tracker files the phase deltas under [phase_deltas] while the
    adaptive focus looks under [phase_scores]: whatever the two sessions
    scored, the focus built with the tracker's result is the one built with
    no progress data at all, every cue carries progress delta 0 and progress
    modifier 0, and the recommender, given that focus and any knowledge
    base, prescribes no maintenance drill. *)
Theorem progress_never_reaches_the_focus
    (current_metrics previous_metrics : session_metrics)
    (ranked_cues : list cue_tuple)
    (user_reliability : option (gmap string reliability_entry))
    (user_phase_stability : option (gmap string phase_stability_entry))
    (format_1f : R -> string) (drill_kb : option (gmap string drill_category)) :
  let progress := Some (compute_progress_deltas current_metrics previous_metrics) in
  let focus := generate_adaptive_coaching_focus ranked_cues user_reliability
                 user_phase_stability progress in
  focus = generate_adaptive_coaching_focus ranked_cues user_reliability
            user_phase_stability None /\
  Forall (fun cue => ac_progress_delta cue = 0 /\
                     c_progress_modifier (ac_priority_components cue) = 0)
    (all_adaptive_cues focus) /\
  forall r, generate_adaptive_drill_recommendations format_1f focus drill_kb
              = Some r ->
            maintenance_drills r = [].
Proof.
  intros progress focus.
  assert (Hcues : Forall (fun cue => ac_progress_delta cue = 0 /\
                            c_progress_modifier (ac_priority_components cue) = 0)
                    (all_adaptive_cues focus)).
  { subst focus. unfold generate_adaptive_coaching_focus. cbv zeta.
    cbn [all_adaptive_cues]. rewrite sort_desc_perm.
    apply List.Forall_forall. intros cue Hcue.
    apply in_map_iff in Hcue as (cue_data & <- & _).
    destruct cue_data as [[[[cue_text phase_name] metric_name] deviation] phase].
    unfold adapt_cue. cbn. split; [lra|].
    unfold compute_issue_priority_score. cbn [components c_progress_modifier].
    rdecide. }
  repeat apply conj; [reflexivity | exact Hcues |].
  intros r. unfold generate_adaptive_drill_recommendations. cbv zeta.
  assert (Hnone : maintenance_drills_for (default get_drill_knowledge_base drill_kb)
                    (monitor focus) = []).
  { unfold maintenance_drills_for.
    assert (Hmon : Forall (fun cue => ac_progress_delta cue = 0)
                     (take 2 (monitor focus))).
    { apply List.Forall_forall. intros cue Hcue.
      apply list_elem_of_In, elem_of_take in Hcue as (i & Hcue & _).
      apply list_elem_of_lookup_2, list_elem_of_In in Hcue.
      subst focus. unfold generate_adaptive_coaching_focus in Hcue.
      cbv zeta in Hcue. cbn [monitor] in Hcue.
      apply with_classification_In in Hcue as [Hcue _].
      rewrite List.Forall_forall in Hcues. by apply Hcues. }
    induction Hmon as [|cue rest Hcue _ IH]; [reflexivity|].
    cbn. rewrite decide_False by lra. exact IH. }
  rewrite Hnone.
  destruct (critical_drills_for _ _ _), (priority_drills_for _ _ _);
    [ destruct (_ !! "general_technique") as [entry|]; [|discriminate]; cbn;
      destruct (drills entry !! 0%nat); [|discriminate]; cbn
    | | | ];
    by intros [= <-].
Qed.

Lemma progress_never_reaches_the_focus_witness :
  let current := {| sm_overall_score := Some 70; sm_phase_weighted_score := None;
                    sm_phase_scores := Some {[ "load"%string := 60 ]};
                    sm_key_metrics := None |} in
  let previous := {| sm_overall_score := Some 65; sm_phase_weighted_score := None;
                     sm_phase_scores := Some {[ "load"%string := 72 ]};
                     sm_key_metrics := None |} in
  let focus := generate_adaptive_coaching_focus [] None None
                 (Some (compute_progress_deltas current previous)) in
  focus = generate_adaptive_coaching_focus [] None None None.
Proof.
  intros current previous focus.
  exact (proj1 (progress_never_reaches_the_focus current previous []
                  None None (fun _ => "0.0"%string) None)).
Defined.

(** ** Outcome Tracker *)

Lemma track_drill_outcome prev_id prev_metrics curr_metrics curr_id reliability
    timestamp (drill : prescription) (o : outcome) :
  track_drill prev_id prev_metrics curr_metrics curr_id reliability timestamp drill
    = Some o ->
  rx_issue_metric drill <> "general" /\ rx_issue_phase drill <> "all" /\
  phase_metric prev_metrics (rx_issue_phase drill) (rx_issue_metric drill)
    = Some (o_pre_value o) /\
  phase_metric curr_metrics (rx_issue_phase drill) (rx_issue_metric drill)
    = Some (o_post_value o) /\
  o_delta o = o_post_value o - o_pre_value o /\
  o_metric_name o = rx_issue_metric drill /\ o_phase o = rx_issue_phase drill /\
  o_drill_name o = rx_drill_name drill /\
  o_previous_session_id o = prev_id /\ o_current_session_id o = curr_id.
Proof.
  unfold track_drill. cbv zeta.
  destruct (bool_decide (rx_issue_metric drill = "general")) eqn:Hgeneral;
    [discriminate|].
  destruct (bool_decide (rx_issue_phase drill = "all")) eqn:Hall;
    [discriminate|].
  apply bool_decide_eq_false in Hgeneral, Hall. cbn.
  destruct (phase_metric prev_metrics _ _) as [prev_value|]; [|discriminate].
  destruct (phase_metric curr_metrics _ _) as [curr_value|]; [|discriminate].
  intros [= <-]. cbn. repeat apply conj; done.
Qed.

(** X16. Every record the tracker emits comes from a prescribed drill that
    targets a specific metric and phase (never the general fallback), holds
    that metric's phase value of the previous session as pre_value and of
    the current session as post_value, and has delta = post_value -
    pre_value; there are never more records than prescribed drills. *)
Theorem tracked_outcomes_are_measured_deltas
    (clock : nat -> string) (previous_session_id current_session_id : string)
    (previous_session_metrics current_session_metrics :
       option (gmap string (gmap string R)))
    (recs : recommendations)
    (reliability_data : option (gmap string reliability_entry)) :
  let outcomes := track_drill_outcomes clock previous_session_id
                    previous_session_metrics current_session_metrics
                    (Some recs) current_session_id reliability_data in
  let all_drills := critical_drills recs ++ priority_drills recs
                    ++ maintenance_drills recs in
  (length outcomes <= length all_drills)%nat /\
  forall o, In o outcomes ->
    o_delta o = o_post_value o - o_pre_value o /\
    o_metric_name o <> "general" /\ o_phase o <> "all" /\
    phase_metric previous_session_metrics (o_phase o) (o_metric_name o)
      = Some (o_pre_value o) /\
    phase_metric current_session_metrics (o_phase o) (o_metric_name o)
      = Some (o_post_value o) /\
    exists drill, In drill all_drills /\
                  rx_issue_metric drill = o_metric_name o /\
                  rx_issue_phase drill = o_phase o /\
                  rx_drill_name drill = o_drill_name o.
Proof.
  intros outcomes all_drills. subst outcomes.
  unfold track_drill_outcomes. cbv zeta. fold all_drills. split.
  - etransitivity; [apply omap_length_le|]. by rewrite length_imap.
  - intros o Ho.
    apply list_elem_of_In, list_elem_of_omap in Ho as (tracked & Hin & ->).
    apply elem_of_lookup_imap in Hin as (i & drill & Htrack & Hdrill).
    symmetry in Htrack.
    apply track_drill_outcome in Htrack
      as (Hg & Ha & Hpre & Hpost & Hdelta & Hm & Hp & Hn & _ & _).
    rewrite Hm, Hp. repeat apply conj; try assumption.
    exists drill. repeat apply conj; try done.
    apply list_elem_of_In. by eapply list_elem_of_lookup_2.
Qed.

Lemma tracked_outcomes_are_measured_deltas_witness :
  let rx := {| rx_issue_metric := "hip_rotation"; rx_issue_phase := "load";
               rx_drill_name := "Medicine Ball Rotational Throws";
               rx_drill_description := "";
               rx_intensity_level := "intensive"; rx_prescription := "";
               rx_rationale := ""; rx_priority_score := 90;
               rx_urgency := "HIGH"; rx_reason := "" |} in
  let recs := {| critical_drills := [rx]; priority_drills := [];
                 maintenance_drills := []; suppressed_count := 0 |} in
  let previous : option (gmap string (gmap string R)) :=
    Some {[ "load"%string := {[ "hip_rotation"%string := 40 ]} ]} in
  let current : option (gmap string (gmap string R)) :=
    Some {[ "load"%string := {[ "hip_rotation"%string := 30 ]} ]} in
  Forall (fun o => o_delta o = o_post_value o - o_pre_value o)
    (track_drill_outcomes (fun _ => "2024-01-02T09:05:00"%string)
       "2024-01-01_09-00-00" previous current (Some recs)
       "2024-01-02_09-00-00" None).
Proof.
  intros rx recs previous current.
  apply List.Forall_forall. intros o Ho.
  exact (proj1 (proj2 (tracked_outcomes_are_measured_deltas
                         (fun _ => "2024-01-02T09:05:00"%string)
                         "2024-01-01_09-00-00" "2024-01-02_09-00-00"
                         previous current recs None) o Ho)).
Defined.

(** X17. Nothing is tracked when no recommendations are given, when the
    previous session's phase metrics are not supplied (as in the pipeline's
    call), or when the only prescription is the general fallback that the
    recommender injects. *)
Theorem nothing_tracked_without_previous_values
    (clock : nat -> string) (previous_session_id current_session_id : string)
    (previous_session_metrics current_session_metrics :
       option (gmap string (gmap string R)))
    (drill_recommendations : option recommendations)
    (reliability_data : option (gmap string reliability_entry))
    (general : drill) :
  track_drill_outcomes clock previous_session_id previous_session_metrics
    current_session_metrics None current_session_id reliability_data = [] /\
  track_drill_outcomes clock previous_session_id None
    current_session_metrics drill_recommendations current_session_id
    reliability_data = [] /\
  track_drill_outcomes clock previous_session_id previous_session_metrics
    current_session_metrics
    (Some {| critical_drills := [];
             priority_drills := [general_prescription general];
             maintenance_drills := []; suppressed_count := 0 |})
    current_session_id reliability_data = [].
Proof.
  repeat apply conj; [reflexivity | | reflexivity].
  destruct drill_recommendations as [recs|]; [|reflexivity].
  unfold track_drill_outcomes. cbv zeta.
  generalize (critical_drills recs ++ priority_drills recs
              ++ maintenance_drills recs). intros drills.
  generalize clock. clear clock.
  induction drills as [|drill rest IH]; intros clock; [reflexivity|].
  cbn. unfold track_drill at 1. cbv zeta.
  destruct (_ || _); cbn; apply (IH (clock ∘ S)).
Qed.

(** ** Confidence Scorer and effectiveness summary on arbitrary stores *)

Lemma add_outcome_lookup (groups : gmap string drill_group) (o : outcome)
    (d : string) :
  add_outcome groups o !! d =
  if decide (o_drill_name o = d)
  then Some (push o (default no_group (groups !! d)))
  else groups !! d.
Proof.
  unfold add_outcome. cbv zeta.
  destruct (decide (o_drill_name o = d)) as [<-|Hne].
  - rewrite lookup_alter_eq.
    destruct (groups !! o_drill_name o) as [g|] eqn:E.
    + by rewrite E.
    + by rewrite lookup_insert_eq.
  - rewrite lookup_alter_ne by done.
    destruct (groups !! o_drill_name o); [reflexivity|].
    by rewrite lookup_insert_ne.
Qed.

Lemma count_outcome_lookup (stats : gmap string drill_stats) (o : outcome)
    (d : string) :
  count_outcome stats o !! d =
  if decide (o_drill_name o = d)
  then Some (tally o (default no_stats (stats !! d)))
  else stats !! d.
Proof.
  unfold count_outcome. cbv zeta.
  destruct (decide (o_drill_name o = d)) as [<-|Hne].
  - rewrite lookup_alter_eq.
    destruct (stats !! o_drill_name o) as [s|] eqn:E.
    + by rewrite E.
    + by rewrite lookup_insert_eq.
  - rewrite lookup_alter_ne by done.
    destruct (stats !! o_drill_name o); [reflexivity|].
    by rewrite lookup_insert_ne.
Qed.

Lemma stats_of_push (o : outcome) (group : drill_group) :
  stats_of (push o group) = tally o (stats_of group).
Proof.
  unfold stats_of, push, tally. cbn.
  rewrite length_app, foldl_app, List.filter_app, length_app. cbn.
  f_equal. case_decide as Hhigh.
  - rewrite bool_decide_eq_true_2 by done. reflexivity.
  - rewrite bool_decide_eq_false_2 by done. cbn. lia.
Qed.

(** Both loops, run from related states, end in related states. *)
Lemma loops_related (history : list outcome)
    (groups : gmap string drill_group) (stats : gmap string drill_stats) :
  (forall d, stats !! d = stats_of <$> groups !! d) ->
  forall d, foldl count_outcome stats history !! d
            = stats_of <$> foldl add_outcome groups history !! d.
Proof.
  revert groups stats.
  induction history as [|o rest IH]; intros groups stats Hrel; [exact Hrel|].
  cbn [foldl]. apply IH. intros d.
  rewrite add_outcome_lookup, count_outcome_lookup.
  case_decide; [|apply Hrel]. cbn. rewrite Hrel.
  destruct (groups !! d); cbn; by rewrite stats_of_push.
Qed.

Lemma summary_groups (history : list outcome) (d : string) :
  foldl count_outcome ∅ history !! d = stats_of <$> group_outcomes history !! d.
Proof.
  apply loops_related. intros k. by rewrite !lookup_empty.
Qed.

(** Every group holds at least one delta and as many reliabilities. *)
Lemma groups_well_formed (history : list outcome)
    (groups : gmap string drill_group) :
  map_Forall (fun _ g => deltas g <> [] /\
                         length (deltas g) = length (reliabilities g)) groups ->
  map_Forall (fun _ g => deltas g <> [] /\
                         length (deltas g) = length (reliabilities g))
    (foldl add_outcome groups history).
Proof.
  revert groups. induction history as [|o rest IH]; intros groups Hwf; [exact Hwf|].
  cbn [foldl]. apply IH. intros d g. rewrite add_outcome_lookup.
  case_decide; [|apply Hwf]. intros [= <-]. cbn.
  split; [by destruct (deltas _)|].
  rewrite !length_app. cbn.
  destruct (groups !! d) as [g|] eqn:E; cbn; [|reflexivity].
  destruct (Hwf d g E) as [_ ->]. reflexivity.
Qed.

Lemma group_outcomes_well_formed (history : list outcome) (d : string)
    (g : drill_group) :
  group_outcomes history !! d = Some g ->
  deltas g <> [] /\ length (deltas g) = length (reliabilities g).
Proof.
  apply (groups_well_formed history ∅). apply map_Forall_empty.
Qed.

Lemma stats_of_fields (g : drill_group) :
  ds_count (stats_of g) = length (deltas g) /\
  ds_total_delta (stats_of g) = foldl Rplus 0.0 (deltas g) /\
  ds_high_reliability_count (stats_of g)
    = length (List.filter (fun r => bool_decide (r = "High")) (reliabilities g)).
Proof. repeat apply conj; reflexivity. Qed.

Lemma summary_lookup (history : list outcome) (d : string) :
  omap summarize (foldl count_outcome ∅ history) !! d
  = g ← group_outcomes history !! d; summarize (stats_of g).
Proof.
  rewrite lookup_omap, summary_groups.
  destruct (group_outcomes history !! d); reflexivity.
Qed.

Lemma consistency_of_bounds (avg_delta std_delta : R) :
  0 <= std_delta -> 0 <= consistency_of avg_delta std_delta <= 1.
Proof.
  intros Hstd. unfold consistency_of. case_decide as Havg; cbv zeta.
  - assert (0 <= std_delta / Rabs avg_delta).
    { apply Rmult_le_pos; [exact Hstd|].
      left. apply Rinv_0_lt_compat. lra. }
    rminmax.
  - assert (0 <= std_delta / 10.0) by lra. rminmax.
Qed.

Lemma improvement_score_bounds (avg_delta : R) :
  0 <= improvement_score_of avg_delta <= 1.
Proof. unfold improvement_score_of. rminmax. Qed.

Lemma sample_score_bounds (n : nat) : (0 < n)%nat -> 0 < sample_score_of n <= 1.
Proof.
  intros Hn. apply lt_0_INR in Hn. unfold sample_score_of. rminmax.
Qed.

Lemma score_group_bounds (g : drill_group) :
  deltas g <> [] -> length (deltas g) = length (reliabilities g) ->
  let c := score_group g in
  (1 <= usage_count c)%nat /\
  0 <= std_delta c /\
  0 <= high_reliability_ratio c <= 1 /\
  0 <= consistency c <= 1 /\
  0 < confidence_score c <= 1 /\
  (confidence_level c = "High" <-> confidence_score c >= 0.75) /\
  (confidence_level c = "Medium" <-> 0.5 <= confidence_score c < 0.75) /\
  (confidence_level c = "Low" <-> confidence_score c < 0.5).
Proof.
  intros Hne Hlen c.
  assert (Hn : (0 < length (deltas g))%nat) by (destruct (deltas g); [done | cbn; lia]).
  assert (Hstd : 0 <= std_delta c).
  { subst c. unfold score_group. cbn [std_delta].
    case_decide; [apply sqrt_pos | lra]. }
  assert (Hratio : 0 <= high_reliability_ratio c <= 1).
  { subst c. unfold score_group. cbn [high_reliability_ratio].
    rewrite decide_True by exact Hn.
    pose proof (List.filter_length_le (fun r => bool_decide (r = "High"))
                  (reliabilities g)) as Hle.
    rewrite <- Hlen in Hle. apply le_INR in Hle.
    pose proof (pos_INR (length (List.filter (fun r => bool_decide (r = "High"))
                                   (reliabilities g)))) as Hpos.
    apply lt_0_INR in Hn.
    split.
    - apply Rmult_le_pos; [exact Hpos|]. left. by apply Rinv_0_lt_compat.
    - apply (Rmult_le_reg_r (INR (length (deltas g)))); [exact Hn|].
      unfold Rdiv. rewrite Rmult_assoc, Rinv_l by lra. lra. }
  assert (Hcons : 0 <= consistency c <= 1).
  { subst c. unfold score_group. cbn [consistency].
    apply consistency_of_bounds. exact Hstd. }
  pose proof (improvement_score_bounds (np_mean (deltas g))) as Himp.
  pose proof (sample_score_bounds _ Hn) as Hsample.
  assert (Hscore : confidence_score c
                   = 0.40 * improvement_score_of (np_mean (deltas g))
                     + 0.25 * high_reliability_ratio c
                     + 0.25 * consistency c
                     + 0.10 * sample_score_of (length (deltas g)))
    by reflexivity.
  assert (Hlevel : confidence_level c
                   = if decide (confidence_score c >= 0.75) then "High"
                     else if decide (confidence_score c >= 0.50) then "Medium"
                     else "Low") by reflexivity.
  rewrite Hlevel.
  repeat apply conj; try assumption; try lra; try exact (proj1 Hratio);
    try exact (proj2 Hratio); try exact (proj1 Hcons); try exact (proj2 Hcons);
    repeat case_decide;
    first [ lra | intros Hlabel; first [discriminate Hlabel | reflexivity | lra] ].
Qed.

(** X18. On every store, each score the Confidence Scorer reports rests on
    at least one outcome and has a non-negative standard deviation, a
    High-reliability ratio and a consistency within [0,1] and a confidence
    score in (0,1]; the level is High exactly from 0.75 on, Medium from 0.5
    to below 0.75 and Low below 0.5. *)
Theorem confidence_scores_are_bounded
    (st st' : fs) (scores : gmap string drill_confidence) (drill_name : string)
    (c : drill_confidence) :
  compute_drill_confidence_scores st = (inr scores, st') ->
  scores !! drill_name = Some c ->
  (1 <= usage_count c)%nat /\
  0 <= std_delta c /\
  0 <= high_reliability_ratio c <= 1 /\
  0 <= consistency c <= 1 /\
  0 < confidence_score c <= 1 /\
  (confidence_level c = "High" <-> confidence_score c >= 0.75) /\
  (confidence_level c = "Medium" <-> 0.5 <= confidence_score c < 0.75) /\
  (confidence_level c = "Low" <-> confidence_score c < 0.5).
Proof.
  destruct st as [file mk rd wr].
  destruct file as [[| |[|o history]|]|], rd; run_store;
    try discriminate;
    intros [= <- <-]; try (rewrite lookup_empty; discriminate).
  change (foldl add_outcome (add_outcome ∅ o) history)
    with (group_outcomes (o :: history)).
  rewrite lookup_fmap.
  destruct (group_outcomes (o :: history) !! drill_name) as [g|] eqn:Hg;
    [|discriminate].
  cbn. intros [= <-].
  destruct (group_outcomes_well_formed _ _ _ Hg) as [Hne Hlen].
  by apply score_group_bounds.
Qed.

Lemma confidence_scores_are_bounded_witness :
  exists c,
    compute_drill_confidence_scores five_record_store
      = (inr {[ "X"%string := c ]}, five_record_store) /\
    0 < confidence_score c <= 1.
Proof.
  assert (Hdeltas :
            map o_delta [ outcome_of_x 0 (-10); outcome_of_x 0 (-12);
                          outcome_of_x 0 (-8); outcome_of_x 0 (-11);
                          outcome_of_x 0 (-9) ]
            = [-10; -12; -8; -11; -9]).
  { cbn. repeat f_equal; lra. }
  eexists. split.
  - apply (scorer_on_five five_record_store _ "X" eq_refl eq_refl Hdeltas).
    repeat constructor.
  - refine (proj1 (proj2 (proj2 (proj2 (proj2
              (confidence_scores_are_bounded five_record_store five_record_store
                 _ "X" _ _ (lookup_singleton_eq _ _))))))).
    apply (scorer_on_five five_record_store _ "X" eq_refl eq_refl Hdeltas).
    repeat constructor.
Defined.

Lemma sum_left_right (l : list R) (a : R) :
  foldl Rplus a l = a + foldr Rplus 0 l.
Proof.
  revert a. induction l as [|x l IH]; intros a; cbn; [lra|].
  rewrite IH. lra.
Qed.

Lemma summarize_group (g : drill_group) :
  deltas g <> [] ->
  exists s, summarize (stats_of g) = Some s /\
            es_usage_count s = usage_count (score_group g) /\
            es_avg_delta s = avg_delta (score_group g) /\
            es_high_reliability_fraction s
              = high_reliability_ratio (score_group g).
Proof.
  intros Hne.
  assert (Hn : (0 < length (deltas g))%nat) by (destruct (deltas g); [done | cbn; lia]).
  unfold summarize. cbn [ds_count stats_of ds_total_delta ds_high_reliability_count].
  rewrite decide_True by exact Hn.
  eexists. split; [reflexivity|].
  unfold score_group. cbn. rewrite decide_True by exact Hn.
  repeat apply conj; try reflexivity.
  unfold np_mean. rewrite sum_left_right. f_equal. lra.
Qed.

(** X19. The effectiveness summary and the Confidence Scorer both check
    for the file before their [try]: on a path that cannot be examined both
    raise.  On every other store both return and leave the store as it
    was, cover the same drills, and agree for each drill on the usage
    count, the average delta and the share of High-reliability outcomes. *)
Theorem summary_agrees_with_scorer (st : fs) :
  (outcome_file st = Some Inaccessible ->
   get_drill_effectiveness_summary st = (inl OSError, st) /\
   compute_drill_confidence_scores st = (inl OSError, st)) /\
  (outcome_file st <> Some Inaccessible ->
   exists summary scores,
     get_drill_effectiveness_summary st = (inr summary, st) /\
     compute_drill_confidence_scores st = (inr scores, st) /\
     dom summary = dom scores /\
     forall drill_name s c,
       summary !! drill_name = Some s -> scores !! drill_name = Some c ->
       es_usage_count s = usage_count c /\
       es_avg_delta s = avg_delta c /\
       es_high_reliability_fraction s = high_reliability_ratio c).
Proof.
  split.
  { destruct st as [file mk rd wr]. cbn. intros ->. split; reflexivity. }
  intros Hfile.
  assert (Hempty : exists summary scores,
            (@inr exn (gmap string drill_summary) ∅, st) = (inr summary, st) /\
            (@inr exn (gmap string drill_confidence) ∅, st) = (inr scores, st) /\
            dom summary = dom scores /\
            forall drill_name s c,
              summary !! drill_name = Some s -> scores !! drill_name = Some c ->
              es_usage_count s = usage_count c /\
              es_avg_delta s = avg_delta c /\
              es_high_reliability_fraction s = high_reliability_ratio c).
  { exists ∅, ∅. repeat apply conj; try reflexivity;
      try (by rewrite !dom_empty_L).
    intros d s c Hs. by rewrite lookup_empty in Hs. }
  destruct st as [file mk rd wr]. cbn in Hfile.
  destruct file as [[| |[|o history]|]|], rd; try done;
    unfold get_drill_effectiveness_summary; run_store;
    try rewrite omap_empty; try exact Hempty.
  clear Hempty.
  change (foldl add_outcome (add_outcome ∅ o) history)
    with (group_outcomes (o :: history)).
  change (foldl count_outcome (count_outcome ∅ o) history)
    with (foldl count_outcome ∅ (o :: history)).
  set (history' := o :: history).
  eexists _, _. split; [reflexivity|]. split; [reflexivity|].
  assert (Hlookup : forall d,
            omap summarize (foldl count_outcome ∅ history') !! d
            = g ← group_outcomes history' !! d; summarize (stats_of g))
    by apply summary_lookup.
  split.
  - apply set_eq. intros d. rewrite !elem_of_dom, Hlookup, lookup_fmap.
    destruct (group_outcomes history' !! d) as [g|] eqn:Hg; cbn.
    + destruct (group_outcomes_well_formed _ _ _ Hg) as [Hne _].
      destruct (summarize_group g Hne) as (s & -> & _). by split; eexists.
    + split; intros [? ?]; discriminate.
  - intros d s c. rewrite Hlookup, lookup_fmap.
    destruct (group_outcomes history' !! d) as [g|] eqn:Hg; [|discriminate].
    cbn. destruct (group_outcomes_well_formed _ _ _ Hg) as [Hne _].
    destruct (summarize_group g Hne) as (s' & -> & Hs').
    by intros [= <-] [= <-].
Qed.

Lemma summary_agrees_with_scorer_witness :
  exists summary scores s c,
    get_drill_effectiveness_summary one_record_store
      = (inr summary, one_record_store) /\
    compute_drill_confidence_scores one_record_store
      = (inr scores, one_record_store) /\
    summary !! o_drill_name sample_outcome = Some s /\
    scores !! o_drill_name sample_outcome = Some c /\
    es_usage_count s = usage_count c /\ es_avg_delta s = avg_delta c.
Proof.
  assert (Hfile : outcome_file one_record_store <> Some Inaccessible)
    by discriminate.
  destruct (proj2 (summary_agrees_with_scorer one_record_store) Hfile)
    as (summary & scores & Hsummary & Hscores & Hdom & Hagree).
  assert (Hc : exists c, scores !! o_drill_name sample_outcome = Some c).
  { rewrite (scorer_on_records one_record_store [sample_outcome] eq_refl eq_refl)
      in Hscores by discriminate.
    injection Hscores as <-.
    rewrite (group_single_drill (o_drill_name sample_outcome) [sample_outcome])
      by (discriminate || by repeat constructor).
    rewrite map_fmap_singleton, lookup_singleton_eq. by eexists. }
  destruct Hc as [c Hc].
  assert (Hs : is_Some (summary !! o_drill_name sample_outcome)).
  { apply elem_of_dom. rewrite Hdom. apply elem_of_dom. by eexists. }
  destruct Hs as [s Hs].
  destruct (Hagree _ s c Hs Hc) as (Hcount & Havg & _).
  exists summary, scores, s, c. repeat apply conj; assumption.
Defined.

(** ** The outcome store under a failing write *)

(** X20. The store is rewritten whole: when a write is interrupted after the
    file was opened, the writer returns False and leaves a file that no
    longer parses, and the next successful save then holds only its own
    records; the history accumulated before the failure is gone. *)
Theorem interrupted_write_loses_history
    (st : fs) (history failed later : list outcome) :
  outcome_file st = Some (Records history) ->
  mkdir_fails st = false -> read_fails st = false -> write st = Interrupted ->
  failed <> [] -> later <> [] ->
  exists st1 st2,
    save_drill_outcomes failed st = (inr false, st1) /\
    outcome_file st1 = Some Unparseable /\
    compute_drill_confidence_scores st1 = (inr ∅, st1) /\
    save_drill_outcomes later (set_write WriteOk st1) = (inr true, st2) /\
    stored_history st2 = later.
Proof.
  destruct st as [file mk rd wr]. cbn. intros -> -> -> -> Hfailed Hlater.
  destruct failed as [|f failed]; [done|].
  destruct later as [|l later]; [done|].
  eexists _, _. repeat apply conj; reflexivity.
Qed.

Lemma interrupted_write_loses_history_witness :
  exists st1 st2,
    save_drill_outcomes [sample_outcome]
      {| outcome_file := Some (Records [outcome_of_x 0 (-10)]);
         mkdir_fails := false; read_fails := false; write := Interrupted |}
      = (inr false, st1) /\
    save_drill_outcomes [sample_outcome] (set_write WriteOk st1) = (inr true, st2) /\
    stored_history st2 = [sample_outcome].
Proof.
  destruct (interrupted_write_loses_history
              {| outcome_file := Some (Records [outcome_of_x 0 (-10)]);
                 mkdir_fails := false; read_fails := false; write := Interrupted |}
              [outcome_of_x 0 (-10)] [sample_outcome] [sample_outcome]
              eq_refl eq_refl eq_refl eq_refl)
    as (st1 & st2 & H1 & _ & _ & H2 & H3); try discriminate.
  exists st1, st2. repeat apply conj; assumption.
Defined.

(** ** Phase Stability Analyzer *)

Lemma sum_bounds (l : list R) (a b : R) :
  Forall (fun x => a <= x <= b) l ->
  INR (length l) * a <= foldr Rplus 0 l <= INR (length l) * b.
Proof.
  induction 1 as [|x l Hx _ IH].
  - cbn. lra.
  - cbn [foldr length]. rewrite S_INR. lra.
Qed.

Lemma mean_bounds (l : list R) (a b : R) :
  l <> [] -> Forall (fun x => a <= x <= b) l -> a <= np_mean l <= b.
Proof.
  intros Hne Hall.
  assert (Hn : 0 < INR (length l)).
  { apply lt_0_INR. destruct l; [done | cbn; lia]. }
  pose proof (sum_bounds l a b Hall) as [Hlo Hhi].
  unfold np_mean. split.
  - apply (Rmult_le_reg_r (INR (length l))); [exact Hn|].
    unfold Rdiv. rewrite Rmult_assoc, Rinv_l by lra. lra.
  - apply (Rmult_le_reg_r (INR (length l))); [exact Hn|].
    unfold Rdiv. rewrite Rmult_assoc, Rinv_l by lra. lra.
Qed.

Lemma stability_score_bounds (cv : R) : 50 <= stability_score_of cv <= 100.
Proof. unfold stability_score_of. rdecide. Qed.

Lemma measured_score_bounds (phase_df : gmap string (list (option R)))
    (metric : string) (m : string * (R * R) * R) :
  measure_stability phase_df metric = Some m -> 50 <= m.2 <= 100 /\ m.1.1 = metric.
Proof.
  unfold measure_stability.
  destruct (phase_df !! metric) as [column|]; [|discriminate]. cbn.
  case_decide; [|discriminate]. intros [= <-]. cbn.
  split; [apply stability_score_bounds | reflexivity].
Qed.

Lemma phase_stability_of_bounds (features_df : gmap string (list (option R)))
    (frames : Z * Z) (entry : phase_stability_entry) :
  phase_stability_of features_df frames = Some entry ->
  50 <= ps_overall_score entry <= 100.
Proof.
  destruct frames as [start_frame end_frame].
  unfold phase_stability_of. cbv zeta.
  set (phase_df := py_slice start_frame (end_frame + 1) <$> features_df).
  set (measured := omap (measure_stability phase_df) stability_metrics).
  assert (Hall : Forall (fun x => 50 <= x <= 100) (map (fun m => m.2) measured)).
  { apply List.Forall_forall. intros x Hx.
    apply in_map_iff in Hx as (m & <- & Hm).
    apply list_elem_of_In, list_elem_of_omap in Hm as (metric & _ & Hm).
    by apply measured_score_bounds in Hm as [? _]. }
  destruct (map (fun m => m.2) measured) as [|x rest] eqn:E; [discriminate|].
  intros [= <-]. cbn [ps_overall_score].
  by apply mean_bounds.
Qed.

Lemma phase_stability_of_is_Some (features_df : gmap string (list (option R)))
    (start_frame end_frame : Z) :
  is_Some (phase_stability_of features_df (start_frame, end_frame)) <->
  exists metric,
    In metric stability_metrics /\
    is_Some (measure_stability
               (py_slice start_frame (end_frame + 1) <$> features_df) metric).
Proof.
  unfold phase_stability_of. cbv zeta.
  set (phase_df := py_slice start_frame (end_frame + 1) <$> features_df).
  set (measured := omap (measure_stability phase_df) stability_metrics).
  assert (Hmeasured : forall m, m ∈ measured <->
            exists metric, metric ∈ stability_metrics /\
                           measure_stability phase_df metric = Some m)
    by (intros m; apply list_elem_of_omap).
  clearbody measured. split.
  - intros Hentry. destruct measured as [|m rest]; [by destruct Hentry|].
    destruct (proj1 (Hmeasured m)) as (metric & Hin & Hm);
      [apply elem_of_cons; auto|].
    exists metric. split; [by apply list_elem_of_In | by eexists].
  - intros (metric & Hin & [m Hm]).
    assert (Hmem : m ∈ measured).
    { apply Hmeasured. exists metric. split; [by apply list_elem_of_In | done]. }
    destruct measured as [|m' rest]; [by apply elem_of_nil in Hmem | by eexists].
Qed.

Lemma phase_stability_is_between_50_and_100_lemma
    (features_df : gmap string (list (option R)))
    (phases : gmap string (Z * Z)) (phase : string) entry :
  compute_intra_phase_stability features_df (Some phases) !! phase = Some entry ->
  50 <= ps_overall_score entry <= 100.
Proof.
  unfold compute_intra_phase_stability. rewrite lookup_omap.
  destruct (phases !! phase) as [frames|]; [|discriminate].
  cbn [mbind option_bind]. apply phase_stability_of_bounds.
Qed.

(** X21. Every overall stability score the analyzer reports lies between
    50 and 100; a phase is reported exactly when it has frame bounds and at
    least one of the six analysed metrics has more than one non-missing
    sample within them; without phase data nothing is reported. *)
Theorem phase_stability_is_between_50_and_100
    (features_df : gmap string (list (option R)))
    (phases : gmap string (Z * Z)) (phase : string) :
  (forall entry,
     compute_intra_phase_stability features_df (Some phases) !! phase = Some entry ->
     50 <= ps_overall_score entry <= 100) /\
  (is_Some (compute_intra_phase_stability features_df (Some phases) !! phase) <->
   exists start_frame end_frame metric,
     phases !! phase = Some (start_frame, end_frame) /\
     In metric stability_metrics /\
     is_Some (measure_stability
                (py_slice start_frame (end_frame + 1) <$> features_df) metric)) /\
  compute_intra_phase_stability features_df None = ∅.
Proof.
  unfold compute_intra_phase_stability. rewrite lookup_omap.
  repeat apply conj; [| | | reflexivity].
  - intros entry. destruct (phases !! phase) as [frames|]; [|discriminate].
    cbn [mbind option_bind]. apply phase_stability_of_bounds.
  - intros Hentry.
    destruct (phases !! phase) as [[start_frame end_frame]|];
      [|by destruct Hentry].
    cbn [mbind option_bind] in Hentry.
    apply phase_stability_of_is_Some in Hentry as (metric & Hin & Hm).
    by exists start_frame, end_frame, metric.
  - intros (start_frame & end_frame & metric & -> & Hin & Hm).
    cbn [mbind option_bind]. apply phase_stability_of_is_Some. by exists metric.
Qed.

(** Membership, in the sense of [In], of a literal in a literal list. *)
Ltac in_list_In :=
  apply list_elem_of_In, (bool_decide_unpack _); vm_compute; exact I.

Lemma phase_stability_is_between_50_and_100_witness :
  exists entry,
    compute_intra_phase_stability
      {[ "hip_rotation"%string := [Some 1; Some 3; None; Some 2] ]}
      (Some {[ "load"%string := (0%Z, 1%Z) ]}) !! "load" = Some entry /\
    50 <= ps_overall_score entry <= 100.
Proof.
  destruct (phase_stability_is_between_50_and_100
              {[ "hip_rotation"%string := [Some 1; Some 3; None; Some 2] ]}
              {[ "load"%string := (0%Z, 1%Z) ]} "load") as (Hbounds & Hsome & _).
  destruct (proj2 Hsome) as [entry Hentry].
  - exists 0%Z, 1%Z, "hip_rotation"%string.
    repeat apply conj; [apply lookup_singleton_eq | in_list_In |].
    unfold measure_stability. rewrite lookup_fmap, lookup_singleton_eq. cbn.
    by eexists.
  - exists entry. split; [exact Hentry | by apply Hbounds].
Defined.

(** X22. A cue built with the analyzer's stability scores carries a phase
    stability between 50 and 100 (75 when its phase is not reported), so
    the precondition of the component bounds holds in the pipeline and the
    consistency component lies between 7.5 and 15. *)
Theorem cue_stability_comes_from_the_analyzer
    (features_df : gmap string (list (option R)))
    (phase_data : option (gmap string (Z * Z)))
    (user_reliability : option (gmap string reliability_entry))
    (progress_deltas : option progress_dict) (cue_data : cue_tuple) :
  let cue := adapt_cue user_reliability
               (Some (compute_intra_phase_stability features_df phase_data))
               progress_deltas cue_data in
  50 <= ac_phase_stability cue <= 100 /\
  7.5 <= c_consistency (ac_priority_components cue) <= 15 /\
  (compute_intra_phase_stability features_df phase_data !! ac_phase cue = None ->
   ac_phase_stability cue = 75).
Proof.
  destruct cue_data as [[[[cue_text phase_name] metric_name] deviation] phase].
  intros cue.
  assert (Hstab : 50 <= ac_phase_stability cue <= 100 /\
                  (compute_intra_phase_stability features_df phase_data !! phase
                     = None -> ac_phase_stability cue = 75)).
  { subst cue. unfold adapt_cue. cbn [ac_phase_stability optional_get].
    destruct (compute_intra_phase_stability features_df phase_data !! phase)
      as [entry|] eqn:Hentry.
    - split; [|discriminate].
      destruct phase_data as [phases|];
        [|unfold compute_intra_phase_stability in Hentry;
          by rewrite lookup_empty in Hentry].
      by apply (phase_stability_is_between_50_and_100_lemma features_df phases phase).
    - split; [lra | intros _; lra]. }
  destruct Hstab as [Hstab Hdefault].
  repeat apply conj; try apply Hstab; try exact Hdefault.
  - change (c_consistency (ac_priority_components cue))
      with (ac_phase_stability cue / 100 * 15). lra.
  - change (c_consistency (ac_priority_components cue))
      with (ac_phase_stability cue / 100 * 15). lra.
Qed.

(** ** Confidence statistics: order of the summary values *)

Lemma foldl_Rmin_le (l : list R) (a : R) :
  foldl Rmin a l <= a /\ Forall (fun x => foldl Rmin a l <= x) l.
Proof.
  revert a. induction l as [|y l IH]; intros a; cbn.
  - split; [lra | constructor].
  - destruct (IH (Rmin a y)) as [Hle Hall].
    pose proof (Rmin_l a y). pose proof (Rmin_r a y).
    split; [lra|]. constructor; [lra | exact Hall].
Qed.

Lemma foldl_Rmax_ge (l : list R) (a : R) :
  a <= foldl Rmax a l /\ Forall (fun x => x <= foldl Rmax a l) l.
Proof.
  revert a. induction l as [|y l IH]; intros a; cbn.
  - split; [lra | constructor].
  - destruct (IH (Rmax a y)) as [Hle Hall].
    pose proof (Rmax_l a y). pose proof (Rmax_r a y).
    split; [lra|]. constructor; [lra | exact Hall].
Qed.

Lemma describe_ordered (values : list R) :
  values <> [] ->
  Forall (fun x => st_min (describe values) <= x <= st_max (describe values))
    values /\
  st_min (describe values) <= st_mean (describe values)
    <= st_max (describe values) /\
  0 <= st_range (describe values) /\
  0 <= st_std (describe values).
Proof.
  intros Hne.
  assert (Hall : Forall (fun x => np_min values <= x <= np_max values) values).
  { destruct values as [|v rest]; [done|]. cbn.
    destruct (foldl_Rmin_le rest v) as [Hmin Hmins].
    destruct (foldl_Rmax_ge rest v) as [Hmax Hmaxs].
    constructor; [lra|].
    rewrite List.Forall_forall in *. intros x Hx.
    split; [by apply Hmins | by apply Hmaxs]. }
  pose proof (mean_bounds values _ _ Hne Hall) as Hmean.
  unfold describe. cbn.
  repeat apply conj; try assumption; try apply Hmean; try lra.
  apply sqrt_pos.
Qed.

(** X23. Each entry of the confidence statistics belongs to one of the nine
    tracked metrics whose column has at least one non-missing sample; its
    minimum and maximum enclose every such sample and the mean, the range is
    their non-negative difference and the standard deviation is not
    negative. *)
Theorem confidence_statistics_are_ordered
    (features_df : gmap string (list (option R)))
    (phase_data : option (gmap string (Z * Z)))
    (metric : string) (stats : metric_stats) :
  compute_confidence_statistics features_df phase_data !! metric = Some stats ->
  metric ∈ key_metrics /\
  exists column,
    features_df !! metric = Some column /\ dropna column <> [] /\
    Forall (fun x => st_min stats <= x <= st_max stats) (dropna column) /\
    st_min stats <= st_mean stats <= st_max stats /\
    st_range stats = st_max stats - st_min stats /\
    0 <= st_range stats /\ 0 <= st_std stats.
Proof.
  pose proof (compute_confidence_statistics_lookup features_df phase_data metric)
    as Hlookup.
  cbv beta zeta in Hlookup. rewrite Hlookup. clear Hlookup.
  case_decide as Hkey; [|discriminate].
  destruct (features_df !! metric) as [column|]; [|discriminate].
  case_decide as Hlen; [|discriminate].
  intros [= <-]. split; [exact Hkey|].
  assert (Hne : dropna column <> []) by (destruct (dropna column); [cbn in Hlen; lia | done]).
  destruct (describe_ordered (dropna column) Hne) as (Hall & Hmean & Hrange & Hstd).
  exists column. repeat apply conj; try assumption; try reflexivity; apply Hmean.
Qed.

Lemma confidence_statistics_are_ordered_witness :
  exists stats,
    compute_confidence_statistics
      {[ "hip_rotation"%string := [Some 1; None; Some 3] ]} None
      !! "hip_rotation" = Some stats /\
    st_min stats <= st_mean stats <= st_max stats.
Proof.
  pose proof (compute_confidence_statistics_lookup
                {[ "hip_rotation"%string := [Some 1; None; Some 3] ]} None
                "hip_rotation") as Hlookup.
  cbv beta zeta in Hlookup. rewrite lookup_singleton_eq in Hlookup.
  rewrite decide_True in Hlookup by in_list.
  rewrite decide_True in Hlookup by (cbn; lia).
  eexists. split; [exact Hlookup|].
  destruct (proj2 (confidence_statistics_are_ordered _ _ _ _ Hlookup))
    as (column & _ & _ & _ & Hmean & _).
  exact Hmean.
Defined.

(** ** Legacy drills *)

(** X24. Given both metric dicts with the knee, hip and stance entries, the
    legacy drill generator returns exactly two drills, and when no specific
    weakness is found these are the two general drills; if an entry it
    indexes is missing it raises instead. *)
Theorem generate_drills_gives_two (user_metrics ref_metrics : gmap string R) :
  (forall drills, generate_drills user_metrics ref_metrics = Some drills ->
                  length drills = 2%nat) /\
  (Forall (fun key => is_Some (user_metrics !! key) /\ is_Some (ref_metrics !! key))
     ["left_knee_angle"; "right_knee_angle"; "hip_rotation";
      "stance_width_normalized"]%string <->
   is_Some (generate_drills user_metrics ref_metrics)) /\
  (generate_drills user_metrics user_metrics = None \/
   exists first second,
     generate_drills user_metrics user_metrics = Some [first; second] /\
     String.prefix "**One-Arm Backhand Feeds**" first = true /\
     String.prefix "**Contact Point Drill**" second = true).
Proof.
  unfold generate_drills. cbv zeta.
  repeat apply conj.
  - intros drills.
    destruct (user_metrics !! "left_knee_angle"); [|discriminate];
    destruct (user_metrics !! "right_knee_angle"); [|discriminate];
    destruct (ref_metrics !! "left_knee_angle"); [|discriminate];
    destruct (ref_metrics !! "right_knee_angle"); [|discriminate];
    destruct (user_metrics !! "hip_rotation"); [|discriminate];
    destruct (ref_metrics !! "hip_rotation"); [|discriminate];
    destruct (user_metrics !! "stance_width_normalized"); [|discriminate];
    destruct (ref_metrics !! "stance_width_normalized"); [|discriminate].
    cbn [mbind option_bind].
    destruct (decide (_ > 10)), (decide (_ < -3)), (decide (Rabs _ > 0.2));
      cbn; by intros [= <-].
  - rewrite !Forall_cons, Forall_nil.
    intros ([[? ->] [? ->]] & [[? ->] [? ->]] & [[? ->] [? ->]]
            & [[? ->] [? ->]] & _).
    cbn [mbind option_bind]. by eexists.
  - rewrite !Forall_cons, Forall_nil. intros [drills Hdrills].
    destruct (user_metrics !! "left_knee_angle"); [|discriminate];
    destruct (user_metrics !! "right_knee_angle"); [|discriminate];
    destruct (ref_metrics !! "left_knee_angle"); [|discriminate];
    destruct (ref_metrics !! "right_knee_angle"); [|discriminate];
    destruct (user_metrics !! "hip_rotation"); [|discriminate];
    destruct (ref_metrics !! "hip_rotation"); [|discriminate];
    destruct (user_metrics !! "stance_width_normalized"); [|discriminate];
    destruct (ref_metrics !! "stance_width_normalized"); [|discriminate].
    repeat split; by eexists.
  - destruct (user_metrics !! "left_knee_angle"); [|by left];
    destruct (user_metrics !! "right_knee_angle"); [|by left];
    destruct (user_metrics !! "hip_rotation"); [|by left];
    destruct (user_metrics !! "stance_width_normalized"); [|by left].
    right. cbn [mbind option_bind].
    rewrite (decide_False (P := _ > 10)) by lra.
    rewrite (decide_False (P := _ < -3)) by lra.
    rewrite (decide_False (P := Rabs _ > 0.2)) by rabs.
    cbn. eexists _, _. repeat apply conj; reflexivity.
Qed.

Lemma generate_drills_gives_two_witness :
  let m : gmap string R :=
    {[ "left_knee_angle" := 150; "right_knee_angle" := 150;
       "hip_rotation" := 30; "stance_width_normalized" := 1 ]}%string in
  is_Some (generate_drills m m).
Proof.
  intros m. apply (proj1 (proj2 (generate_drills_gives_two m m))).
  repeat apply List.Forall_cons; [..|apply List.Forall_nil];
    split; by eexists.
Defined.

(** ** Cue ranking *)

Lemma lower_score_asym (a b : cue_tuple) :
  lower_score a b = true -> lower_score b a = false.
Proof. unfold lower_score. rdecide. Qed.

Lemma lower_score_negtrans (a b c : cue_tuple) :
  lower_score a b = false -> lower_score b c = false -> lower_score a c = false.
Proof. unfold lower_score. rdecide. Qed.

Ltac raised_cue :=
  unfold raised; cbn;
  repeat apply conj; [ rabs; nra | rabs | tauto ].

Ltac all_raised :=
  repeat (apply List.Forall_cons; [raised_cue|]); apply List.Forall_nil.

Lemma knee_cues_raised user_metrics ref_metrics cues :
  knee_cues user_metrics ref_metrics = Some cues -> Forall raised cues.
Proof.
  unfold knee_cues.
  destruct (user_metrics !! "left_knee_angle"); [|by intros [= <-]].
  destruct (user_metrics !! "right_knee_angle"); [|by intros [= <-]].
  destruct (ref_metrics !! "left_knee_angle"); [|discriminate].
  destruct (ref_metrics !! "right_knee_angle"); [|discriminate].
  cbn [mbind option_bind]. cbv zeta.
  repeat case_decide; intros [= <-]; all_raised.
Qed.

Lemma metric_cues_raised user_metrics ref_metrics item :
  In item metrics_config ->
  Forall raised (metric_cues user_metrics ref_metrics item).
Proof.
  unfold metrics_config.
  intros [<-|[<-|[<-|[<-|[<-|[]]]]]]; unfold metric_cues;
    (destruct (user_metrics !! _); [|apply List.Forall_nil]);
    (destruct (ref_metrics !! _); [|apply List.Forall_nil]);
    cbn [cfg_low_abs cfg_high_abs cfg_high cfg_low cfg_threshold cfg_weight];
    cbv zeta; repeat case_decide; all_raised.
Qed.

Lemma phase_cues_raised user_phases ref_phases :
  Forall raised (get_phase_cues_with_priority user_phases ref_phases).
Proof.
  unfold get_phase_cues_with_priority. cbv zeta.
  destruct (both_phases user_phases ref_phases "preparation") as [[up rp]|];
    destruct (both_phases user_phases ref_phases "load") as [[ul rl]|];
    destruct (both_phases user_phases ref_phases "follow_through") as [[uf rf]|];
    repeat case_decide; cbn [app]; all_raised.
Qed.

(** X25. The ranked cue list is in descending order of its score, and every
    cue in it has a positive score, a non-zero deviation and one of the
    four phases as its phase. *)
Theorem ranked_cues_are_sorted_and_raised
    (user_metrics ref_metrics : gmap string R)
    (user_phase_metrics ref_phase_metrics : option (gmap string (gmap string R)))
    (ranked : list cue_tuple) :
  rank_cues_by_deviation user_metrics ref_metrics user_phase_metrics
    ref_phase_metrics = Some ranked ->
  StronglySorted (fun a b : cue_tuple => a.1.1.1.1 >= b.1.1.1.1) ranked /\
  Forall raised ranked.
Proof.
  unfold rank_cues_by_deviation.
  destruct (knee_cues user_metrics ref_metrics) as [knee|] eqn:Hknee;
    [|discriminate].
  cbn [mbind option_bind]. cbv zeta. intros [= <-]. split.
  - match goal with |- StronglySorted _ (sort_desc _ ?l) =>
      pose proof (sort_desc_sorted lower_score lower_score_asym
                    lower_score_negtrans l) as Hs;
      induction Hs as [|a rest _ IH Ha]
    end; constructor; [exact IH|].
    eapply Forall_impl; [exact Ha|].
    intros b. unfold not_below, lower_score. rdecide.
  - rewrite sort_desc_perm.
    assert (Hbase : Forall raised
              (knee ++ concat (map (metric_cues user_metrics ref_metrics)
                                 metrics_config))).
    { apply Forall_app. split; [by eapply knee_cues_raised|].
      apply Forall_concat, List.Forall_forall. intros cues Hcues.
      apply in_map_iff in Hcues as (item & <- & Hitem).
      by apply metric_cues_raised. }
    destruct (truthy_dict user_phase_metrics), (truthy_dict ref_phase_metrics);
      try exact Hbase.
    apply Forall_app. split; [exact Hbase | apply phase_cues_raised].
Qed.

Lemma ranked_cues_are_sorted_and_raised_witness :
  Forall raised
    [ (60, "**Bend your left elbow more** at contact. Your arm is too straight, reducing control and power transfer.",
       "left_elbow_angle", 30, "contact")%string ].
Proof.
  refine (proj2 (ranked_cues_are_sorted_and_raised
            {[ "left_elbow_angle"%string := 150 ]}
            {[ "left_elbow_angle"%string := 120 ]} None None _ _)).
  unfold rank_cues_by_deviation, knee_cues.
  rewrite lookup_singleton_ne by discriminate.
  cbn [mbind option_bind app]. cbv zeta.
  unfold metrics_config. cbn [map concat].
  unfold metric_cues.
  rewrite !lookup_singleton_eq.
  rewrite !lookup_singleton_ne by discriminate.
  cbn [cfg_low_abs cfg_threshold cfg_weight cfg_high cfg_low app]. cbv zeta.
  replace (150 - 120) with 30 by lra.
  replace (Rabs 30) with 30 by rabs.
  rewrite (decide_True (P := 30 > 15)) by lra.
  rewrite (decide_True (P := 30 > 0)) by lra.
  cbn. do 2 f_equal. repeat f_equal. lra.
Defined.

Lemma metric_cues_identical (m : gmap string R) (item : string * cue_config) :
  In item metrics_config -> metric_cues m m item = [].
Proof.
  unfold metrics_config.
  intros [<-|[<-|[<-|[<-|[<-|[]]]]]]; unfold metric_cues;
    (destruct (m !! _); [|reflexivity]);
    cbn [cfg_low_abs cfg_high_abs cfg_high cfg_low cfg_threshold cfg_weight];
    cbv zeta; repeat case_decide; try reflexivity; exfalso; rabs.
Qed.

Lemma phase_cues_identical (phases : gmap string (gmap string R)) :
  get_phase_cues_with_priority phases phases = [].
Proof.
  unfold get_phase_cues_with_priority, both_phases. cbv zeta.
  destruct (phases !! "preparation"), (phases !! "load"),
    (phases !! "follow_through");
    repeat case_decide; try reflexivity; exfalso; rabs.
Qed.

Lemma rank_identical (m : gmap string R)
    (phase_metrics : option (gmap string (gmap string R))) :
  rank_cues_by_deviation m m phase_metrics phase_metrics = Some [].
Proof.
  unfold rank_cues_by_deviation.
  assert (Hknee : knee_cues m m = Some []).
  { unfold knee_cues.
    destruct (m !! "left_knee_angle"), (m !! "right_knee_angle");
      try reflexivity.
    cbn [mbind option_bind]. cbv zeta.
    rewrite decide_False by rabs. reflexivity. }
  rewrite Hknee. cbn [mbind option_bind app]. cbv zeta.
  assert (Hcfg : concat (map (metric_cues m m) metrics_config) = []).
  { assert (Hall : Forall (fun item => metric_cues m m item = []) metrics_config)
      by (apply List.Forall_forall; intros item; apply metric_cues_identical).
    induction Hall as [|item rest Hitem _ IH]; [reflexivity|].
    cbn. by rewrite Hitem, IH. }
  rewrite Hcfg.
  destruct (truthy_dict phase_metrics); [|reflexivity].
  by rewrite phase_cues_identical.
Qed.

Lemma coaching_cues_identical (m : gmap string R)
    (phase_metrics : option (gmap string (gmap string R))) (limit_primary : nat) :
  generate_coaching_cues m m phase_metrics phase_metrics limit_primary
    = Some ([], fallback_cues, []).
Proof.
  unfold generate_coaching_cues. rewrite rank_identical.
  cbn [mbind option_bind map]. cbv zeta.
  rewrite take_nil. reflexivity.
Qed.

(** X26. When the user's metrics equal the reference's, no cue is raised at
    all: the ranked list is empty, there is no primary cue, and the cue list
    is the three general fallback cues. *)
Theorem identical_metrics_give_only_fallbacks
    (measured : gmap string R)
    (phase_metrics : option (gmap string (gmap string R))) (limit_primary : nat) :
  rank_cues_by_deviation measured measured phase_metrics phase_metrics = Some [] /\
  generate_coaching_cues measured measured phase_metrics phase_metrics
    limit_primary = Some ([], fallback_cues, []).
Proof.
  split; [apply rank_identical | apply coaching_cues_identical].
Qed.

Lemma add_fallbacks_length (all_cues : list string) :
  (length all_cues < 3)%nat -> (3 <= length (add_fallbacks all_cues))%nat.
Proof.
  intros Hlen. unfold add_fallbacks, fallback_cues.
  destruct all_cues as [|a [|b [|c rest]]]; [| | |cbn in Hlen; lia];
    cbn [foldl length];
    repeat (case_decide; cbn [foldl length app fst]);
    try (cbn; lia);
    repeat match goal with
           | H : _ ∈ _ :: _ |- _ => apply elem_of_cons in H; destruct H
           | H : _ ∈ [] |- _ => by apply elem_of_nil in H
           | H : (5 <= _)%nat |- _ => cbn in H; lia
           end;
    subst; try discriminate; cbn; lia.
Qed.

(** X27. Whatever the metrics, the cue texts returned for the report number
    at least three and at most five; the primary cues are the first
    [limit_primary] ranked texts, and the ranked list is handed back as
    computed.  With three or more ranked cues no fallback is added. *)
Theorem coaching_cues_number_three_to_five
    (user_metrics ref_metrics : gmap string R)
    (user_phase_metrics ref_phase_metrics : option (gmap string (gmap string R)))
    (limit_primary : nat)
    (primary_cues all_cues : list string) (ranked_cues : list cue_tuple) :
  generate_coaching_cues user_metrics ref_metrics user_phase_metrics
    ref_phase_metrics limit_primary = Some (primary_cues, all_cues, ranked_cues) ->
  (3 <= length all_cues <= 5)%nat /\
  rank_cues_by_deviation user_metrics ref_metrics user_phase_metrics
    ref_phase_metrics = Some ranked_cues /\
  primary_cues
    = take limit_primary (map (fun cue : cue_tuple => cue.1.1.1.2) ranked_cues) /\
  ((3 <= length ranked_cues)%nat ->
   all_cues = take 5 (map (fun cue : cue_tuple => cue.1.1.1.2) ranked_cues)).
Proof.
  unfold generate_coaching_cues.
  destruct (rank_cues_by_deviation _ _ _ _) as [ranked|]; [|discriminate].
  cbn [mbind option_bind]. cbv zeta.
  set (texts := map (fun cue : cue_tuple => cue.1.1.1.2) ranked).
  intros [= <- <- <-]. fold texts.
  assert (Htexts : length texts = length ranked) by apply length_map.
  repeat apply conj; try reflexivity.
  - rewrite length_take. case_decide as Hshort.
    + pose proof (add_fallbacks_length texts Hshort). lia.
    + lia.
  - rewrite length_take. lia.
  - intros Hlong. rewrite decide_False by lia. reflexivity.
Qed.

Lemma coaching_cues_number_three_to_five_witness :
  (3 <= length fallback_cues <= 5)%nat.
Proof.
  refine (proj1 (coaching_cues_number_three_to_five ∅ ∅ None None 2
                   [] fallback_cues [] _)).
  apply (coaching_cues_identical ∅ None 2).
Defined.

(** ** Similarity scores *)

Lemma rint_between (x : R) (n m : Z) :
  IZR n <= x <= IZR m -> (n <= rint x <= m)%Z.
Proof.
  intros [Hn Hm]. unfold rint. cbv zeta.
  destruct (base_Int_part x) as [Hlo Hhi].
  set (below := Int_part x) in *.
  assert (Hbelow : (n <= below)%Z).
  { assert (Hlt : IZR (n - 1) < IZR below) by (rewrite minus_IZR; lra).
    apply lt_IZR in Hlt. lia. }
  assert (Habove : (below <= m)%Z) by (apply le_IZR; lra).
  repeat case_decide; [lia| |].
  - assert (Hlt : IZR below < IZR m) by lra. apply lt_IZR in Hlt. lia.
  - assert (Hlt : IZR below < IZR m) by lra. apply lt_IZR in Hlt.
    destruct (Z.even below); lia.
Qed.

Lemma round1_tenths (n : Z) : round1 (IZR n / 10) = IZR n / 10.
Proof.
  unfold round1. replace (IZR n / 10 * 10) with (IZR n) by lra.
  assert (H : (n <= rint (IZR n) <= n)%Z) by (apply rint_between; lra).
  by replace (rint (IZR n)) with n by lia.
Qed.

Lemma round1_between (x : R) : 0 <= x <= 100 -> 0 <= round1 x <= 100.
Proof.
  intros Hx. unfold round1.
  assert (H : (0 <= rint (x * 10) <= 1000)%Z) by (apply rint_between; lra).
  destruct H as [Hlo%IZR_le Hhi%IZR_le]. lra.
Qed.

Lemma div_between (a b lo hi : R) :
  0 < b -> lo * b <= a <= hi * b -> lo <= a / b <= hi.
Proof.
  intros Hb [Hlo Hhi].
  split; apply (Rmult_le_reg_r b); try lra;
    unfold Rdiv; rewrite Rmult_assoc, Rinv_l by lra; lra.
Qed.

Lemma weighted_sum_between (scored : list (R * R)) (lo hi : R) :
  Forall (fun sw => lo <= sw.1 <= hi /\ 0 < sw.2) scored ->
  0 <= foldr Rplus 0 scored.*2 /\
  lo * foldr Rplus 0 scored.*2
    <= foldr Rplus 0 (zip_with Rmult scored.*1 scored.*2)
    <= hi * foldr Rplus 0 scored.*2.
Proof.
  induction 1 as [|[s w] rest [Hs Hw] _ IH]; cbn; [lra|].
  cbn in Hs, Hw. nra.
Qed.

Lemma weighted_average_between (scored : list (R * R)) (lo hi : R) :
  scored <> [] ->
  Forall (fun sw => lo <= sw.1 <= hi /\ 0 < sw.2) scored ->
  exists avg, np_average scored.*1 scored.*2 = Some avg /\ lo <= avg <= hi.
Proof.
  intros Hne Hall. pose proof (weighted_sum_between scored lo hi Hall) as Hsum.
  destruct scored as [|[s w] rest]; [done|].
  apply Forall_cons_1 in Hall as [[_ Hw] Hrest].
  pose proof (weighted_sum_between rest lo hi Hrest) as [Hpos _].
  unfold np_average. cbv zeta. cbn in *.
  rewrite decide_False by lra. eexists. split; [reflexivity|].
  apply div_between; lra.
Qed.

Lemma tolerance_positive (metric : string) (tolerance : R) :
  (metric, tolerance) ∈ tolerance_ranges -> 0 < tolerance.
Proof.
  intros H. apply list_elem_of_In in H. cbn in H.
  repeat destruct H as [H|H]; try (injection H as <- <-; lra). done.
Qed.

Lemma default_metric_weights_positive :
  map_Forall (fun _ w => 0 < w) default_metric_weights.
Proof.
  unfold default_metric_weights.
  repeat (apply map_Forall_insert_2; [lra|]).
  apply map_Forall_empty.
Qed.

Lemma dict_get_positive (weights : gmap string R) (metric : string) :
  map_Forall (fun _ w => 0 < w) weights -> 0 < dict_get weights metric 1.
Proof.
  intros Hall. unfold dict_get.
  destruct (weights !! metric) as [w|] eqn:Hw; cbn; [|lra].
  by apply (Hall metric).
Qed.

Lemma similarity_of_between (user_metrics ref_metrics : gmap string (option R))
    (weights : gmap string R) (metric : string) (tolerance s w : R) :
  0 < tolerance ->
  similarity_of user_metrics ref_metrics weights (metric, tolerance) = Some (s, w) ->
  exists user_val ref_val,
    user_metrics !! metric = Some (Some user_val) /\
    ref_metrics !! metric = Some (Some ref_val) /\
    s = Rmax 0 (100 * (1 - Rabs (user_val - ref_val) / (2 * tolerance))) /\
    w = dict_get weights metric 1 /\
    0 <= s <= 100.
Proof.
  intros Htol. unfold similarity_of.
  destruct (user_metrics !! metric) as [[user_val|]|]; try discriminate.
  destruct (ref_metrics !! metric) as [[ref_val|]|]; try discriminate.
  cbv zeta. intros [= <- <-]. exists user_val, ref_val.
  repeat apply conj; try reflexivity.
  - apply Rmax_l.
  - assert (Hdev : 0 <= Rabs (user_val - ref_val) / (2 * tolerance)).
    { apply Rmult_le_pos; [apply Rabs_pos|].
      left. apply Rinv_0_lt_compat. lra. }
    apply Rmax_lub; lra.
Qed.

Lemma omap_all_none {A B} (f : A -> option B) (l : list A) :
  (forall x, x ∈ l -> f x = None) -> omap f l = [].
Proof.
  induction l as [|x l IH]; [done|]. intros H. cbn.
  rewrite (H x) by (apply elem_of_cons; auto).
  apply IH. intros y Hy. apply H, elem_of_cons. auto.
Qed.

Lemma omap_not_nil {A B} (f : A -> option B) (l : list A) (x : A) (y : B) :
  x ∈ l -> f x = Some y -> omap f l <> [].
Proof.
  intros Hin Hf Hnil.
  assert (Hy : y ∈ omap f l) by (apply list_elem_of_omap; eauto).
  rewrite Hnil in Hy. by apply not_elem_of_nil in Hy.
Qed.

(** The score under positive weights, from bounds on every similarity that
    enters the average. *)
Lemma similarity_score_between
    (user_metrics ref_metrics : gmap string (option R))
    (metric_weights : option (gmap string R)) (lo hi : R) :
  map_Forall (fun _ w => 0 < w)
    (default default_metric_weights metric_weights) ->
  omap (similarity_of user_metrics ref_metrics
          (default default_metric_weights metric_weights)) tolerance_ranges
    <> [] ->
  (forall metric tolerance user_val ref_val,
     (metric, tolerance) ∈ tolerance_ranges ->
     user_metrics !! metric = Some (Some user_val) ->
     ref_metrics !! metric = Some (Some ref_val) ->
     lo <= Rmax 0 (100 * (1 - Rabs (user_val - ref_val) / (2 * tolerance)))
        <= hi) ->
  exists avg,
    compute_similarity_score user_metrics ref_metrics metric_weights
      = Some (round1 avg) /\ lo <= avg <= hi.
Proof.
  intros Hweights Hne Hsim. unfold compute_similarity_score. cbv zeta.
  set (scored := omap _ tolerance_ranges) in *.
  destruct (weighted_average_between scored lo hi Hne) as (avg & Havg & Hbounds).
  { apply List.Forall_forall. intros [s w] Hin.
    apply list_elem_of_In, list_elem_of_omap in Hin
      as ([metric tolerance] & Hentry & Hof).
    apply similarity_of_between in Hof
      as (user_val & ref_val & Hu & Hr & -> & -> & _);
      [|by eapply tolerance_positive].
    split; [by eapply Hsim | by apply dict_get_positive]. }
  rewrite Havg. destruct scored as [|sw rest]; [done|].
  cbn. by exists avg.
Qed.

Lemma similarity_value_between (tolerance deviation : R) :
  0 < tolerance ->
  0 <= Rmax 0 (100 * (1 - Rabs deviation / (2 * tolerance))) <= 100.
Proof.
  intros Htol. split; [apply Rmax_l|].
  assert (Hdev : 0 <= Rabs deviation / (2 * tolerance)).
  { apply Rmult_le_pos; [apply Rabs_pos|].
    left. apply Rinv_0_lt_compat. lra. }
  apply Rmax_lub; lra.
Qed.

Lemma similarity_value_far (tolerance deviation : R) :
  0 < tolerance -> 2 * tolerance <= Rabs deviation ->
  Rmax 0 (100 * (1 - Rabs deviation / (2 * tolerance))) = 0.
Proof.
  intros Htol Hfar.
  assert (Hdev : 1 <= Rabs deviation / (2 * tolerance)).
  { apply (Rmult_le_reg_r (2 * tolerance)); [lra|].
    unfold Rdiv. rewrite Rmult_assoc, Rinv_l by lra. lra. }
  unfold Rmax. destruct Rle_dec; lra.
Qed.

Lemma similarity_value_same (tolerance value : R) :
  Rmax 0 (100 * (1 - Rabs (value - value) / (2 * tolerance))) = 100.
Proof.
  replace (value - value) with 0 by lra. rewrite Rabs_R0.
  unfold Rdiv. rewrite Rmult_0_l. unfold Rmax. destruct Rle_dec; lra.
Qed.

Lemma compared_is_scored (user_metrics ref_metrics : gmap string (option R))
    (weights : gmap string R) (metric : string) (tolerance user_val ref_val : R) :
  (metric, tolerance) ∈ tolerance_ranges ->
  user_metrics !! metric = Some (Some user_val) ->
  ref_metrics !! metric = Some (Some ref_val) ->
  omap (similarity_of user_metrics ref_metrics weights) tolerance_ranges <> [].
Proof.
  intros Hin Hu Hr. eapply omap_not_nil; [exact Hin|].
  unfold similarity_of. rewrite Hu, Hr. reflexivity.
Qed.

Lemma similarity_score_positive_weights
    (user_metrics ref_metrics : gmap string (option R))
    (metric_weights : option (gmap string R)) :
  map_Forall (fun _ w => 0 < w)
    (default default_metric_weights metric_weights) ->
  exists score,
    compute_similarity_score user_metrics ref_metrics metric_weights
      = Some score /\ 0 <= score <= 100.
Proof.
  intros Hweights.
  destruct (omap (similarity_of user_metrics ref_metrics
                    (default default_metric_weights metric_weights))
              tolerance_ranges) as [|sw rest] eqn:Hscored.
  - exists 50. split; [|lra].
    unfold compute_similarity_score. cbv zeta. by rewrite Hscored.
  - destruct (similarity_score_between user_metrics ref_metrics metric_weights
                0 100 Hweights) as (avg & -> & Havg).
    + by rewrite Hscored.
    + intros metric tolerance user_val ref_val Hin _ _.
      apply similarity_value_between. by eapply tolerance_positive.
    + eexists. split; [reflexivity|]. by apply round1_between.
Qed.

Lemma similarity_score_identical (metrics : gmap string (option R))
    (metric_weights : option (gmap string R))
    (metric : string) (tolerance value : R) :
  map_Forall (fun _ w => 0 < w)
    (default default_metric_weights metric_weights) ->
  (metric, tolerance) ∈ tolerance_ranges ->
  metrics !! metric = Some (Some value) ->
  compute_similarity_score metrics metrics metric_weights = Some 100.
Proof.
  intros Hweights Hin Hvalue.
  destruct (similarity_score_between metrics metrics metric_weights
              100 100 Hweights) as (avg & -> & Havg).
  - by eapply compared_is_scored.
  - intros m t user_val ref_val _ Hu Hr. rewrite Hu in Hr.
    injection Hr as <-. rewrite similarity_value_same. lra.
  - replace avg with (IZR 1000 / 10) by lra. rewrite round1_tenths.
    f_equal. lra.
Qed.

(** X28. With the built-in weights the similarity score is always returned
    and lies between 0 and 100.  It is 50 when no metric of the tolerance
    table is measured (present and not NaN) on both sides, 100 when the two
    dicts are the same and measure at least one such metric, and 0 when at
    least one is measured on both sides and each of those deviates by twice
    its tolerance or more. *)
Theorem similarity_score_range
    (user_metrics ref_metrics : gmap string (option R)) :
  let compared := fun metric tolerance user_val ref_val =>
    (metric, tolerance) ∈ tolerance_ranges /\
    user_metrics !! metric = Some (Some user_val) /\
    ref_metrics !! metric = Some (Some ref_val) in
  (exists score,
     compute_similarity_score user_metrics ref_metrics None = Some score /\
     0 <= score <= 100) /\
  ((forall metric tolerance user_val ref_val,
      ~ compared metric tolerance user_val ref_val) ->
   compute_similarity_score user_metrics ref_metrics None = Some 50) /\
  ((exists metric tolerance value,
      (metric, tolerance) ∈ tolerance_ranges /\
      user_metrics !! metric = Some (Some value)) ->
   compute_similarity_score user_metrics user_metrics None = Some 100) /\
  ((exists metric tolerance user_val ref_val,
      compared metric tolerance user_val ref_val) ->
   (forall metric tolerance user_val ref_val,
      compared metric tolerance user_val ref_val ->
      2 * tolerance <= Rabs (user_val - ref_val)) ->
   compute_similarity_score user_metrics ref_metrics None = Some 0).
Proof.
  intros compared. repeat apply conj.
  - apply similarity_score_positive_weights, default_metric_weights_positive.
  - intros Hnone. unfold compute_similarity_score. cbv zeta.
    rewrite omap_all_none; [reflexivity|].
    intros [metric tolerance] Hin. unfold similarity_of.
    destruct (user_metrics !! metric) as [[user_val|]|] eqn:Hu; try reflexivity.
    destruct (ref_metrics !! metric) as [[ref_val|]|] eqn:Hr; try reflexivity.
    by destruct (Hnone metric tolerance user_val ref_val).
  - intros (metric & tolerance & value & Hin & Hvalue).
    eapply similarity_score_identical;
      [apply default_metric_weights_positive | exact Hin | exact Hvalue].
  - intros (metric & tolerance & user_val & ref_val & Hin & Hu & Hr) Hfar.
    destruct (similarity_score_between user_metrics ref_metrics None 0 0
                default_metric_weights_positive) as (avg & -> & Havg).
    + by eapply compared_is_scored.
    + intros m t u r Hm Hmu Hmr. rewrite similarity_value_far; [lra| |].
      * by eapply tolerance_positive.
      * by apply (Hfar m t u r).
    + replace avg with (IZR 0 / 10) by lra. rewrite round1_tenths.
      f_equal. lra.
Qed.

Lemma similarity_score_range_witness :
  compute_similarity_score
    {[ "hip_rotation"%string := Some 30; "spine_lean"%string := None ]}
    {[ "hip_rotation"%string := Some 30; "spine_lean"%string := None ]}
    None = Some 100.
Proof.
  apply (proj1 (proj2 (proj2
           (similarity_score_range
              {[ "hip_rotation"%string := Some 30; "spine_lean"%string := None ]}
              {[ "hip_rotation"%string := Some 30; "spine_lean"%string := None ]})))).
  exists "hip_rotation"%string, 20, 30. split; [|reflexivity].
  apply list_elem_of_In. cbn. tauto.
Defined.

Lemma zero_weights_sum (scored : list (R * R)) :
  Forall (fun sw => sw.2 = 0) scored -> foldr Rplus 0 scored.*2 = 0.
Proof.
  induction 1 as [|[s w] rest Hw _ IH]; cbn in *; [reflexivity|]. lra.
Qed.

(** X29. With weights of the caller that are all positive the score is
    again returned and within [0, 100], and 100 for identical dicts that
    measure a metric of the tolerance table.  When at least one metric is
    compared and every compared metric is given weight zero, the function
    does not fall back on 50: the average raises. *)
Theorem similarity_score_custom_weights
    (user_metrics ref_metrics : gmap string (option R))
    (weights : gmap string R) :
  let compared := fun metric tolerance user_val ref_val =>
    (metric, tolerance) ∈ tolerance_ranges /\
    user_metrics !! metric = Some (Some user_val) /\
    ref_metrics !! metric = Some (Some ref_val) in
  (map_Forall (fun _ w => 0 < w) weights ->
   (exists score,
      compute_similarity_score user_metrics ref_metrics (Some weights)
        = Some score /\ 0 <= score <= 100) /\
   ((exists metric tolerance value,
       (metric, tolerance) ∈ tolerance_ranges /\
       user_metrics !! metric = Some (Some value)) ->
    compute_similarity_score user_metrics user_metrics (Some weights)
      = Some 100)) /\
  ((exists metric tolerance user_val ref_val,
      compared metric tolerance user_val ref_val) ->
   (forall metric tolerance user_val ref_val,
      compared metric tolerance user_val ref_val ->
      weights !! metric = Some 0) ->
   compute_similarity_score user_metrics ref_metrics (Some weights) = None).
Proof.
  intros compared. split; [intros Hweights; split|].
  - by apply similarity_score_positive_weights.
  - intros (metric & tolerance & value & Hin & Hvalue).
    by eapply similarity_score_identical.
  - intros (metric & tolerance & user_val & ref_val & Hin & Hu & Hr) Hzero.
    pose proof (compared_is_scored user_metrics ref_metrics weights
                  metric tolerance user_val ref_val Hin Hu Hr) as Hne.
    unfold compute_similarity_score. cbv zeta. cbn [default].
    set (scored := omap _ tolerance_ranges) in *.
    assert (Hsum : foldr Rplus 0 scored.*2 = 0).
    { apply zero_weights_sum, List.Forall_forall. intros [s w] Hsw.
      apply list_elem_of_In, list_elem_of_omap in Hsw as ([m t] & Hm & Hof).
      apply similarity_of_between in Hof as (u & r & Hmu & Hmr & _ & -> & _);
        [|by eapply tolerance_positive].
      cbn. unfold dict_get. by rewrite (Hzero m t u r). }
    destruct scored as [|sw rest]; [done|].
    unfold np_average. cbv zeta. rewrite Hsum.
    rewrite decide_True by reflexivity. reflexivity.
Qed.

Lemma similarity_score_custom_weights_witness :
  compute_similarity_score
    {[ "hip_rotation"%string := Some 30 ]} {[ "hip_rotation"%string := Some 42 ]}
    (Some {[ "hip_rotation"%string := 0 ]}) = None.
Proof.
  apply (proj2 (similarity_score_custom_weights
                  {[ "hip_rotation"%string := Some 30 ]}
                  {[ "hip_rotation"%string := Some 42 ]}
                  {[ "hip_rotation"%string := 0 ]})).
  - exists "hip_rotation"%string, 20, 30, 42. repeat apply conj; try reflexivity.
    apply list_elem_of_In. cbn. tauto.
  - intros metric tolerance user_val ref_val (_ & Hu & _).
    apply lookup_singleton_Some in Hu as [<- _]. reflexivity.
Defined.

(** ** Phase-weighted score *)

Lemma add_phase_invariant (phase_scores : gmap string (option R))
    (weights : list (string * R)) :
  (forall phase score,
     phase_scores !! phase = Some (Some score) -> 0 <= score <= 100) ->
  Forall (fun entry => 0 <= entry.2) weights ->
  forall sums : R * R,
    0 <= sums.2 /\ 0 <= sums.1 <= 100 * sums.2 ->
    let result := foldl (add_phase phase_scores) sums weights in
    0 <= result.2 /\ 0 <= result.1 <= 100 * result.2.
Proof.
  intros Hscores. induction 1 as [|[phase weight] rest Hw _ IH];
    intros [weighted_sum total_weight] Hsums; [exact Hsums|].
  cbn [foldl]. apply IH. unfold add_phase. cbn in Hw, Hsums.
  destruct (phase_scores !! phase) as [[score|]|] eqn:Hscore; cbn; try lra.
  apply Hscores in Hscore. nra.
Qed.

Lemma add_phase_scored (phase_scores : gmap string (option R))
    (weighted_sum total_weight : R) (phase : string) (weight score : R) :
  phase_scores !! phase = Some (Some score) ->
  add_phase phase_scores (weighted_sum, total_weight) (phase, weight)
    = (weighted_sum + score * weight, total_weight + weight).
Proof. intros H. unfold add_phase. by rewrite H. Qed.

Lemma add_phase_unscored (phase_scores : gmap string (option R))
    (weights : list (string * R)) (sums : R * R) :
  (forall entry score,
     entry ∈ weights -> phase_scores !! entry.1 <> Some (Some score)) ->
  foldl (add_phase phase_scores) sums weights = sums.
Proof.
  induction weights as [|[phase weight] rest IH]; intros Hnone; [reflexivity|].
  cbn [foldl].
  assert (Hstep : add_phase phase_scores sums (phase, weight) = sums).
  { unfold add_phase. destruct sums as [weighted_sum total_weight].
    destruct (phase_scores !! phase) as [[score|]|] eqn:Hscore; try reflexivity.
    destruct (Hnone (phase, weight) score);
      [apply elem_of_cons; auto | exact Hscore]. }
  rewrite Hstep. apply IH.
  intros entry score Hin. apply Hnone, elem_of_cons. auto.
Qed.

Lemma phase_similarity_scores_between
    (user_phase_metrics ref_phase_metrics : gmap string (gmap string (option R)))
    (names : list string) (scores : gmap string R) :
  map_Forall (fun _ score => 0 <= score <= 100) scores ->
  exists phase_scores,
    foldl (score_phase user_phase_metrics ref_phase_metrics) (Some scores) names
      = Some phase_scores /\
    map_Forall (fun _ score => 0 <= score <= 100) phase_scores /\
    forall phase, is_Some (phase_scores !! phase) ->
                  is_Some (scores !! phase) \/ phase ∈ names.
Proof.
  revert scores. induction names as [|name names IH]; intros scores Hscores.
  - exists scores. cbn. auto.
  - cbn [foldl]. unfold score_phase at 2. cbn [mbind option_bind].
    destruct (user_phase_metrics !! name) as [user_metrics|];
      [destruct (ref_phase_metrics !! name) as [ref_metrics|]|].
    + destruct (similarity_score_positive_weights user_metrics ref_metrics None
                  default_metric_weights_positive) as (score & -> & Hscore).
      cbn [mbind option_bind].
      destruct (IH (<[name := score]> scores)) as (result & -> & Hall & Hkeys);
        [by apply map_Forall_insert_2|].
      exists result. repeat apply conj; try done.
      intros phase Hphase. destruct (Hkeys phase Hphase) as [Hin|Hin].
      * destruct (decide (name = phase)) as [->|Hne].
        -- right. apply elem_of_cons. auto.
        -- left. by rewrite lookup_insert_ne in Hin.
      * right. apply elem_of_cons. auto.
    + destruct (IH scores Hscores) as (result & -> & Hall & Hkeys).
      exists result. repeat apply conj; try done.
      intros phase Hphase. destruct (Hkeys phase Hphase); auto.
      right. apply elem_of_cons. auto.
    + destruct (IH scores Hscores) as (result & -> & Hall & Hkeys).
      exists result. repeat apply conj; try done.
      intros phase Hphase. destruct (Hkeys phase Hphase); auto.
      right. apply elem_of_cons. auto.
Qed.

Lemma phase_weighted_score_between (phase_scores : gmap string (option R))
    (cfg : option config) :
  (forall phase score,
     phase_scores !! phase = Some (Some score) -> 0 <= score <= 100) ->
  Forall (fun entry => 0 <= entry.2) (get_phase_weights cfg) ->
  0 <= compute_phase_weighted_score phase_scores cfg <= 100.
Proof.
  intros Hscores Hweights. unfold compute_phase_weighted_score. cbv zeta.
  pose proof (add_phase_invariant phase_scores (get_phase_weights cfg)
                Hscores Hweights (0, 0)) as Hinv.
  cbv zeta in Hinv.
  destruct (foldl _ _ _) as [weighted_sum total_weight].
  cbn in Hinv. destruct Hinv as [_ Hsum]; [lra|].
  case_decide; [|lra].
  apply round1_between, div_between; lra.
Qed.

Lemma default_weights_not_negative :
  Forall (fun entry : string * R => 0 <= entry.2) default_weights.
Proof. repeat apply List.Forall_cons; try apply List.Forall_nil; cbn; lra. Qed.

(** X30. The phase-weighted score lies between 0 and 100 whenever the phase
    scores do and no weight is negative; it is the default 50 when no phase
    of the weights has a score that is not NaN.  With the built-in weights
    and all four phases scored it is 0.15 preparation + 0.25 load + 0.35
    contact + 0.25 follow_through rounded to one decimal.  The phase scores
    the pipeline passes are always computed, lie between 0 and 100 and
    belong to the four phases, and so does their weighted score. *)
Theorem phase_weighted_score_range (phase_scores : gmap string (option R))
    (cfg : option config) :
  ((forall phase score,
      phase_scores !! phase = Some (Some score) -> 0 <= score <= 100) ->
   Forall (fun entry => 0 <= entry.2) (get_phase_weights cfg) ->
   0 <= compute_phase_weighted_score phase_scores cfg <= 100) /\
  ((forall entry score,
      entry ∈ get_phase_weights cfg ->
      phase_scores !! entry.1 <> Some (Some score)) ->
   compute_phase_weighted_score phase_scores cfg = 50) /\
  (forall preparation load contact follow_through,
     phase_scores !! "preparation"%string = Some (Some preparation) ->
     phase_scores !! "load"%string = Some (Some load) ->
     phase_scores !! "contact"%string = Some (Some contact) ->
     phase_scores !! "follow_through"%string = Some (Some follow_through) ->
     compute_phase_weighted_score phase_scores None
       = round1 (0.15 * preparation + 0.25 * load + 0.35 * contact
                 + 0.25 * follow_through)) /\
  (forall user_phase_metrics ref_phase_metrics,
     exists scores,
       compute_phase_similarity_scores user_phase_metrics ref_phase_metrics
         = Some scores /\
       (forall phase score,
          scores !! phase = Some score ->
          0 <= score <= 100 /\ phase ∈ phase_names) /\
       0 <= compute_phase_weighted_score (Some <$> scores) None <= 100).
Proof.
  repeat apply conj.
  - apply phase_weighted_score_between.
  - intros Hnone. unfold compute_phase_weighted_score. cbv zeta.
    rewrite add_phase_unscored by exact Hnone.
    rewrite decide_False by lra. reflexivity.
  - intros preparation load contact follow_through Hp Hl Hc Hf.
    unfold compute_phase_weighted_score. cbv zeta.
    cbn [get_phase_weights default_weights foldl].
    rewrite (add_phase_scored _ _ _ _ _ _ Hp), (add_phase_scored _ _ _ _ _ _ Hl),
      (add_phase_scored _ _ _ _ _ _ Hc), (add_phase_scored _ _ _ _ _ _ Hf).
    rewrite decide_True by lra. f_equal. lra.
  - intros user_phase_metrics ref_phase_metrics.
    destruct (phase_similarity_scores_between user_phase_metrics
                ref_phase_metrics phase_names ∅)
      as (scores & Hscores & Hall & Hkeys); [apply map_Forall_empty|].
    exists scores. split; [exact Hscores | split].
    + intros phase score Hphase. split; [by apply (Hall phase)|].
      destruct (Hkeys phase) as [[? Hempty]|Hin]; [by eexists| |exact Hin].
      by rewrite lookup_empty in Hempty.
    + apply phase_weighted_score_between;
        [|apply default_weights_not_negative].
      intros phase score. rewrite lookup_fmap.
      destruct (scores !! phase) as [s|] eqn:Hs; [|discriminate].
      intros [= <-]. by apply (Hall phase).
Qed.

Lemma phase_weighted_score_range_witness :
  compute_phase_weighted_score
    {[ "preparation"%string := Some 80; "load"%string := Some 60;
       "contact"%string := Some 70; "follow_through"%string := Some 90 ]} None
    = round1 (0.15 * 80 + 0.25 * 60 + 0.35 * 70 + 0.25 * 90).
Proof.
  by apply (proj1 (proj2 (proj2 (phase_weighted_score_range
              {[ "preparation"%string := Some 80; "load"%string := Some 60;
                 "contact"%string := Some 70;
                 "follow_through"%string := Some 90 ]} None)))).
Defined.
